(** * go-ansiterm: parameter decoding and the Windows console event handler

    A shallow embedding of the CSI parameter helpers of package [ansiterm]
    and of [WindowsAnsiEventHandler] of package [winterm], with the
    properties the specification states about them and further properties
    of the code.  Module [Winterm] holds the handler that defers a wrap
    with [wrapNext]; module [MarginHandler] the earlier handler of
    win_event_handler.go.

    Conventions.
    - Go [int] is the 64-bit integer of the Windows/amd64 build; [SHORT] is
      [int16] and [WORD] is [uint16].  All are carried by [Z]; every
      arithmetic result is wrapped explicitly ([wrap16], [wrap64]).
    - [[]byte] is [list byte]; a Go [string] is a [string].
    - Calls to [logger] are not modelled: they do not touch the handler or
      the console. *)

From Stdlib Require Import ZArith List Bool Lia.
From Stdlib Require Import Strings.String Strings.Byte.
Import ListNotations.
Local Open Scope Z_scope.

(** ** Machine integers *)

(** Two's complement reduction of [z] to a signed [w]-bit integer. *)
Definition wrap_signed (w : Z) (z : Z) : Z :=
  (z + 2 ^ (w - 1)) mod 2 ^ w - 2 ^ (w - 1).

Definition wrap16 : Z -> Z := wrap_signed 16.
Definition wrap64 : Z -> Z := wrap_signed 64.

Definition MaxInt64 : Z := 2 ^ 63 - 1.
Definition MinInt64 : Z := - 2 ^ 63.

(** Go's [len] as an [int]. *)
Definition len {A} (l : list A) : Z := Z.of_nat (List.length l).

(** Go errors.  [EBackend] stands for any error a console or file call
    returns; [ErrShortWrite] is [io.ErrShortWrite]; [ESyntax] and [ERange]
    are the two [strconv.NumError] causes. *)
Inductive error : Type :=
| EBackend (code : Z)
| ErrShortWrite
| ESyntax
| ERange.

(** ** Package ansiterm: CSI parameter helpers *)

Module Ansiterm.

(** [strconv.Atoi] of the Go standard library (64-bit [int]): an optional
    sign followed by at least one decimal digit; the value saturates at the
    [int64] bounds with [ERange]; any other text gives [0] with
    [ESyntax]. *)
Definition digit_of (b : byte) : option Z :=
  let n := Z.of_N (Byte.to_N b) in
  if (48 <=? n) && (n <=? 57) then Some (n - 48) else None.

Fixpoint digits_value (acc : Z) (bs : list byte) : option Z :=
  match bs with
  | [] => Some acc
  | b :: rest =>
      match digit_of b with
      | Some d => digits_value (acc * 10 + d) rest
      | None => None
      end
  end.

Definition Atoi (s : string) : Z * option error :=
  let bs := list_byte_of_string s in
  let '(neg, ds) :=
    match bs with
    | "-"%byte :: rest => (true, rest)
    | "+"%byte :: rest => (false, rest)
    | _ => (false, bs)
    end in
  match ds with
  | [] => (0, Some ESyntax)
  | _ =>
      match digits_value 0 ds with
      | None => (0, Some ESyntax)
      | Some un =>
          if negb neg && (MaxInt64 <? un) then (MaxInt64, Some ERange)
          else if neg && (- MinInt64 <? un) then (MinInt64, Some ERange)
          else (if neg then - un else un, None)
      end
  end.

(** The [for _, v := range bytes] loop of [parseParams], carrying
    [paramBuff] and [params]. *)
Fixpoint parseParams_loop (bytes paramBuff : list byte) (params : list string)
  : list byte * list string :=
  match bytes with
  | [] => (paramBuff, params)
  | v :: rest =>
      if Byte.eqb v ";"%byte then
        if 0 <? len paramBuff then
          (* Completed parameter, append it to the list *)
          parseParams_loop rest [] (params ++ [string_of_list_byte paramBuff])
        else parseParams_loop rest paramBuff params
      else parseParams_loop rest (paramBuff ++ [v]) params
  end.

Definition parseParams (bytes : list byte) : list string * option error :=
  let '(paramBuff, params) := parseParams_loop bytes [] [] in
  (* Last parameter may not be terminated with ';' *)
  let params :=
    if 0 <? len paramBuff then params ++ [string_of_list_byte paramBuff]
    else params in
  (params, None).

Definition getInts (params : list string) (minCount dflt : Z) : list Z :=
  let ints := fold_left (fun ints v => ints ++ [fst (Atoi v)]) params [] in
  if len ints <? minCount then
    let remaining := minCount - len ints in
    ints ++ repeat dflt (Z.to_nat remaining)
  else ints.

(** [getInts(params, 1, dflt)[0]]: the index is always in range (lemma
    [getInts_min_length]), so the out-of-range panic is not represented. *)
Definition getInt (params : list string) (dflt : Z) : Z :=
  nth 0 (getInts params 1 dflt) 0.

Definition getEraseParam (params : list string) : Z :=
  let param := getInt params 0 in
  if (param <? 0) || (3 <? param) then 0 else param.

(** *** The decoding as the specification words it

    Split on [;] (every separator delimits a token, so [n] separators give
    [n + 1] tokens), decode each token in base 10 with the default for an
    empty token, and pad to the minimum count. *)
Fixpoint splitOn (sep : byte) (bs : list byte) : list (list byte) :=
  match bs with
  | [] => [[]]
  | b :: rest =>
      if Byte.eqb b sep then [] :: splitOn sep rest
      else
        match splitOn sep rest with
        | tok :: toks => (b :: tok) :: toks
        | [] => [[b]]
        end
  end.

(** The token the loop of [parseParams] is still collecting is the head of
    what [splitOn] produces for the remaining bytes. *)
Definition prependTok (pb : list byte) (toks : list (list byte))
  : list (list byte) :=
  match toks with
  | t :: ts => (pb ++ t) :: ts
  | [] => [pb]
  end.

(** The value of a run of decimal digits, most significant first. *)
Definition decimal (tok : list byte) : Z :=
  fold_left (fun acc b => acc * 10 + (Z.of_N (Byte.to_N b) - 48)) tok 0.

Definition isDigit (b : byte) : bool :=
  (48 <=? Z.of_N (Byte.to_N b)) && (Z.of_N (Byte.to_N b) <=? 57).

Definition padTo (minCount dflt : Z) (ints : list Z) : list Z :=
  ints ++ repeat dflt (Z.to_nat (minCount - len ints)).

Definition decodeToken (tok : list byte) : Z :=
  fst (Atoi (string_of_list_byte tok)).

Definition nonEmpty (tok : list byte) : bool :=
  match tok with [] => false | _ => true end.

Definition spec_params (buf : list byte) (minCount dflt : Z) : list Z :=
  padTo minCount dflt
    (map (fun tok => if nonEmpty tok then decodeToken tok else dflt)
         (splitOn ";"%byte buf)).

End Ansiterm.

(** ** Package winterm: console types *)

Module Winterm.

(** [COORD], [SMALL_RECT], [CHAR_INFO] and [CONSOLE_SCREEN_BUFFER_INFO] of
    the Win32 bindings, with the fields the handler reads.  [SHORT] and
    [WORD] fields are carried by [Z]. *)
Record COORD : Type := { X : Z; Y : Z }.

Record SMALL_RECT : Type := { Left : Z; Top : Z; Right : Z; Bottom : Z }.

Record CHAR_INFO : Type := { UnicodeChar : Z; CharAttributes : Z }.

Record CONSOLE_SCREEN_BUFFER_INFO : Type := {
  Size : COORD;
  CursorPosition : COORD;
  Attributes : Z;
  Window : SMALL_RECT;
  MaximumWindowSize : COORD }.

Record scrollRegion : Type := { top : Z; bottom : Z }.

(** The handler.  [fd] and [file] are the console and the file of the
    backend world below; [infoReset] and [curInfo] point to structures that
    are never written through, so they are held by value, [curInfo] being
    [None] for [nil]. *)
Record WindowsAnsiEventHandler : Type := {
  infoReset : CONSOLE_SCREEN_BUFFER_INFO;
  sr : scrollRegion;
  buffer : list byte;
  wrapNext : bool;
  drewMarginByte : bool;
  inverted : bool;
  attributes : Z;
  marginByte : byte;
  curInfo : option CONSOLE_SCREEN_BUFFER_INFO;
  curPos : COORD }.

Definition set_sr (v : scrollRegion) (h : WindowsAnsiEventHandler) :=
  {| infoReset := infoReset h; sr := v; buffer := buffer h;
     wrapNext := wrapNext h; drewMarginByte := drewMarginByte h;
     inverted := inverted h; attributes := attributes h;
     marginByte := marginByte h; curInfo := curInfo h; curPos := curPos h |}.

Definition set_buffer (v : list byte) (h : WindowsAnsiEventHandler) :=
  {| infoReset := infoReset h; sr := sr h; buffer := v;
     wrapNext := wrapNext h; drewMarginByte := drewMarginByte h;
     inverted := inverted h; attributes := attributes h;
     marginByte := marginByte h; curInfo := curInfo h; curPos := curPos h |}.

Definition set_wrapNext (v : bool) (h : WindowsAnsiEventHandler) :=
  {| infoReset := infoReset h; sr := sr h; buffer := buffer h;
     wrapNext := v; drewMarginByte := drewMarginByte h;
     inverted := inverted h; attributes := attributes h;
     marginByte := marginByte h; curInfo := curInfo h; curPos := curPos h |}.

Definition set_drewMarginByte (v : bool) (h : WindowsAnsiEventHandler) :=
  {| infoReset := infoReset h; sr := sr h; buffer := buffer h;
     wrapNext := wrapNext h; drewMarginByte := v;
     inverted := inverted h; attributes := attributes h;
     marginByte := marginByte h; curInfo := curInfo h; curPos := curPos h |}.

Definition set_inverted (v : bool) (h : WindowsAnsiEventHandler) :=
  {| infoReset := infoReset h; sr := sr h; buffer := buffer h;
     wrapNext := wrapNext h; drewMarginByte := drewMarginByte h;
     inverted := v; attributes := attributes h;
     marginByte := marginByte h; curInfo := curInfo h; curPos := curPos h |}.

Definition set_attributes (v : Z) (h : WindowsAnsiEventHandler) :=
  {| infoReset := infoReset h; sr := sr h; buffer := buffer h;
     wrapNext := wrapNext h; drewMarginByte := drewMarginByte h;
     inverted := inverted h; attributes := v;
     marginByte := marginByte h; curInfo := curInfo h; curPos := curPos h |}.

Definition set_marginByte (v : byte) (h : WindowsAnsiEventHandler) :=
  {| infoReset := infoReset h; sr := sr h; buffer := buffer h;
     wrapNext := wrapNext h; drewMarginByte := drewMarginByte h;
     inverted := inverted h; attributes := attributes h;
     marginByte := v; curInfo := curInfo h; curPos := curPos h |}.

Definition set_curInfo (v : option CONSOLE_SCREEN_BUFFER_INFO)
  (h : WindowsAnsiEventHandler) :=
  {| infoReset := infoReset h; sr := sr h; buffer := buffer h;
     wrapNext := wrapNext h; drewMarginByte := drewMarginByte h;
     inverted := inverted h; attributes := attributes h;
     marginByte := marginByte h; curInfo := v; curPos := curPos h |}.

Definition set_curPos (v : COORD) (h : WindowsAnsiEventHandler) :=
  {| infoReset := infoReset h; sr := sr h; buffer := buffer h;
     wrapNext := wrapNext h; drewMarginByte := drewMarginByte h;
     inverted := inverted h; attributes := attributes h;
     marginByte := marginByte h; curInfo := curInfo h; curPos := v |}.

Definition set_X (v : Z) (c : COORD) : COORD := {| X := v; Y := Y c |}.
Definition set_Y (v : Z) (c : COORD) : COORD := {| X := X c; Y := v |}.

(** Modelled from the spec: constants.go is not among the sources; the C0
    bytes are the ASCII codes the spec names (BEL is 0x07) and
    [ANSI_SGR_RESET] is SGR code 0. *)
Definition ANSI_BEL : byte := x07.
Definition ANSI_BACKSPACE : byte := x08.
Definition ANSI_TAB : byte := x09.
Definition ANSI_LINE_FEED : byte := x0a.
Definition ANSI_VERTICAL_TAB : byte := x0b.
Definition ANSI_FORM_FEED : byte := x0c.
Definition ANSI_CARRIAGE_RETURN : byte := x0d.
Definition ANSI_SGR_RESET : Z := 0.

(** [WCHAR(b)] for a byte [b]. *)
Definition WCHAR (b : byte) : Z := Z.of_N (Byte.to_N b).

(** Modelled from the spec: utilities.go is not among the sources.  The
    spec describes [effective_sr] as clamping into
    [[window.top, window.bottom]] after adding the bias: [ensureInRange]
    clamps and [AddInRange] adds (in [int16]) and then clamps. *)
Definition ensureInRange (n min max : Z) : Z :=
  if n <? min then min else if max <? n then max else n.

Definition AddInRange (n increment min max : Z) : Z :=
  ensureInRange (wrap16 (n + increment)) min max.

(** ** Results and the handler monad *)

(** What a call leaves behind: a value, a non-nil [error], or a panic.
    The state reached so far is kept in every case, as in Go. *)
Inductive result (A : Type) : Type :=
| Ok (a : A)
| Err (e : error)
| Panic (msg : string).

Arguments Ok {A} a.
Arguments Err {A} e.
Arguments Panic {A} msg.

Definition M (S A : Type) : Type := S -> result A * S.

Definition ret {S A} (a : A) : M S A := fun s => (Ok a, s).

Definition bind {S A B} (c : M S A) (k : A -> M S B) : M S B :=
  fun s =>
    match c s with
    | (Ok a, s') => k a s'
    | (Err e, s') => (Err e, s')
    | (Panic m, s') => (Panic m, s')
    end.

Definition panic {S A} (msg : string) : M S A := fun s => (Panic msg, s).

Declare Scope handler_scope.
Delimit Scope handler_scope with handler.
Notation "x <- c1 ;; c2" := (bind c1 (fun x => c2))
  (at level 61, c1 at next level, right associativity) : handler_scope.
Notation "' pat <- c1 ;; c2" :=
  (bind c1 (fun x => match x with pat => c2 end))
  (at level 61, pat pattern, c1 at next level, right associativity)
  : handler_scope.
Notation "c1 ;; c2" := (bind c1 (fun _ => c2))
  (at level 61, right associativity) : handler_scope.

(** ** The console backend

    The Win32 bindings are outside the sources; the handler is modelled
    against any implementation of the calls it makes.  Each call may change
    the world and returns Go's [error] ([None] for [nil]).  [fileWrite] is
    the [Write] method of [os.File]: the count of bytes written and the error. *)
Class ConsoleBackend (World : Type) : Type := {
  GetConsoleScreenBufferInfo :
    World -> (error + CONSOLE_SCREEN_BUFFER_INFO) * World;
  SetConsoleCursorPosition : COORD -> World -> option error * World;
  SetConsoleTextAttribute : Z -> World -> option error * World;
  ScrollConsoleScreenBuffer :
    SMALL_RECT -> SMALL_RECT -> COORD -> CHAR_INFO ->
    World -> option error * World;
  WriteConsoleOutput :
    list CHAR_INFO -> COORD -> COORD -> SMALL_RECT ->
    World -> option error * World;
  fileWrite : list byte -> World -> (nat * option error) * World }.

(** Modelled from the spec: cursor_helpers.go is not among the sources.
    Per the spec the cursor motions compute a position clamped to the
    window and call [SetConsoleCursorPosition]; they are taken as
    operations on the console alone. *)
Class CursorHelpers (World : Type) : Type := {
  moveCursorVertical : Z -> World -> option error * World;
  moveCursorHorizontal : Z -> World -> option error * World;
  moveCursorLine : Z -> World -> option error * World;
  moveCursorColumn : Z -> World -> option error * World;
  setCursorPosition : COORD -> COORD -> World -> option error * World }.

(** Modelled from the spec: attr_translation.go is not among the sources.
    [collectAnsiIntoWindowsAttributes] is the spec's
    [translate(current_attrs, inverted, default_attrs, sgr_param)] and
    [invertAttributes] exchanges the foreground and background nibbles. *)
Class AttributeTranslator : Type := {
  collectAnsiIntoWindowsAttributes : Z -> bool -> Z -> Z -> Z * bool;
  invertAttributes : Z -> Z }.

(** ** The handler's operations *)

Section Handler.

Context {World : Type}.
Context {backend : ConsoleBackend World}.
Context {cursor : CursorHelpers World}.
Context {translator : AttributeTranslator}.

Local Open Scope handler_scope.

(** A handler method: it runs on the handler and the world it is attached
    to. *)
Definition H (A : Type) : Type := M (WindowsAnsiEventHandler * World) A.

Definition gets {A} (f : WindowsAnsiEventHandler -> A) : H A :=
  fun s => (Ok (f (fst s)), s).

Definition modify (f : WindowsAnsiEventHandler -> WindowsAnsiEventHandler)
  : H unit :=
  fun s => (Ok tt, (f (fst s), snd s)).

(** A console call returning only an [error]. *)
Definition call (f : World -> option error * World) : H unit :=
  fun s =>
    let '(e, w') := f (snd s) in
    (match e with None => Ok tt | Some e => Err e end, (fst s, w')).

Definition getInfo : H CONSOLE_SCREEN_BUFFER_INFO :=
  fun s =>
    let '(r, w') := GetConsoleScreenBufferInfo (snd s) in
    (match r with inl e => Err e | inr info => Ok info end, (fst s, w')).

(** [h.buffer.WriteByte(c)]: always returns [nil]. *)
Definition buffer_WriteByte (c : byte) : H unit :=
  modify (fun h => set_buffer (buffer h ++ [c]) h).

(** [h.buffer.WriteTo(h.file)] of [bytes.Buffer]: one [Write] of the unread
    bytes; the bytes the writer reports written are consumed, the buffer is
    reset only when all of them were written without error. *)
Definition buffer_WriteTo : H Z :=
  fun s =>
    let h := fst s in
    let nBytes := len (buffer h) in
    if 0 <? nBytes then
      let '((m, e), w') := fileWrite (buffer h) (snd s) in
      if nBytes <? Z.of_nat m then
        (Panic "bytes.Buffer.WriteTo: invalid Write count", (h, w'))
      else
        let h' := set_buffer (skipn m (buffer h)) h in
        match e with
        | Some e => (Err e, (h', w'))
        | None =>
            if negb (Z.of_nat m =? nBytes) then (Err ErrShortWrite, (h', w'))
            else (Ok (Z.of_nat m), (set_buffer [] h', w'))
        end
    else (Ok 0, (set_buffer [] h, snd s)).

(** clearWrap clears the state where the cursor is in the margin waiting
    for the next character before wrapping the line. *)
Definition clearWrap : H unit :=
  modify (set_wrapNext false) ;;
  modify (set_drewMarginByte false).

Definition Flush : H unit :=
  modify (set_curInfo None) ;;
  n <- gets (fun h => len (buffer h)) ;;
  (if 0 <? n then _ <- buffer_WriteTo ;; ret tt else ret tt) ;;
  wn <- gets wrapNext ;;
  drew <- gets drewMarginByte ;;
  if wn && negb drew then
    info <- getInfo ;;
    mb <- gets marginByte ;;
    let charInfo :=
      [{| UnicodeChar := WCHAR mb; CharAttributes := Attributes info |}] in
    let size := {| X := 1; Y := 1 |} in
    let position := {| X := 0; Y := 0 |} in
    let region :=
      {| Left := X (CursorPosition info); Top := Y (CursorPosition info);
         Right := X (CursorPosition info); Bottom := Y (CursorPosition info) |} in
    call (WriteConsoleOutput charInfo size position region) ;;
    modify (set_drewMarginByte true)
  else ret tt.

(** getCurrentInfo ensures that the current console screen information has
    been queried since the last call to Flush. *)
Definition getCurrentInfo : H (COORD * CONSOLE_SCREEN_BUFFER_INFO) :=
  ci <- gets curInfo ;;
  match ci with
  | None =>
      info <- getInfo ;;
      modify (set_curInfo (Some info)) ;;
      modify (set_curPos (CursorPosition info)) ;;
      ret (CursorPosition info, info)
  | Some info =>
      pos <- gets curPos ;;
      ret (pos, info)
  end.

Definition updatePos (pos : COORD) : H unit :=
  ci <- gets curInfo ;;
  match ci with
  | None => panic "failed to call getCurrentInfo before calling updatePos"
  | Some _ => modify (set_curPos pos)
  end.

(** *** scroll_helper.go *)

Definition scroll (param : Z) (sr : scrollRegion) : H unit :=
  info <- getInfo ;;
  let sr :=
    if top sr >=? bottom sr then
      {| top := 0;
         bottom := wrap16 (wrap16 (Bottom (Window info) - Top (Window info)) + 1) |}
    else sr in
  let rect := Window info in
  (* Current scroll region in Windows backing buffer coordinates *)
  let top := wrap16 (Top rect + top sr) in
  let bottom := wrap16 (Top rect + bottom sr) in
  (* Area from backing buffer to be copied *)
  let scrollRect :=
    {| Top := wrap16 (top + wrap16 param);
       Bottom := wrap16 (bottom + wrap16 param);
       Left := Left rect;
       Right := Right rect |} in
  (* Clipping region should be the original scroll region *)
  let clipRegion :=
    {| Top := top; Bottom := bottom; Left := Left rect; Right := Right rect |} in
  (* Origin to which area should be copied *)
  let destOrigin := {| X := Left rect; Y := top |} in
  attrs <- gets attributes ;;
  let char := {| UnicodeChar := 32; CharAttributes := attrs |} in
  call (ScrollConsoleScreenBuffer scrollRect clipRegion destOrigin char).

Definition scrollUp (param : Z) : H unit :=
  r <- gets sr ;;
  scroll param r.

Definition scrollDown (param : Z) : H unit :=
  r <- gets sr ;;
  scroll (wrap64 (- param)) r.

(** [effectiveSr] in the variant that returns the region alone, which is
    the one [simulateLF] below calls. *)
Definition effectiveSr (h : WindowsAnsiEventHandler) (window : SMALL_RECT)
  : scrollRegion :=
  let top := AddInRange (Top window) (top (sr h)) (Top window) (Bottom window) in
  let bottom :=
    AddInRange (Top window) (bottom (sr h)) (Top window) (Bottom window) in
  if top >=? bottom then {| top := Top window; bottom := Bottom window |}
  else {| top := top; bottom := bottom |}.

(** [effectiveSr] of win_event_handler.go, which also reports whether a
    custom region is active. *)
Definition effectiveSrActive (h : WindowsAnsiEventHandler) (window : SMALL_RECT)
  : scrollRegion * bool :=
  let top := AddInRange (Top window) (top (sr h)) (Top window) (Bottom window) in
  let bottom :=
    AddInRange (Top window) (bottom (sr h)) (Top window) (Bottom window) in
  let '(top, bottom) :=
    if top >=? bottom then (Top window, Bottom window) else (top, bottom) in
  ({| top := top; bottom := bottom |},
   negb (top =? Top window) || negb (bottom =? Bottom window)).

(** *** simulateLF, Print, Execute *)

(** simulateLF simulates a LF or CR+LF by scrolling if necessary to handle
    the current cursor position and scroll region settings, in which case it
    returns true.  If no special handling is necessary, then it does nothing
    and returns false. *)
Definition simulateLF (includeCR : bool) : H bool :=
  wn <- gets wrapNext ;;
  (if wn then Flush ;; clearWrap else ret tt) ;;
  '(pos, info) <- getCurrentInfo ;;
  h <- gets (fun h => h) ;;
  let sr := effectiveSr h (Window info) in
  if Y pos =? bottom sr then
    (* Scrolling is necessary. Let Windows automatically scroll if the
       scrolling region is the full window. *)
    if (top sr =? Top (Window info)) && (bottom sr =? Bottom (Window info)) then
      (if includeCR then updatePos (set_X 0 pos) else ret tt) ;;
      ret false
    else
      (* A custom scroll region is active. Scroll the window manually to
         simulate the LF. *)
      Flush ;;
      scrollUp 1 ;;
      (if includeCR then call (SetConsoleCursorPosition (set_X 0 pos))
       else ret tt) ;;
      ret true
  else if Y pos <? Bottom (Window info) then
    (* Let Windows handle the LF. *)
    let pos := set_Y (wrap16 (Y pos + 1)) pos in
    let pos := if includeCR then set_X 0 pos else pos in
    updatePos pos ;;
    ret false
  else
    (* The cursor is at the bottom of the screen but outside the scroll
       region. Skip the LF. *)
    (if includeCR then
       Flush ;;
       call (SetConsoleCursorPosition (set_X 0 pos))
     else ret tt) ;;
    ret true.

Definition Print (b : byte) : H unit :=
  wn <- gets wrapNext ;;
  (if wn then
     mb <- gets marginByte ;;
     buffer_WriteByte mb ;;
     clearWrap ;;
     _ <- simulateLF true ;;
     ret tt
   else ret tt) ;;
  '(pos, info) <- getCurrentInfo ;;
  if X pos =? wrap16 (X (Size info) - 1) then
    modify (set_wrapNext true) ;;
    modify (set_marginByte b)
  else
    let pos := set_X (wrap16 (X pos + 1)) pos in
    updatePos pos ;;
    buffer_WriteByte b.

Definition IND : H unit :=
  handled <- simulateLF false ;;
  if negb handled then
    (* Windows LF will reset the cursor column position. Write the LF and
       restore the cursor position. *)
    '(pos, _) <- getCurrentInfo ;;
    buffer_WriteByte ANSI_LINE_FEED ;;
    if negb (X pos =? 0) then
      Flush ;;
      call (SetConsoleCursorPosition pos)
    else ret tt
  else ret tt.

Definition Execute (b : byte) : H unit :=
  if Byte.eqb b ANSI_TAB then
    (* Move to the next tab stop, but preserve auto-wrap if already set. *)
    wn <- gets wrapNext ;;
    if negb wn then
      '(pos, info) <- getCurrentInfo ;;
      let pos := set_X (wrap16 (wrap16 (X pos + 8) - Z.rem (X pos) 8)) pos in
      let pos :=
        if X pos >=? X (Size info) then set_X (wrap16 (X (Size info) - 1)) pos
        else pos in
      Flush ;;
      call (SetConsoleCursorPosition pos)
    else ret tt
  else if Byte.eqb b ANSI_BEL then
    buffer_WriteByte ANSI_BEL
  else if Byte.eqb b ANSI_BACKSPACE then
    wn <- gets wrapNext ;;
    (if wn then Flush ;; clearWrap else ret tt) ;;
    '(pos, _) <- getCurrentInfo ;;
    if 0 <? X pos then
      updatePos (set_X (wrap16 (X pos - 1)) pos) ;;
      buffer_WriteByte ANSI_BACKSPACE
    else ret tt
  else if Byte.eqb b ANSI_VERTICAL_TAB || Byte.eqb b ANSI_FORM_FEED then
    (* Treat as true LF. *)
    IND
  else if Byte.eqb b ANSI_LINE_FEED then
    (* Simulate a CR and LF for now since there is no way in go-ansiterm to
       tell if the LF should include CR. *)
    handled <- simulateLF true ;;
    if handled then ret tt else buffer_WriteByte ANSI_LINE_FEED
  else if Byte.eqb b ANSI_CARRIAGE_RETURN then
    wn <- gets wrapNext ;;
    (if wn then Flush ;; clearWrap else ret tt) ;;
    '(pos, _) <- getCurrentInfo ;;
    if negb (X pos =? 0) then
      updatePos (set_X 0 pos) ;;
      buffer_WriteByte ANSI_CARRIAGE_RETURN
    else ret tt
  else ret tt.

(** *** Cursor motion *)

Definition CUU (param : Z) : H unit :=
  Flush ;;
  clearWrap ;;
  call (moveCursorVertical (wrap64 (- param))).

Definition CUD (param : Z) : H unit :=
  Flush ;;
  clearWrap ;;
  call (moveCursorVertical param).

Definition CUF (param : Z) : H unit :=
  Flush ;;
  clearWrap ;;
  call (moveCursorHorizontal param).

Definition CUB (param : Z) : H unit :=
  Flush ;;
  clearWrap ;;
  call (moveCursorHorizontal (wrap64 (- param))).

Definition CNL (param : Z) : H unit :=
  Flush ;;
  clearWrap ;;
  call (moveCursorLine param).

Definition CPL (param : Z) : H unit :=
  Flush ;;
  clearWrap ;;
  call (moveCursorLine (wrap64 (- param))).

Definition CHA (param : Z) : H unit :=
  Flush ;;
  clearWrap ;;
  call (moveCursorColumn param).

Definition VPA (param : Z) : H unit :=
  Flush ;;
  clearWrap ;;
  info <- getInfo ;;
  let pos := CursorPosition info in
  let pos :=
    set_Y (ensureInRange (wrap16 (param - 1)) (Top (Window info))
             (Bottom (Window info))) pos in
  call (SetConsoleCursorPosition pos).

Definition CUP (row col : Z) : H unit :=
  Flush ;;
  clearWrap ;;
  info <- getInfo ;;
  let rect := Window info in
  let rowS := AddInRange (wrap16 (row - 1)) (Top rect) (Top rect) (Bottom rect) in
  let colS := ensureInRange (wrap16 (col - 1)) 0 (wrap16 (X (Size info) - 1)) in
  let position := {| X := colS; Y := rowS |} in
  call (setCursorPosition position (Size info)).

Definition HVP (row col : Z) : H unit :=
  Flush ;;
  clearWrap ;;
  CUP row col.

(** *** SGR and DECSTBM *)

(** One iteration of the [for _, attr := range params] loop of [SGR]. *)
Definition SGR_attr (h : WindowsAnsiEventHandler) (attr : Z)
  : WindowsAnsiEventHandler :=
  if attr =? ANSI_SGR_RESET then
    set_attributes (Attributes (infoReset h)) h
  else
    let '(a, i) :=
      collectAnsiIntoWindowsAttributes (attributes h) (inverted h)
        (Attributes (infoReset h)) (wrap16 attr) in
    set_inverted i (set_attributes a h).

Definition SGR (params : list Z) : H unit :=
  Flush ;;
  (if len params <=? 0 then
     modify (fun h => set_attributes (Attributes (infoReset h)) h) ;;
     modify (set_inverted false)
   else modify (fun h => fold_left SGR_attr params h)) ;;
  attributes <- gets attributes ;;
  inv <- gets inverted ;;
  let attributes := if inv then invertAttributes attributes else attributes in
  call (SetConsoleTextAttribute attributes).

Definition DECSTBM (top bottom : Z) : H unit :=
  Flush ;;
  (* Windows is 0 indexed, Linux is 1 indexed *)
  modify (set_sr {| top := wrap16 (top - 1); bottom := wrap16 (bottom - 1) |}) ;;
  (* This command also moves the cursor to the origin. *)
  clearWrap ;;
  call (SetConsoleCursorPosition {| X := 0; Y := 0 |}).

(** The ten cursor-motion commands of the handler interface. *)
Inductive CursorMotion : Type :=
| MotionCUU (param : Z)
| MotionCUD (param : Z)
| MotionCUF (param : Z)
| MotionCUB (param : Z)
| MotionCNL (param : Z)
| MotionCPL (param : Z)
| MotionCHA (param : Z)
| MotionVPA (param : Z)
| MotionCUP (row col : Z)
| MotionHVP (row col : Z).

Definition runMotion (c : CursorMotion) : H unit :=
  match c with
  | MotionCUU n => CUU n
  | MotionCUD n => CUD n
  | MotionCUF n => CUF n
  | MotionCUB n => CUB n
  | MotionCNL n => CNL n
  | MotionCPL n => CPL n
  | MotionCHA n => CHA n
  | MotionVPA n => VPA n
  | MotionCUP r c => CUP r c
  | MotionHVP r c => HVP r c
  end.

(** *** Invariants of handler methods *)

(** [keeps P c]: whatever [c] returns, a handler satisfying [P] before
    satisfies [P] after. *)
Definition keeps {A} (P : WindowsAnsiEventHandler -> Prop) (c : H A) : Prop :=
  forall s, P (fst s) -> P (fst (snd (c s))).

(** The handler is out of the margin: no deferred wrap is pending. *)
Definition wrapCleared (h : WindowsAnsiEventHandler) : Prop :=
  wrapNext h = false /\ drewMarginByte h = false.

(** [P] does not read the buffer, the cached console information or the
    cached position. *)
Definition cacheBlind (P : WindowsAnsiEventHandler -> Prop) : Prop :=
  (forall h b, P h -> P (set_buffer b h)) /\
  (forall h ci, P h -> P (set_curInfo ci h)) /\
  (forall h p, P h -> P (set_curPos p h)).

(** *** Scrolling and BEL as the specification words them

    [spec_scroll]: source and clip rectangle are the region, the
    destination is the region's top shifted by [delta]; [spec_scrollUp n]
    is [spec_scroll (-n)] over the effective region.  [spec_Execute_BEL]
    flushes and then writes BEL to the file directly. *)
Definition spec_scroll (delta : Z) (region : scrollRegion) : H unit :=
  info <- getInfo ;;
  attrs <- gets attributes ;;
  let rect :=
    {| Left := Left (Window info); Top := top region;
       Right := Right (Window info); Bottom := bottom region |} in
  call (ScrollConsoleScreenBuffer rect rect
          {| X := Left (Window info); Y := wrap16 (top region + wrap16 delta) |}
          {| UnicodeChar := 32; CharAttributes := attrs |}).

Definition spec_scrollUp (n : Z) : H unit :=
  info <- getInfo ;;
  h <- gets (fun h => h) ;;
  spec_scroll (wrap64 (- n)) (effectiveSr h (Window info)).

(** [h.file.Write(bytes)] with the count dropped. *)
Definition file_Write (bytes : list byte) : H unit :=
  fun s =>
    let '((_, e), w') := fileWrite bytes (snd s) in
    (match e with None => Ok tt | Some e => Err e end, (fst s, w')).

Definition spec_Execute_BEL : H unit :=
  Flush ;;
  file_Write [ANSI_BEL].

(** *** The effective scroll region as the specification words it

    The stored region biased by the window top and clamped into the window;
    the full window when that range is empty or equal to the window. *)
Definition spec_effective_sr (h : WindowsAnsiEventHandler) (window : SMALL_RECT)
  : scrollRegion :=
  let top := AddInRange (Top window) (top (sr h)) (Top window) (Bottom window) in
  let bottom :=
    AddInRange (Top window) (bottom (sr h)) (Top window) (Bottom window) in
  let empty := bottom <? top in
  let whole := (top =? Top window) && (bottom =? Bottom window) in
  if empty || whole then {| top := Top window; bottom := Bottom window |}
  else {| top := top; bottom := bottom |}.

End Handler.

(** ** A recording console

    An implementation of the backend that keeps what the console reports,
    the bytes the file received and the console calls made, oldest first.
    It is used to run the handler on concrete inputs.  Bytes written to the
    file are recorded, not interpreted; [con_room] is the number of bytes
    the file still accepts before its [Write] fails ([None]: no limit). *)

Inductive ConsoleCall : Type :=
| CallSetConsoleCursorPosition (pos : COORD)
| CallSetConsoleTextAttribute (attrs : Z)
| CallScrollConsoleScreenBuffer
    (scrollRect clipRegion : SMALL_RECT) (destOrigin : COORD) (char : CHAR_INFO)
| CallWriteConsoleOutput
    (charInfo : list CHAR_INFO) (size position : COORD) (region : SMALL_RECT)
| CallMoveCursorVertical (param : Z)
| CallMoveCursorHorizontal (param : Z)
| CallMoveCursorLine (param : Z)
| CallMoveCursorColumn (param : Z)
| CallSetCursorPosition (position sizeBuffer : COORD).

Record Console : Type := {
  con_info : CONSOLE_SCREEN_BUFFER_INFO;
  con_file : list byte;
  con_calls : list ConsoleCall;
  con_room : option nat }.

Definition record (c : ConsoleCall) (w : Console) : Console :=
  {| con_info := con_info w; con_file := con_file w;
     con_calls := con_calls w ++ [c]; con_room := con_room w |}.

Definition set_cursor (pos : COORD) (w : Console) : Console :=
  {| con_info :=
       {| Size := Size (con_info w); CursorPosition := pos;
          Attributes := Attributes (con_info w); Window := Window (con_info w);
          MaximumWindowSize := MaximumWindowSize (con_info w) |};
     con_file := con_file w; con_calls := con_calls w; con_room := con_room w |}.

Definition set_text_attribute (a : Z) (w : Console) : Console :=
  {| con_info :=
       {| Size := Size (con_info w); CursorPosition := CursorPosition (con_info w);
          Attributes := a; Window := Window (con_info w);
          MaximumWindowSize := MaximumWindowSize (con_info w) |};
     con_file := con_file w; con_calls := con_calls w; con_room := con_room w |}.

Definition console_write (bs : list byte) (w : Console)
  : (nat * option error) * Console :=
  match con_room w with
  | None =>
      ((List.length bs, None),
       {| con_info := con_info w; con_file := con_file w ++ bs;
          con_calls := con_calls w; con_room := None |})
  | Some room =>
      let m := Nat.min room (List.length bs) in
      ((m, if (room <? List.length bs)%nat then Some (EBackend 112) else None),
       {| con_info := con_info w; con_file := con_file w ++ firstn m bs;
          con_calls := con_calls w; con_room := Some (room - m)%nat |})
  end.

#[export] Instance recordingBackend : ConsoleBackend Console := {
  GetConsoleScreenBufferInfo w := (inr (con_info w), w);
  SetConsoleCursorPosition pos w :=
    (None, record (CallSetConsoleCursorPosition pos) (set_cursor pos w));
  SetConsoleTextAttribute a w :=
    (None, record (CallSetConsoleTextAttribute a) (set_text_attribute a w));
  ScrollConsoleScreenBuffer scrollRect clipRegion destOrigin char w :=
    (None,
     record (CallScrollConsoleScreenBuffer scrollRect clipRegion destOrigin char) w);
  WriteConsoleOutput charInfo size position region w :=
    (None, record (CallWriteConsoleOutput charInfo size position region) w);
  fileWrite := console_write }.

#[export] Instance recordingCursor : CursorHelpers Console := {
  moveCursorVertical n w := (None, record (CallMoveCursorVertical n) w);
  moveCursorHorizontal n w := (None, record (CallMoveCursorHorizontal n) w);
  moveCursorLine n w := (None, record (CallMoveCursorLine n) w);
  moveCursorColumn n w := (None, record (CallMoveCursorColumn n) w);
  setCursorPosition p sz w := (None, record (CallSetCursorPosition p sz) w) }.

(** An 80 by 25 console whose window is the whole buffer, cursor at
    [(x, y)], attributes light grey on black. *)
Definition console80x25 (x y : Z) : Console :=
  {| con_info :=
       {| Size := {| X := 80; Y := 25 |};
          CursorPosition := {| X := x; Y := y |};
          Attributes := 7;
          Window := {| Left := 0; Top := 0; Right := 79; Bottom := 24 |};
          MaximumWindowSize := {| X := 80; Y := 25 |} |};
     con_file := []; con_calls := []; con_room := None |}.

(** [CreateWinEventHandler] when [GetConsoleScreenBufferInfo] succeeds with
    [infoReset]. *)
Definition CreateWinEventHandler (infoReset : CONSOLE_SCREEN_BUFFER_INFO)
  : WindowsAnsiEventHandler :=
  {| infoReset := infoReset;
     sr := {| top := 0; bottom := 0 |};
     buffer := [];
     wrapNext := false;
     drewMarginByte := false;
     inverted := false;
     attributes := Attributes infoReset;
     marginByte := x00;
     curInfo := None;
     curPos := {| X := 0; Y := 0 |} |}.

(** The handler created on [console80x25 0 0]. *)
Definition handler80x25 : WindowsAnsiEventHandler :=
  CreateWinEventHandler (con_info (console80x25 0 0)).

(** The same console with a file that accepts [room] more bytes. *)
Definition with_room (room : nat) (w : Console) : Console :=
  {| con_info := con_info w; con_file := con_file w;
     con_calls := con_calls w; con_room := Some room |}.

(** ** The remaining commands of the handler *)

(** Modelled from the spec: erase_helpers.go is not among the sources.
    [clearRange(attributes, start, end)] clears the cells from [start] to
    [end] with the given attributes; it is taken as an operation on the
    console alone. *)
Class EraseHelpers (World : Type) : Type := {
  clearRange : Z -> COORD -> COORD -> World -> option error * World }.

Section Commands.

Context {World : Type}.
Context {backend : ConsoleBackend World}.
Context {cursor : CursorHelpers World}.
Context {translator : AttributeTranslator}.
Context {erase : EraseHelpers World}.

Local Open Scope handler_scope.

(** *** scroll_helper.go: page scrolling *)

Definition scrollPage (param : Z) : @H World unit :=
  info <- getInfo ;;
  scroll param {| top := 0; bottom := wrap16 (Y (Size info) - 1) |}.

Definition scrollPageUp : @H World unit := scrollPage 1.

Definition scrollPageDown : @H World unit := scrollPage (-1).

(** *** Commands *)

Definition DECTCEM (visible : bool) : @H World unit :=
  Flush ;;
  clearWrap ;;
  ret tt.

Definition ED (param : Z) : @H World unit :=
  Flush ;;
  clearWrap ;;
  info <- getInfo ;;
  let origin := {| X := 0; Y := 0 |} in
  let last :=
    {| X := wrap16 (X (Size info) - 1); Y := wrap16 (Y (Size info) - 1) |} in
  (* var start, end COORD; switch param *)
  let '(start, end_) :=
    if param =? 0 then (CursorPosition info, last)
    else if param =? 1 then (origin, CursorPosition info)
    else if param =? 2 then (origin, last)
    else if param =? 3 then (origin, last)
    else (origin, origin) in
  attrs <- gets attributes ;;
  call (clearRange attrs start end_) ;;
  if (param =? 2) || (param =? 3) then
    call (setCursorPosition origin (Size info))
  else ret tt.

Definition EL (param : Z) : @H World unit :=
  Flush ;;
  clearWrap ;;
  info <- getInfo ;;
  let origin := {| X := 0; Y := 0 |} in
  let lineStart := {| X := 0; Y := Y (CursorPosition info) |} in
  let lineEnd := {| X := X (Size info); Y := Y (CursorPosition info) |} in
  (* var start, end COORD; switch param *)
  let '(start, end_) :=
    if param =? 0 then (CursorPosition info, lineEnd)
    else if param =? 1 then (lineStart, CursorPosition info)
    else if param =? 2 then (lineStart, lineEnd)
    else (origin, origin) in
  attrs <- gets attributes ;;
  call (clearRange attrs start end_).

Definition IL (param : Z) : @H World unit :=
  Flush ;;
  clearWrap ;;
  scrollDown param ;;
  EL 2.

Definition DL (param : Z) : @H World unit :=
  Flush ;;
  clearWrap ;;
  scrollUp param.

Definition SU (param : Z) : @H World unit :=
  Flush ;;
  clearWrap ;;
  scrollPageUp.

Definition SD (param : Z) : @H World unit :=
  Flush ;;
  clearWrap ;;
  scrollPageDown.

(** DA cannot be implemented because it must send data on the VT100 input
    stream, which is not available to go-ansiterm. *)
Definition DA (params : list string) : @H World unit := ret tt.

Definition RI : @H World unit :=
  Flush ;;
  clearWrap ;;
  info <- getInfo ;;
  h <- gets (fun h => h) ;;
  let sr := effectiveSr h (Window info) in
  if Y (CursorPosition info) =? top sr then scrollDown 1
  else call (moveCursorVertical (-1)).

(** The commands, other than the cursor motions, that call [clearWrap]. *)
Inductive WrapClearing : Type :=
| ClearDECTCEM (visible : bool)
| ClearED (param : Z)
| ClearEL (param : Z)
| ClearIL (param : Z)
| ClearDL (param : Z)
| ClearSU (param : Z)
| ClearSD (param : Z)
| ClearDECSTBM (top bottom : Z)
| ClearRI.

Definition runClearing (c : WrapClearing) : @H World unit :=
  match c with
  | ClearDECTCEM v => DECTCEM v
  | ClearED n => ED n
  | ClearEL n => EL n
  | ClearIL n => IL n
  | ClearDL n => DL n
  | ClearSU n => SU n
  | ClearSD n => SD n
  | ClearDECSTBM t b => DECSTBM t b
  | ClearRI => RI
  end.

(** *** Package ansiterm: the dispatch of [CSI ... h] and [CSI ... l]

    [hDispatch] and [lDispatch] of the parser, with the parser's
    [eventHandler] being this handler. *)
Definition hDispatch (params : list string) : @H World unit :=
  if (len params =? 1) && String.eqb (nth 0 params EmptyString) "?25" then
    DECTCEM true
  else ret tt.

Definition lDispatch (params : list string) : @H World unit :=
  if (len params =? 1) && String.eqb (nth 0 params EmptyString) "?25" then
    DECTCEM false
  else ret tt.

(** *** Specifications of handler methods *)

(** [keepsState I c]: whatever [c] returns, a handler and world satisfying
    [I] before satisfy [I] after. *)
Definition keepsState {A} (I : WindowsAnsiEventHandler * World -> Prop)
  (c : @H World A) : Prop :=
  forall s, I s -> I (snd (c s)).

(** [keepsOrReaches I J c]: whatever [c] returns, a handler and world
    satisfying [I] before satisfy [I] or [J] after. *)
Definition keepsOrReaches {A} (I J : WindowsAnsiEventHandler * World -> Prop)
  (c : @H World A) : Prop :=
  forall s, I s -> I (snd (c s)) \/ J (snd (c s)).

(** [steady I]: the property [I] of the handler and its world survives
    every step [Flush] can take: dropping the cache, moving the cached
    position, setting the drew-margin-byte flag, the console calls, and a
    file write, which moreover reports no more bytes than the buffer
    holds. *)
Definition steady (I : WindowsAnsiEventHandler * World -> Prop) : Prop :=
  (forall h w ci, I (h, w) -> I (set_curInfo ci h, w))
  /\ (forall h w p, I (h, w) -> I (set_curPos p h, w))
  /\ (forall h w v, I (h, w) -> I (set_drewMarginByte v h, w))
  /\ (forall h w, I (h, w) -> I (h, snd (GetConsoleScreenBufferInfo w)))
  /\ (forall h w p, I (h, w) -> I (h, snd (SetConsoleCursorPosition p w)))
  /\ (forall h w r1 r2 d c,
        I (h, w) -> I (h, snd (ScrollConsoleScreenBuffer r1 r2 d c w)))
  /\ (forall h w ci sz p r,
        I (h, w) -> I (h, snd (WriteConsoleOutput ci sz p r w)))
  /\ (forall h w, I (h, w) ->
        (fst (fst (fileWrite (buffer h) w)) <= List.length (buffer h))%nat
        /\ I (set_buffer
                (skipn (fst (fst (fileWrite (buffer h) w))) (buffer h)) h,
              snd (fileWrite (buffer h) w))).

(** The bytes accepted by [Print] that have not reached the file: the
    buffer, then the margin byte of a deferred wrap. *)
Definition pending (h : WindowsAnsiEventHandler) : list byte :=
  buffer h ++ (if wrapNext h then [marginByte h] else []).

(** [fileOf] reads off a world the bytes its file has received: [Write]
    reports at most the bytes it was given and appends exactly the bytes it
    reports, and the console calls leave the file alone. *)
Definition writerContract (fileOf : World -> list byte) : Prop :=
  (forall bs w,
      (fst (fst (fileWrite bs w)) <= List.length bs)%nat
      /\ fileOf (snd (fileWrite bs w))
         = fileOf w ++ firstn (fst (fst (fileWrite bs w))) bs)
  /\ (forall w, fileOf (snd (GetConsoleScreenBufferInfo w)) = fileOf w)
  /\ (forall p w, fileOf (snd (SetConsoleCursorPosition p w)) = fileOf w)
  /\ (forall r1 r2 d c w,
        fileOf (snd (ScrollConsoleScreenBuffer r1 r2 d c w)) = fileOf w)
  /\ (forall ci sz p r w,
        fileOf (snd (WriteConsoleOutput ci sz p r w)) = fileOf w).

(** [Write] never reports more bytes than it was given. *)
Definition writerHonest : Prop :=
  forall bs w, (fst (fst (fileWrite bs w)) <= List.length bs)%nat.

Definition panicked {A} (r : result A) : bool :=
  match r with Panic _ => true | _ => false end.

(** [c] does not panic; [neverPanicsCached]: provided the console
    information is cached. *)
Definition neverPanics {A} (c : @H World A) : Prop :=
  forall s, panicked (fst (c s)) = false.

Definition neverPanicsCached {A} (c : @H World A) : Prop :=
  forall s, curInfo (fst s) <> None -> panicked (fst (c s)) = false.

(** What the file holds followed by what is still pending. *)
Definition stream (fileOf : World -> list byte)
  (s : WindowsAnsiEventHandler * World) : list byte :=
  fileOf (snd s) ++ pending (fst s).

(** Out of the margin, with file and buffer making up [v]. *)
Definition flat (fileOf : World -> list byte) (v : list byte)
  (s : WindowsAnsiEventHandler * World) : Prop :=
  wrapNext (fst s) = false /\ fileOf (snd s) ++ buffer (fst s) = v.

End Commands.

(** The recording console extended with the list of [clearRange] calls. *)
Record EraseConsole : Type := {
  er_console : Console;
  er_cleared : list (Z * COORD * COORD) }.

Definition on_console {A} (f : Console -> A * Console) (w : EraseConsole)
  : A * EraseConsole :=
  let '(a, c) := f (er_console w) in
  (a, {| er_console := c; er_cleared := er_cleared w |}).

#[export] Instance eraseBackend : ConsoleBackend EraseConsole := {
  GetConsoleScreenBufferInfo := on_console GetConsoleScreenBufferInfo;
  SetConsoleCursorPosition pos := on_console (SetConsoleCursorPosition pos);
  SetConsoleTextAttribute a := on_console (SetConsoleTextAttribute a);
  ScrollConsoleScreenBuffer r1 r2 d c :=
    on_console (ScrollConsoleScreenBuffer r1 r2 d c);
  WriteConsoleOutput ci sz p r := on_console (WriteConsoleOutput ci sz p r);
  fileWrite bs := on_console (fileWrite bs) }.

#[export] Instance eraseCursor : CursorHelpers EraseConsole := {
  moveCursorVertical n := on_console (moveCursorVertical n);
  moveCursorHorizontal n := on_console (moveCursorHorizontal n);
  moveCursorLine n := on_console (moveCursorLine n);
  moveCursorColumn n := on_console (moveCursorColumn n);
  setCursorPosition p sz := on_console (setCursorPosition p sz) }.

#[export] Instance eraseRecorder : EraseHelpers EraseConsole := {
  clearRange attrs start end_ w :=
    (None,
     {| er_console := er_console w;
        er_cleared := er_cleared w ++ [(attrs, start, end_)] |}) }.

Definition eraseConsole80x25 (x y : Z) : EraseConsole :=
  {| er_console := console80x25 x y; er_cleared := [] |}.

End Winterm.

(** ** Tokens written back as a parameter buffer *)

Module Params.

(** The tokens with [;] between them. *)
Fixpoint joinTokens (toks : list (list byte)) : list byte :=
  match toks with
  | [] => []
  | [t] => t
  | t :: rest => t ++ ";"%byte :: joinTokens rest
  end.

Definition noSeparator (tok : list byte) : bool :=
  forallb (fun b => negb (Byte.eqb b ";"%byte)) tok.

(** A token [parseParams] can return: not empty and free of [;]. *)
Definition wellFormedToken (tok : list byte) : bool :=
  Ansiterm.nonEmpty tok && noSeparator tok.

End Params.

(** * The handler of win_event_handler.go

    An earlier [WindowsAnsiEventHandler] of package winterm.  It has no
    [wrapNext] and no [marginByte]: the cursor is in the margin when the
    cached column equals the buffer width, the byte printed in the last
    column stays in the buffer, and [wasInMargin] records that [Flush] has
    painted that byte and left it as the only byte of the buffer. *)

Module MarginHandler.

Import Winterm.

Record WindowsAnsiEventHandler : Type := {
  attributes : Z;
  inverted : bool;
  infoReset : CONSOLE_SCREEN_BUFFER_INFO;
  sr : scrollRegion;
  buffer : list byte;
  wasInMargin : bool;
  curInfo : option CONSOLE_SCREEN_BUFFER_INFO;
  curPos : COORD }.

Definition set_buffer (v : list byte) (h : WindowsAnsiEventHandler) :=
  {| attributes := attributes h; inverted := inverted h;
     infoReset := infoReset h; sr := sr h; buffer := v;
     wasInMargin := wasInMargin h; curInfo := curInfo h; curPos := curPos h |}.

Definition set_wasInMargin (v : bool) (h : WindowsAnsiEventHandler) :=
  {| attributes := attributes h; inverted := inverted h;
     infoReset := infoReset h; sr := sr h; buffer := buffer h;
     wasInMargin := v; curInfo := curInfo h; curPos := curPos h |}.

Definition set_curInfo (v : option CONSOLE_SCREEN_BUFFER_INFO)
  (h : WindowsAnsiEventHandler) :=
  {| attributes := attributes h; inverted := inverted h;
     infoReset := infoReset h; sr := sr h; buffer := buffer h;
     wasInMargin := wasInMargin h; curInfo := v; curPos := curPos h |}.

Definition set_curPos (v : COORD) (h : WindowsAnsiEventHandler) :=
  {| attributes := attributes h; inverted := inverted h;
     infoReset := infoReset h; sr := sr h; buffer := buffer h;
     wasInMargin := wasInMargin h; curInfo := curInfo h; curPos := v |}.

(** Modelled from the spec: constants.go is not among the sources; the
    spec gives the one-byte CSI entry as 0x9B. *)
Definition CSI_ENTRY : byte := x9b.

(** [CreateWinEventHandler] when [GetConsoleScreenBufferInfo] succeeds with
    [infoReset]; the fields the composite literal leaves out are zero. *)
Definition CreateWinEventHandler (infoReset : CONSOLE_SCREEN_BUFFER_INFO)
  : WindowsAnsiEventHandler :=
  {| attributes := Attributes infoReset;
     inverted := false;
     infoReset := infoReset;
     sr := {| top := 0; bottom := 0 |};
     buffer := [];
     wasInMargin := false;
     curInfo := None;
     curPos := {| X := 0; Y := 0 |} |}.

Section Handler.

Context {World : Type}.
Context {backend : ConsoleBackend World}.

Local Open Scope handler_scope.

Definition H (A : Type) : Type := M (WindowsAnsiEventHandler * World) A.

Definition gets {A} (f : WindowsAnsiEventHandler -> A) : H A :=
  fun s => (Ok (f (fst s)), s).

Definition modify (f : WindowsAnsiEventHandler -> WindowsAnsiEventHandler)
  : H unit :=
  fun s => (Ok tt, (f (fst s), snd s)).

Definition call (f : World -> option error * World) : H unit :=
  fun s =>
    let '(e, w') := f (snd s) in
    (match e with None => Ok tt | Some e => Err e end, (fst s, w')).

Definition getInfo : H CONSOLE_SCREEN_BUFFER_INFO :=
  fun s =>
    let '(r, w') := GetConsoleScreenBufferInfo (snd s) in
    (match r with inl e => Err e | inr info => Ok info end, (fst s, w')).

(** [err := c] where the caller goes on instead of returning [err]: the
    error becomes a value. *)
Definition attempt {A} (c : H A) : H (option error) :=
  fun s =>
    match c s with
    | (Ok _, s') => (Ok None, s')
    | (Err e, s') => (Ok (Some e), s')
    | (Panic m, s') => (Panic m, s')
    end.

(** [h.curInfo] dereferenced: a nil pointer panics. *)
Definition deref_curInfo : H CONSOLE_SCREEN_BUFFER_INFO :=
  ci <- gets curInfo ;;
  match ci with
  | Some info => ret info
  | None => panic "invalid memory address or nil pointer dereference"
  end.

(** [bytes[:n]]; the capacity is taken to be the length. *)
Definition slice_to (bytes : list byte) (n : Z) : H (list byte) :=
  if (n <? 0) || (len bytes <? n) then panic "slice bounds out of range"
  else ret (firstn (Z.to_nat n) bytes).

(** [bytes[n]]. *)
Definition index (bytes : list byte) (n : Z) : H byte :=
  match (if n <? 0 then None else nth_error bytes (Z.to_nat n)) with
  | Some b => ret b
  | None => panic "index out of range"
  end.

Definition buffer_WriteByte (c : byte) : H unit :=
  modify (fun h => set_buffer (buffer h ++ [c]) h).

Definition buffer_Write (p : list byte) : H unit :=
  modify (fun h => set_buffer (buffer h ++ p) h).

(** [h.file.Write(bytes)] with the count dropped. *)
Definition file_Write (bytes : list byte) : H unit :=
  call (fun w => let '((_, e), w') := fileWrite bytes w in (e, w')).

Definition bufferEmpty (h : WindowsAnsiEventHandler) : bool :=
  (len (buffer h) =? 0) || (wasInMargin h && (len (buffer h) =? 1)).

Definition cacheInfo : H unit :=
  ci <- gets curInfo ;;
  match ci with
  | None =>
      info <- getInfo ;;
      modify (set_curInfo (Some info)) ;;
      modify (set_curPos (CursorPosition info)) ;;
      wm <- gets wasInMargin ;;
      if wm && (X (CursorPosition info) =? wrap16 (X (Size info) - 1)) then
        modify (fun h => set_curPos (set_X (X (Size info)) (curPos h)) h)
      else ret tt
  | Some _ => ret tt
  end.

(** [h.buffer.ReadByte()] drops the first unread byte; on an empty buffer
    it returns an error, which [clearWrap] ignores. *)
Definition clearWrap : H unit :=
  h <- gets (fun h => h) ;;
  if negb (bufferEmpty h) then
    match curInfo h with
    | Some info =>
        if X (curPos h) =? X (Size info) then
          modify (fun h =>
                    set_curPos (set_X (wrap16 (X (Size info) - 1)) (curPos h)) h)
        else ret tt
    | None => ret tt
    end
  else if wasInMargin h then
    (* Skip the wrap byte -- it has already been written to the screen and
       should not be rewritten now that auto-wrap is being reset. *)
    modify (fun h => set_buffer (tl (buffer h)) h) ;;
    modify (set_wasInMargin false)
  else ret tt.

Definition Flush : H unit :=
  h <- gets (fun h => h) ;;
  if bufferEmpty h then modify (set_curInfo None)
  else
    err <- attempt cacheInfo ;;
    match err with
    | Some _ => ret tt
    | None =>
        bytes <- gets buffer ;;
        pos <- gets curPos ;;
        info <- deref_curInfo ;;
        let '(writeCount, inMargin) :=
          if X pos =? X (Size info) then
            (* We are in the margin. Write everything but the last byte. *)
            (len bytes - 1, true)
          else (len bytes, false) in
        (if 0 <? writeCount then
           chunk <- slice_to bytes writeCount ;;
           file_Write chunk
         else ret tt) ;;
        (if inMargin then
           (* Output the last byte to the screen without adjusting the
              cursor position. *)
           wrapByte <- index bytes writeCount ;;
           let charInfo :=
             [{| UnicodeChar := WCHAR wrapByte;
                 CharAttributes := Attributes info |}] in
           let size := {| X := 1; Y := 1 |} in
           let position := {| X := 0; Y := 0 |} in
           let region :=
             {| Left := wrap16 (X pos - 1); Top := Y pos;
                Right := wrap16 (X pos - 1); Bottom := Y pos |} in
           call (WriteConsoleOutput charInfo size position region) ;;
           (* Save the last byte to write again with normal wrapping next
              time a byte is printed. *)
           modify (set_buffer [wrapByte])
         else modify (set_buffer [])) ;;
        modify (set_wasInMargin inMargin) ;;
        modify (set_curInfo None)
    end.

(** [scroll] and [scrollUp] of scroll_helper.go on this handler. *)
Definition scroll (param : Z) (sr : scrollRegion) : H unit :=
  info <- getInfo ;;
  let sr :=
    if top sr >=? bottom sr then
      {| top := 0;
         bottom := wrap16 (wrap16 (Bottom (Window info) - Top (Window info)) + 1) |}
    else sr in
  let rect := Window info in
  let top := wrap16 (Top rect + top sr) in
  let bottom := wrap16 (Top rect + bottom sr) in
  let scrollRect :=
    {| Top := wrap16 (top + wrap16 param);
       Bottom := wrap16 (bottom + wrap16 param);
       Left := Left rect;
       Right := Right rect |} in
  let clipRegion :=
    {| Top := top; Bottom := bottom; Left := Left rect; Right := Right rect |} in
  let destOrigin := {| X := Left rect; Y := top |} in
  attrs <- gets attributes ;;
  let char := {| UnicodeChar := 32; CharAttributes := attrs |} in
  call (ScrollConsoleScreenBuffer scrollRect clipRegion destOrigin char).

Definition scrollUp (param : Z) : H unit :=
  r <- gets sr ;;
  scroll param r.

Definition effectiveSr (h : WindowsAnsiEventHandler) (window : SMALL_RECT)
  : scrollRegion * bool :=
  let top := AddInRange (Top window) (top (sr h)) (Top window) (Bottom window) in
  let bottom :=
    AddInRange (Top window) (bottom (sr h)) (Top window) (Bottom window) in
  let '(top, bottom) :=
    if top >=? bottom then (Top window, Bottom window) else (top, bottom) in
  ({| top := top; bottom := bottom |},
   negb (top =? Top window) || negb (bottom =? Bottom window)).

(** In [simulateLF], [Print] and [Execute] the fields of [h.curInfo] are
    read right after the cache was filled; one dereference stands for the
    reads that follow it while [h.curInfo] is not assigned. *)
Definition simulateLF (includeCR : bool) : H bool :=
  cacheInfo ;;
  (if includeCR then modify (fun h => set_curPos (set_X 0 (curPos h)) h)
   else ret tt) ;;
  info <- deref_curInfo ;;
  h <- gets (fun h => h) ;;
  let '(sr, srActive) := effectiveSr h (Window info) in
  if Y (curPos h) =? bottom sr then
    (* Scrolling is necessary. Let Windows automatically scroll if the
       scrolling region is the full window. *)
    if negb srActive then ret false
    else
      (* A custom scroll region is active. Scroll the window manually to
         simulate the LF. *)
      clearWrap ;;
      newPos <- gets curPos ;;
      Flush ;;
      scrollUp 1 ;;
      (if includeCR then call (SetConsoleCursorPosition newPos) else ret tt) ;;
      ret true
  else if Y (curPos h) <? Bottom (Window info) then
    (* Let Windows handle the LF. *)
    modify (fun h => set_curPos (set_Y (wrap16 (Y (curPos h) + 1)) (curPos h)) h) ;;
    ret false
  else
    (* The cursor is at the bottom of the screen but outside the scroll
       region. Skip the LF. *)
    (if includeCR then
       newPos <- gets curPos ;;
       clearWrap ;;
       Flush ;;
       call (SetConsoleCursorPosition newPos)
     else ret tt) ;;
    ret true.

Definition Print (b : byte) : H unit :=
  cacheInfo ;;
  pos <- gets curPos ;;
  info <- deref_curInfo ;;
  (* If the column is already in the "wrap" position, then simulate a
     CRLF. *)
  (if X pos =? X (Size info) then
     _ <- simulateLF true ;;
     (* Re-establish the cached position information. *)
     cacheInfo
   else ret tt) ;;
  modify (fun h => set_curPos (set_X (wrap16 (X (curPos h) + 1)) (curPos h)) h) ;;
  buffer_WriteByte b.

Definition IND : H unit :=
  clearWrap ;;
  handled <- simulateLF false ;;
  if negb handled then
    (* The LF was not simulated, so send it through to Windows. *)
    cacheInfo ;;
    buffer_WriteByte ANSI_LINE_FEED ;;
    (* Windows LF will reset the cursor column position. Update it to its
       old position. *)
    newPos <- gets curPos ;;
    if negb (X newPos =? 0) then
      Flush ;;
      _ <- attempt cacheInfo ;;
      call (SetConsoleCursorPosition newPos)
    else ret tt
  else ret tt.

Definition Execute (b : byte) : H unit :=
  if Byte.eqb b ANSI_TAB then
    cacheInfo ;;
    pos <- gets curPos ;;
    info <- deref_curInfo ;;
    (* Move to the next tab stop, but stay in the margin if already there. *)
    if negb (X pos =? X (Size info)) then
      let newPos := set_X (wrap16 (wrap16 (X pos + 8) - Z.rem (X pos) 8)) pos in
      let newPos :=
        if X newPos >=? X (Size info)
        then set_X (wrap16 (X (Size info) - 1)) newPos
        else newPos in
      Flush ;;
      call (SetConsoleCursorPosition newPos)
    else ret tt
  else if Byte.eqb b ANSI_BEL then
    (* BEL preserves auto-wrap, which is tricky with our buffering strategy.
       Just flush and write the byte directly. *)
    Flush ;;
    file_Write [ANSI_BEL]
  else if Byte.eqb b ANSI_BACKSPACE then
    clearWrap ;;
    cacheInfo ;;
    modify (fun h =>
              if 0 <? X (curPos h)
              then set_curPos (set_X (wrap16 (X (curPos h) - 1)) (curPos h)) h
              else h) ;;
    buffer_WriteByte b
  else if Byte.eqb b ANSI_VERTICAL_TAB || Byte.eqb b ANSI_FORM_FEED then
    (* Treat as true LF. *)
    IND
  else if Byte.eqb b ANSI_LINE_FEED then
    clearWrap ;;
    handled <- simulateLF true ;;
    if handled then ret tt else buffer_WriteByte b
  else if Byte.eqb b ANSI_CARRIAGE_RETURN then
    clearWrap ;;
    cacheInfo ;;
    modify (fun h => set_curPos (set_X 0 (curPos h)) h) ;;
    buffer_WriteByte b
  else ret tt.

(** The responses of [DA]: "I am a VT220 version 1.0, no options" and
    "I am a service class 2 terminal ...", each followed by CR LF. *)
Definition secondaryAttributes : list byte :=
  [CSI_ENTRY; x3e; x31; x3b; x31; x30; x3b; x30; x63; x0d; x0a].

Definition primaryAttributes : list byte :=
  [CSI_ENTRY; x3f; x36; x32; x3b; x31; x3b; x32; x3b; x36; x3b; x37; x3b;
   x38; x3b; x39; x63; x0d; x0a].

(** [params[0][0]] panics when there is no parameter or the first one is
    the empty string. *)
Definition DA (params : list string) : H unit :=
  match params with
  | [] => panic "index out of range"
  | EmptyString :: _ => panic "index out of range"
  | String c _ :: _ =>
      (* First character of first parameter string is '>' *)
      if Byte.eqb (Ascii.byte_of_ascii c) ">"%byte then buffer_Write secondaryAttributes
      else buffer_Write primaryAttributes
  end.

(** *** Specifications *)

Definition neverPanics {A} (c : H A) : Prop :=
  forall s, panicked (fst (c s)) = false.

(** [Write] appends what it is given whenever it returns no error, as
    [os.File.Write] promises, and appends a prefix of it otherwise; the
    console calls leave the file alone. *)
Definition fileContract (fileOf : World -> list byte) : Prop :=
  (forall bs w,
      match fileWrite bs w with
      | ((_, None), w') => fileOf w' = fileOf w ++ bs
      | ((n, Some _), w') => fileOf w' = fileOf w ++ firstn n bs
      end)
  /\ (forall w, fileOf (snd (GetConsoleScreenBufferInfo w)) = fileOf w)
  /\ (forall p w, fileOf (snd (SetConsoleCursorPosition p w)) = fileOf w)
  /\ (forall r1 r2 d c w,
        fileOf (snd (ScrollConsoleScreenBuffer r1 r2 d c w)) = fileOf w)
  /\ (forall ci sz p r w,
        fileOf (snd (WriteConsoleOutput ci sz p r w)) = fileOf w).

End Handler.

(** A console whose handle is invalid: every call fails with error 6 and
    changes nothing. *)
Definition invalidHandle : ConsoleBackend unit := {|
  GetConsoleScreenBufferInfo w := (inl (EBackend 6), w);
  SetConsoleCursorPosition _ w := (Some (EBackend 6), w);
  SetConsoleTextAttribute _ w := (Some (EBackend 6), w);
  ScrollConsoleScreenBuffer _ _ _ _ w := (Some (EBackend 6), w);
  WriteConsoleOutput _ _ _ _ w := (Some (EBackend 6), w);
  fileWrite _ w := ((0%nat, Some (EBackend 6)), w) |}.

(** The handler created on [console80x25 0 0]. *)
Definition handler80x25 : WindowsAnsiEventHandler :=
  CreateWinEventHandler (con_info (console80x25 0 0)).

End MarginHandler.

(** * Properties of the parameter helpers *)

Section ParamFacts.

Import Ansiterm.

Example parseParams_5_10 :
  parseParams (list_byte_of_string "5;10") = (["5"; "10"]%string, None).
Proof. reflexivity. Qed.

Example getInts_5_10 : getInts ["5"; "10"]%string 2 1 = [5; 10].
Proof. reflexivity. Qed.

Example Atoi_private : Atoi "?25" = (0, Some ESyntax).
Proof. reflexivity. Qed.

Example Atoi_saturates :
  Atoi "99999999999999999999" = (MaxInt64, Some ERange).
Proof. reflexivity. Qed.

Lemma len_app {A} (l1 l2 : list A) : len (l1 ++ l2) = len l1 + len l2.
Proof. unfold len. rewrite length_app. lia. Qed.

Lemma len_nonneg {A} (l : list A) : 0 <= len l.
Proof. unfold len. lia. Qed.

Lemma nonEmpty_len (tok : list byte) : (0 <? len tok) = nonEmpty tok.
Proof.
  destruct tok; [reflexivity|].
  unfold len. cbn [List.length nonEmpty]. apply Z.ltb_lt. lia.
Qed.

(** The append loop of [getInts] is a [map]. *)
Lemma append_loop_map {A B} (f : A -> B) (l : list A) (acc : list B) :
  fold_left (fun ints v => ints ++ [f v]) l acc = acc ++ map f l.
Proof.
  revert acc. induction l as [|a l IH]; intros acc; cbn.
  - now rewrite app_nil_r.
  - rewrite IH, <- app_assoc. reflexivity.
Qed.

Lemma getInts_padTo (params : list string) (minCount dflt : Z) :
  getInts params minCount dflt
  = padTo minCount dflt (map (fun v => fst (Atoi v)) params).
Proof.
  unfold getInts, padTo. rewrite append_loop_map. cbn [app].
  destruct (Z.ltb_spec (len (map (fun v => fst (Atoi v)) params)) minCount) as [Hlt|Hge].
  - reflexivity.
  - replace (Z.to_nat _) with 0%nat by lia. cbn. now rewrite app_nil_r.
Qed.

Lemma getInts_min_length (params : list string) (minCount dflt : Z) :
  minCount <= len (getInts params minCount dflt).
Proof.
  rewrite getInts_padTo. unfold padTo. rewrite len_app.
  unfold len at 2. rewrite repeat_length.
  pose proof (len_nonneg (map (fun v => fst (Atoi v)) params)). lia.
Qed.

Lemma getInt_first (params : list string) (dflt : Z) :
  getInt params dflt
  = match params with [] => dflt | p :: _ => fst (Atoi p) end.
Proof.
  unfold getInt. rewrite getInts_padTo. unfold padTo.
  destruct params as [|p ps]; reflexivity.
Qed.

Lemma prependTok_nil (bs : list byte) :
  prependTok [] (splitOn ";"%byte bs) = splitOn ";"%byte bs.
Proof.
  destruct bs as [|b bs]; cbn; [reflexivity|].
  destruct (Byte.eqb b ";"); [reflexivity|].
  destruct (splitOn _ bs); reflexivity.
Qed.

Lemma prependTok_step (pb : list byte) (v : byte) (rest : list byte) :
  Byte.eqb v ";"%byte = false ->
  prependTok pb (splitOn ";"%byte (v :: rest))
  = prependTok (pb ++ [v]) (splitOn ";"%byte rest).
Proof.
  intros Hv. cbn [splitOn]. rewrite Hv.
  destruct (splitOn ";"%byte rest) as [|t ts]; cbn.
  - reflexivity.
  - now rewrite <- app_assoc.
Qed.

(** The loop of [parseParams] followed by its final append collects the
    non-empty tokens of [splitOn], in order. *)
Lemma parseParams_loop_split (bytes pb : list byte) (params : list string) :
  (let '(paramBuff, params') := parseParams_loop bytes pb params in
   if 0 <? len paramBuff then params' ++ [string_of_list_byte paramBuff]
   else params')
  = params ++ map string_of_list_byte
                  (filter nonEmpty (prependTok pb (splitOn ";"%byte bytes))).
Proof.
  revert pb params. induction bytes as [|v rest IH]; intros pb params.
  - cbn [parseParams_loop splitOn prependTok filter]. rewrite app_nil_r.
    rewrite nonEmpty_len. destruct (nonEmpty pb); cbn; [reflexivity|].
    now rewrite app_nil_r.
  - cbn [parseParams_loop]. destruct (Byte.eqb v ";"%byte) eqn:Hv.
    + cbn [splitOn]. rewrite Hv. cbn [prependTok filter]. rewrite app_nil_r.
      rewrite nonEmpty_len. destruct (nonEmpty pb) eqn:Hpb.
      * rewrite IH, prependTok_nil, <- app_assoc. reflexivity.
      * destruct pb; [|discriminate]. rewrite IH, prependTok_nil. reflexivity.
    + rewrite IH, prependTok_step by exact Hv. reflexivity.
Qed.

Lemma parseParams_split (buf : list byte) :
  fst (parseParams buf)
  = map string_of_list_byte (filter nonEmpty (splitOn ";"%byte buf)).
Proof.
  unfold parseParams.
  pose proof (parseParams_loop_split buf [] []) as Hl.
  destruct (parseParams_loop buf [] []) as [paramBuff params].
  cbn [fst]. rewrite Hl, prependTok_nil. reflexivity.
Qed.

Lemma digits_value_decimal (tok : list byte) (acc : Z) :
  forallb isDigit tok = true ->
  digits_value acc tok
  = Some (fold_left (fun a b => a * 10 + (Z.of_N (Byte.to_N b) - 48)) tok acc).
Proof.
  revert acc. induction tok as [|b tok IH]; intros acc Hd; cbn in *.
  - reflexivity.
  - apply andb_true_iff in Hd as [Hb Htok]. unfold digit_of.
    unfold isDigit in Hb. rewrite Hb. now apply IH.
Qed.

Lemma decimal_acc_nonneg (tok : list byte) (acc : Z) :
  forallb isDigit tok = true -> 0 <= acc ->
  0 <= fold_left (fun a b => a * 10 + (Z.of_N (Byte.to_N b) - 48)) tok acc.
Proof.
  revert acc. induction tok as [|b tok IH]; intros acc Hd Hacc; cbn in *.
  - exact Hacc.
  - apply andb_true_iff in Hd as [Hb Htok]. apply IH; [exact Htok|].
    unfold isDigit in Hb. apply andb_true_iff in Hb as [Hlo _].
    apply Z.leb_le in Hlo. lia.
Qed.

(** A non-empty run of digits decodes to its decimal value, saturated at
    the largest [int]. *)
Lemma decodeToken_digits (tok : list byte) :
  tok <> [] -> forallb isDigit tok = true ->
  decodeToken tok = Z.min (decimal tok) MaxInt64.
Proof.
  intros Hne Hd. unfold decodeToken, Atoi.
  rewrite list_byte_of_string_of_list_byte.
  destruct tok as [|b tok]; [congruence|].
  assert (Hb : isDigit b = true).
  { cbn in Hd. now apply andb_true_iff in Hd as [Hb _]. }
  pose proof (decimal_acc_nonneg (b :: tok) 0 Hd (Z.le_refl 0)) as Hpos.
  pose proof (digits_value_decimal (b :: tok) 0 Hd) as Hval.
  fold (decimal (b :: tok)) in Hpos, Hval.
  destruct b; try discriminate Hb; cbv iota beta; rewrite Hval;
    cbn [negb andb];
    match goal with
    | |- fst (if MaxInt64 <? ?d then _ else _) = _ =>
        destruct (Z.ltb_spec MaxInt64 d); cbn [fst]; lia
    end.
Qed.

(** C2, as stated, fails on [CSI ;5H]: the empty first token is dropped, so
    the row and column handed to CUP are 5 and 1 where the specification's
    decoding gives 1 and 5. *)
Lemma empty_token_is_dropped :
  fst (parseParams (list_byte_of_string ";5")) = ["5"%string] /\
  getInts (fst (parseParams (list_byte_of_string ";5"))) 2 1 = [5; 1] /\
  spec_params (list_byte_of_string ";5") 2 1 = [1; 5] /\
  getInts (fst (parseParams (list_byte_of_string ";5"))) 2 1
    <> spec_params (list_byte_of_string ";5") 2 1.
Proof. repeat split; try reflexivity. vm_compute. discriminate. Qed.

(** C2, amended: the integers handed to a command are the decodings of the
    non-empty tokens of the buffer split on [;], in order, followed by as
    many copies of the default as are needed to reach the minimum count;
    a token is decoded by [strconv.Atoi], which on a non-empty run of
    decimal digits is the decimal value saturated at the largest [int]. *)
Theorem params_decoding (buf : list byte) (minCount dflt : Z) :
  getInts (fst (parseParams buf)) minCount dflt
  = padTo minCount dflt
      (map decodeToken (filter nonEmpty (splitOn ";"%byte buf)))
  /\ (forall tok : list byte,
        tok <> [] -> forallb isDigit tok = true ->
        decodeToken tok = Z.min (decimal tok) MaxInt64).
Proof.
  split.
  - rewrite getInts_padTo, parseParams_split, map_map. reflexivity.
  - exact decodeToken_digits.
Qed.

Lemma params_decoding_witness :
  getInts (fst (parseParams (list_byte_of_string "5;;10"))) 3 1 = [5; 10; 1]
  /\ decodeToken (list_byte_of_string "10") = 10.
Proof.
  split.
  - rewrite (proj1 (params_decoding (list_byte_of_string "5;;10") 3 1)).
    reflexivity.
  - rewrite (proj2 (params_decoding [] 0 0) (list_byte_of_string "10"));
      [reflexivity | discriminate | reflexivity].
Defined.

(** C10: the erase mode handed to ED and EL lies in 0..3; it is the first
    parameter decoded with default 0, replaced by 0 when below 0 or above
    3. *)
Theorem getEraseParam_range (params : list string) :
  0 <= getEraseParam params <= 3 /\
  getEraseParam params
  = (let v := match params with [] => 0 | p :: _ => fst (Atoi p) end in
     if (v <? 0) || (3 <? v) then 0 else v).
Proof.
  unfold getEraseParam. rewrite getInt_first.
  set (v := match params with [] => 0 | p :: _ => fst (Atoi p) end).
  split; [|reflexivity].
  destruct (Z.ltb_spec v 0); destruct (Z.ltb_spec 3 v); cbn; lia.
Qed.

Example getEraseParam_examples :
  getEraseParam [] = 0 /\ getEraseParam ["2"%string] = 2 /\
  getEraseParam ["7"%string] = 0 /\ getEraseParam ["-1"%string] = 0 /\
  getEraseParam ["?"%string] = 0.
Proof. repeat split; reflexivity. Qed.

End ParamFacts.

(** * Properties of the console handler *)

Section HandlerFacts.

Import Winterm.
Local Open Scope handler_scope.

Context {World : Type}.
Context {backend : ConsoleBackend World}.
Context {cursor : CursorHelpers World}.
Context {translator : AttributeTranslator}.

(** Unfolding of the monad's plumbing. *)
Ltac plumbing :=
  unfold bind, ret, panic, gets, modify, call, getInfo in *;
  cbn [fst snd] in *.

Lemma bind_run {S A B} (c : M S A) (k : A -> M S B) (s : S) :
  bind c k s
  = match c s with
    | (Ok a, s') => k a s'
    | (Err e, s') => (Err e, s')
    | (Panic m, s') => (Panic m, s')
    end.
Proof. reflexivity. Qed.

(** *** How invariants compose *)

Lemma keeps_ret {A} (P : WindowsAnsiEventHandler -> Prop) (a : A) :
  keeps (World := World) P (ret a).
Proof. intros s HP. exact HP. Qed.

Lemma keeps_bind {A B} (P : WindowsAnsiEventHandler -> Prop)
  (c : @H World A) (k : A -> @H World B) :
  keeps (World := World) P c ->
  (forall a, keeps (World := World) P (k a)) ->
  keeps (World := World) P (bind c k).
Proof.
  intros Hc Hk s HP. unfold bind. specialize (Hc s HP).
  destruct (c s) as [[a|e|m] s1]; cbn [fst snd] in *; auto.
  now apply Hk.
Qed.

Lemma keeps_gets {A} (P : WindowsAnsiEventHandler -> Prop)
  (f : WindowsAnsiEventHandler -> A) :
  keeps (World := World) P (gets f).
Proof. intros s HP. exact HP. Qed.

Lemma keeps_modify (P : WindowsAnsiEventHandler -> Prop)
  (f : WindowsAnsiEventHandler -> WindowsAnsiEventHandler) :
  (forall h, P h -> P (f h)) -> keeps (World := World) P (modify f).
Proof. intros Hf s HP. cbn. now apply Hf. Qed.

Lemma keeps_call (P : WindowsAnsiEventHandler -> Prop)
  (f : World -> option error * World) :
  keeps (World := World) P (call f).
Proof. intros [h w] HP. unfold call. cbn [fst snd]. now destruct (f w). Qed.

Lemma keeps_getInfo (P : WindowsAnsiEventHandler -> Prop) :
  keeps (World := World) P getInfo.
Proof.
  intros [h w] HP. unfold getInfo. cbn [fst snd].
  now destruct (GetConsoleScreenBufferInfo w).
Qed.

Lemma keeps_panic {A} (P : WindowsAnsiEventHandler -> Prop) (msg : string) :
  keeps (World := World) P (panic (A := A) msg).
Proof. intros s HP. exact HP. Qed.

Lemma keeps_if {A} (P : WindowsAnsiEventHandler -> Prop) (b : bool)
  (c1 c2 : @H World A) :
  keeps (World := World) P c1 -> keeps (World := World) P c2 ->
  keeps (World := World) P (if b then c1 else c2).
Proof. now destruct b. Qed.

Lemma keeps_buffer_WriteByte (P : WindowsAnsiEventHandler -> Prop) (c : byte) :
  cacheBlind P -> keeps (World := World) P (buffer_WriteByte c).
Proof. intros [Hb _]. apply keeps_modify. intros h HP. now apply Hb. Qed.

Lemma keeps_buffer_WriteTo (P : WindowsAnsiEventHandler -> Prop) :
  (forall h b, P h -> P (set_buffer b h)) ->
  keeps (World := World) P buffer_WriteTo.
Proof.
  intros Hb [h w] HP. unfold buffer_WriteTo. cbn [fst snd].
  destruct (0 <? len (buffer h)); [|now apply Hb].
  destruct (fileWrite (buffer h) w) as [[m e] w1].
  destruct (len (buffer h) <? Z.of_nat m); [exact HP|].
  destruct e as [e|]; [now apply Hb|].
  destruct (negb _); cbn [fst snd]; auto.
Qed.

Lemma keeps_getCurrentInfo (P : WindowsAnsiEventHandler -> Prop) :
  cacheBlind P -> keeps (World := World) P getCurrentInfo.
Proof.
  intros (_ & Hci & Hpos). unfold getCurrentInfo.
  apply keeps_bind; [apply keeps_gets|]. intros [info|].
  - apply keeps_bind; [apply keeps_gets|]. intros; apply keeps_ret.
  - apply keeps_bind; [apply keeps_getInfo|]. intros info.
    apply keeps_bind; [apply keeps_modify; intros; now apply Hci|]. intros _.
    apply keeps_bind; [apply keeps_modify; intros; now apply Hpos|]. intros _.
    apply keeps_ret.
Qed.

Lemma keeps_updatePos (P : WindowsAnsiEventHandler -> Prop) (pos : COORD) :
  cacheBlind P -> keeps (World := World) P (updatePos pos).
Proof.
  intros (_ & _ & Hpos). unfold updatePos.
  apply keeps_bind; [apply keeps_gets|]. intros [info|].
  - apply keeps_modify; intros; now apply Hpos.
  - apply keeps_panic.
Qed.

Lemma keeps_scroll (P : WindowsAnsiEventHandler -> Prop) (n : Z)
  (r : scrollRegion) :
  keeps (World := World) P (scroll n r).
Proof.
  unfold scroll. apply keeps_bind; [apply keeps_getInfo|]. intros info.
  apply keeps_bind; [apply keeps_gets|]. intros a. apply keeps_call.
Qed.

Lemma keeps_scrollUp (P : WindowsAnsiEventHandler -> Prop) (n : Z) :
  keeps (World := World) P (scrollUp n).
Proof.
  unfold scrollUp. apply keeps_bind; [apply keeps_gets|]. intros r.
  apply keeps_scroll.
Qed.

(** *** Flush *)

Lemma cacheBlind_wrapCleared : cacheBlind wrapCleared.
Proof.
  unfold cacheBlind, wrapCleared.
  split; [|split]; intros h x [H1 H2]; split; assumption.
Qed.

(** [Flush] keeps what does not depend on the buffer, on the cache being
    invalidated or on the drew-margin-byte flag. *)
Lemma keeps_Flush_frame (P : WindowsAnsiEventHandler -> Prop) :
  (forall h b, P h -> P (set_buffer b h)) ->
  (forall h, P h -> P (set_curInfo None h)) ->
  (forall h v, P h -> P (set_drewMarginByte v h)) ->
  keeps (World := World) P Flush.
Proof.
  intros Hb Hci Hdrew. unfold Flush.
  apply keeps_bind; [apply keeps_modify; intros; now apply Hci|]. intros _.
  apply keeps_bind; [apply keeps_gets|]. intros n.
  apply keeps_bind.
  { apply keeps_if; [|apply keeps_ret].
    apply keeps_bind; [now apply keeps_buffer_WriteTo|]. intros; apply keeps_ret. }
  intros _. apply keeps_bind; [apply keeps_gets|]. intros wn.
  apply keeps_bind; [apply keeps_gets|]. intros drew.
  apply keeps_if; [|apply keeps_ret].
  apply keeps_bind; [apply keeps_getInfo|]. intros info.
  apply keeps_bind; [apply keeps_gets|]. intros mb.
  apply keeps_bind; [apply keeps_call|]. intros _.
  apply keeps_modify. intros; now apply Hdrew.
Qed.

(** Out of the margin, [Flush] paints nothing and stays out of the
    margin. *)
Lemma keeps_Flush_wrapCleared : keeps (World := World) wrapCleared Flush.
Proof.
  pose proof cacheBlind_wrapCleared as (Hb & Hci & Hpos).
  unfold Flush.
  apply keeps_bind; [apply keeps_modify; intros; now apply Hci|]. intros _.
  apply keeps_bind; [apply keeps_gets|]. intros n.
  apply keeps_bind.
  { apply keeps_if; [|apply keeps_ret].
    apply keeps_bind; [now apply keeps_buffer_WriteTo|]. intros; apply keeps_ret. }
  intros _ [h w] Hh. plumbing. destruct Hh as [Hwn Hdrew]. rewrite Hwn.
  cbn. now split.
Qed.

Lemma keeps_clearWrap_wrapCleared : keeps (World := World) wrapCleared clearWrap.
Proof. intros s _. split; reflexivity. Qed.

(** [Flush] starts by invalidating the cache and never fills it. *)
Lemma Flush_clears_curInfo (s : WindowsAnsiEventHandler * World) :
  curInfo (fst (snd (Flush s))) = None.
Proof.
  destruct s as [h w].
  change (Flush (h, w)) with (Flush (set_curInfo None h, w)).
  apply (keeps_Flush_frame (fun h => curInfo h = None));
    solve [intros; assumption | intros; reflexivity].
Qed.

(** C9: when the file write of [Flush] returns an error after [m] bytes,
    [Flush] returns that error and the buffer holds exactly the bytes not
    yet written; a short write without error is reported as
    [ErrShortWrite] with the same buffer; whatever happens, [Flush] leaves
    the cached console information invalidated. *)
Theorem Flush_write_failure_keeps_unwritten :
  (forall (s : WindowsAnsiEventHandler * World) (m : nat) (e : error) (w1 : World),
      buffer (fst s) <> [] ->
      fileWrite (buffer (fst s)) (snd s) = ((m, Some e), w1) ->
      (m <= List.length (buffer (fst s)))%nat ->
      Flush s
      = (Err e,
         (set_buffer (skipn m (buffer (fst s))) (set_curInfo None (fst s)), w1)))
  /\ (forall (s : WindowsAnsiEventHandler * World) (m : nat) (w1 : World),
        fileWrite (buffer (fst s)) (snd s) = ((m, None), w1) ->
        (m < List.length (buffer (fst s)))%nat ->
        Flush s
        = (Err ErrShortWrite,
           (set_buffer (skipn m (buffer (fst s))) (set_curInfo None (fst s)),
            w1)))
  /\ (forall s : WindowsAnsiEventHandler * World,
        curInfo (fst (snd (Flush s))) = None).
Proof.
  split; [|split; [|exact Flush_clears_curInfo]].
  - intros [h w] m e w1 Hne Hw Hm. cbn [fst snd] in *.
    unfold Flush, buffer_WriteTo. plumbing.
    assert (Hlen : (0 <? len (buffer h)) = true).
    { apply Z.ltb_lt. unfold len. destruct (buffer h); [congruence|cbn; lia]. }
    assert (Hle : (len (buffer h) <? Z.of_nat m) = false).
    { apply Z.ltb_ge. unfold len. lia. }
    change (buffer (set_curInfo None h)) with (buffer h).
    rewrite Hlen. cbn [fst snd].
    change (buffer (set_curInfo None h)) with (buffer h).
    rewrite Hlen, Hw, Hle. reflexivity.
  - intros [h w] m w1 Hw Hm. cbn [fst snd] in *.
    unfold Flush, buffer_WriteTo. plumbing.
    assert (Hlen : (0 <? len (buffer h)) = true).
    { apply Z.ltb_lt. unfold len. lia. }
    assert (Hle : (len (buffer h) <? Z.of_nat m) = false).
    { apply Z.ltb_ge. unfold len. lia. }
    assert (Hne : negb (Z.of_nat m =? len (buffer h)) = true).
    { apply negb_true_iff, Z.eqb_neq. unfold len. lia. }
    change (buffer (set_curInfo None h)) with (buffer h).
    rewrite Hlen. cbn [fst snd].
    change (buffer (set_curInfo None h)) with (buffer h).
    rewrite Hlen, Hw, Hle, Hne. reflexivity.
Qed.

(** *** Execute(BEL) *)

(** C8, amended: on BEL, [Execute] appends the byte to the pending buffer
    and returns; the handler is otherwise unchanged (wrap state included)
    and no console or file call is made. *)
Theorem Execute_BEL_is_buffered (s : WindowsAnsiEventHandler * World) :
  Execute ANSI_BEL s
  = (Ok tt, (set_buffer (buffer (fst s) ++ [ANSI_BEL]) (fst s), snd s)).
Proof. reflexivity. Qed.

(** *** SGR *)

Lemma SGR_attr_reset (h : WindowsAnsiEventHandler) :
  SGR_attr h ANSI_SGR_RESET = set_attributes (Attributes (infoReset h)) h.
Proof. reflexivity. Qed.

Lemma Flush_inverted (s : WindowsAnsiEventHandler * World) :
  inverted (fst (snd (Flush s))) = inverted (fst s)
  /\ infoReset (fst (snd (Flush s))) = infoReset (fst s).
Proof.
  apply (keeps_Flush_frame
           (fun h => inverted h = inverted (fst s)
                     /\ infoReset h = infoReset (fst s))).
  - intros h b [H1 H2]; split; assumption.
  - intros h [H1 H2]; split; assumption.
  - intros h v [H1 H2]; split; assumption.
  - split; reflexivity.
Qed.

(** C1 (code defect): [SGR] with the parameter list [[0]] never changes
    [inverted]; when its [Flush] succeeds it does restore [attributes] to
    the value captured at construction.  A handler in reverse video
    therefore stays in reverse video after SGR 0. *)
Theorem SGR_reset_leaves_inverted (s : WindowsAnsiEventHandler * World) :
  inverted (fst (snd (SGR [ANSI_SGR_RESET] s))) = inverted (fst s)
  /\ match Flush s with
     | (Ok _, _) =>
         attributes (fst (snd (SGR [ANSI_SGR_RESET] s)))
         = Attributes (infoReset (fst s))
     | _ => True
     end.
Proof.
  pose proof (Flush_inverted s) as [Hinv Hreset].
  unfold SGR, bind.
  destruct (Flush s) as [[[]|e|m] [h1 w1]]; cbn [fst snd] in *;
    [|split; [exact Hinv|exact I]..].
  plumbing. cbn [len List.length Z.of_nat Z.leb Z.compare fold_left].
  rewrite SGR_attr_reset. cbn [fst snd].
  match goal with
  | |- context [SetConsoleTextAttribute ?a w1] =>
      destruct (SetConsoleTextAttribute a w1) as [[e|] w2]
  end; cbn [fst snd];
    (split; [exact Hinv | cbn; now rewrite Hreset]).
Qed.

(** *** simulateLF and Print *)

(** One step of a compositional invariant proof. *)
Ltac keeps_step :=
  cbv beta zeta;
  lazymatch goal with
  | |- keeps _ (bind _ _) => apply keeps_bind; [|intros ?]
  | |- keeps _ (ret _) => apply keeps_ret
  | |- keeps _ (gets _) => apply keeps_gets
  | |- keeps _ (call _) => apply keeps_call
  | |- keeps _ getInfo => apply keeps_getInfo
  | |- keeps _ (scrollUp _) => apply keeps_scrollUp
  | |- keeps _ (if _ then _ else _) => apply keeps_if
  | |- keeps _ (match ?x with pair _ _ => _ end) => destruct x
  | |- keeps wrapCleared Flush => apply keeps_Flush_wrapCleared
  | |- keeps wrapCleared clearWrap => apply keeps_clearWrap_wrapCleared
  | |- keeps wrapCleared getCurrentInfo =>
      apply keeps_getCurrentInfo, cacheBlind_wrapCleared
  | |- keeps wrapCleared (updatePos _) =>
      apply keeps_updatePos, cacheBlind_wrapCleared
  | |- keeps wrapCleared (buffer_WriteByte _) =>
      apply keeps_buffer_WriteByte, cacheBlind_wrapCleared
  end.

Lemma keeps_simulateLF_wrapCleared (includeCR : bool) :
  keeps (World := World) wrapCleared (simulateLF includeCR).
Proof. unfold simulateLF. repeat keeps_step. Qed.

(** Out of the margin, [Print] starts at its cursor query. *)
Lemma Print_out_of_margin (b : byte) (s : WindowsAnsiEventHandler * World) :
  wrapNext (fst s) = false ->
  Print b s
  = ('(pos, info) <- getCurrentInfo ;;
     if X pos =? wrap16 (X (Size info) - 1) then
       modify (set_wrapNext true) ;;
       modify (set_marginByte b)
     else
       updatePos (set_X (wrap16 (X pos + 1)) pos) ;;
       buffer_WriteByte b) s.
Proof.
  intros Hwn. unfold Print. unfold bind at 1. unfold gets at 1.
  rewrite Hwn. reflexivity.
Qed.

(** [getCurrentInfo] returns the cached position and leaves the buffer and
    the wrap state alone. *)
Lemma getCurrentInfo_result (s s1 : WindowsAnsiEventHandler * World)
  (pos : COORD) (info : CONSOLE_SCREEN_BUFFER_INFO) :
  getCurrentInfo s = (Ok (pos, info), s1) ->
  curPos (fst s1) = pos /\ curInfo (fst s1) = Some info
  /\ buffer (fst s1) = buffer (fst s)
  /\ wrapNext (fst s1) = wrapNext (fst s)
  /\ marginByte (fst s1) = marginByte (fst s)
  /\ sr (fst s1) = sr (fst s).
Proof.
  destruct s as [h w]. unfold getCurrentInfo. plumbing.
  destruct (curInfo h) as [ci|] eqn:Hci.
  - intros Heq. inversion Heq; subst. cbn. now rewrite Hci.
  - cbn [fst snd].
    destruct (GetConsoleScreenBufferInfo w) as [[e|i] w1]; cbn [fst snd].
    + intros Heq. discriminate Heq.
    + intros Heq. inversion Heq; subst. cbn. repeat split; reflexivity.
Qed.

(** C3: a printable arriving while the cached cursor is in the last column
    only arms the deferred wrap (flag set, byte remembered, cursor and
    buffer untouched); a printable arriving while the wrap is armed first
    appends the remembered byte to the buffer and clears the wrap state,
    then simulates CR+LF and prints the new byte from there. *)
Theorem Print_margin_discipline (b : byte) (s : WindowsAnsiEventHandler * World) :
  (wrapNext (fst s) = false ->
   forall pos info s1,
     getCurrentInfo s = (Ok (pos, info), s1) ->
     X pos = wrap16 (X (Size info) - 1) ->
     Print b s = (Ok tt, (set_marginByte b (set_wrapNext true (fst s1)), snd s1))
     /\ wrapNext (fst (snd (Print b s))) = true
     /\ marginByte (fst (snd (Print b s))) = b
     /\ curPos (fst (snd (Print b s))) = pos
     /\ buffer (fst (snd (Print b s))) = buffer (fst s))
  /\ (wrapNext (fst s) = true ->
      Print b s
      = (_ <- simulateLF true ;; Print b)
          (set_drewMarginByte false
             (set_wrapNext false
                (set_buffer (buffer (fst s) ++ [marginByte (fst s)]) (fst s))),
           snd s)).
Proof.
  split.
  - intros Hwn pos info s1 Hget Hcol.
    pose proof (getCurrentInfo_result _ _ _ _ Hget) as (Hpos & _ & Hbuf & _).
    assert (Hrun : Print b s
              = (Ok tt, (set_marginByte b (set_wrapNext true (fst s1)), snd s1))).
    { rewrite Print_out_of_margin by exact Hwn. unfold bind at 1.
      rewrite Hget. apply Z.eqb_eq in Hcol. rewrite Hcol. reflexivity. }
    rewrite Hrun. cbn. repeat split; assumption.
  - intros Hwn. destruct s as [h w]. cbn [fst snd] in *.
    set (h0 := set_drewMarginByte false
                 (set_wrapNext false (set_buffer (buffer h ++ [marginByte h]) h))).
    pose proof (keeps_simulateLF_wrapCleared true (h0, w)) as Hkeep.
    unfold Print at 1. unfold bind at 1 2. unfold gets at 1. cbn [fst snd].
    rewrite Hwn. unfold bind at 1 2 3 4. unfold gets at 1. cbn [fst snd].
    unfold buffer_WriteByte, clearWrap. plumbing. fold h0.
    destruct (simulateLF true (h0, w)) as [[v|e|m] s1]; try reflexivity.
    rewrite Print_out_of_margin; [reflexivity|].
    apply Hkeep. split; reflexivity.
Qed.


(** *** Scrolling *)

(** C5, amended: [scrollUp n] is [scroll n] and [scrollDown n] is
    [scroll (-n)], both over the stored region; for a region with
    [top < bottom], [scroll] issues one [ScrollConsoleScreenBuffer] whose
    clip rectangle is the region biased by the window top, whose source
    rectangle is the clip rectangle moved by [delta] rows, whose
    destination is the top-left corner of the clip rectangle and whose fill
    is a space with the current attributes. *)
Theorem scroll_calls (n : Z) (s : WindowsAnsiEventHandler * World) :
  scrollUp n s = scroll n (sr (fst s)) s
  /\ scrollDown n s = scroll (wrap64 (- n)) (sr (fst s)) s
  /\ (forall (delta : Z) (region : scrollRegion)
             (info : CONSOLE_SCREEN_BUFFER_INFO) (w1 : World),
        top region < bottom region ->
        GetConsoleScreenBufferInfo (snd s) = (inr info, w1) ->
        scroll delta region s
        = call (ScrollConsoleScreenBuffer
                  {| Left := Left (Window info);
                     Top := wrap16 (wrap16 (Top (Window info) + top region)
                                    + wrap16 delta);
                     Right := Right (Window info);
                     Bottom := wrap16 (wrap16 (Top (Window info) + bottom region)
                                       + wrap16 delta) |}
                  {| Left := Left (Window info);
                     Top := wrap16 (Top (Window info) + top region);
                     Right := Right (Window info);
                     Bottom := wrap16 (Top (Window info) + bottom region) |}
                  {| X := Left (Window info);
                     Y := wrap16 (Top (Window info) + top region) |}
                  {| UnicodeChar := 32; CharAttributes := attributes (fst s) |})
            (fst s, w1)).
Proof.
  split; [reflexivity|]. split; [reflexivity|].
  intros delta region info w1 Hregion Hinfo. destruct s as [h w].
  unfold scroll. plumbing. rewrite Hinfo. cbn [fst snd].
  assert (Hge : (top region >=? bottom region) = false).
  { rewrite Z.geb_leb. apply Z.leb_gt. exact Hregion. }
  rewrite Hge. reflexivity.
Qed.

(** *** The effective scroll region *)

Lemma ensureInRange_bounds (n lo hi : Z) :
  lo <= hi -> lo <= ensureInRange n lo hi <= hi.
Proof.
  intros Hle. unfold ensureInRange.
  destruct (Z.ltb_spec n lo); [lia|]. destruct (Z.ltb_spec hi n); lia.
Qed.

(** C6, amended: [effectiveSr] is the stored region biased by the window
    top (in [int16]) and clamped into the window rows, unless the clamped
    range has fewer than two rows (clamped top not below clamped bottom), in
    which case it is the full window; the variant that also reports
    activity returns the same region; and for a window with
    [Top <= Bottom] the region lies inside the window. *)
Theorem effectiveSr_clamps (h : WindowsAnsiEventHandler) (window : SMALL_RECT) :
  let top := ensureInRange (wrap16 (Top window + top (sr h)))
               (Top window) (Bottom window) in
  let bottom := ensureInRange (wrap16 (Top window + bottom (sr h)))
                  (Top window) (Bottom window) in
  effectiveSr h window
  = (if top <? bottom then {| top := top; bottom := bottom |}
     else {| top := Top window; bottom := Bottom window |})
  /\ fst (effectiveSrActive h window) = effectiveSr h window
  /\ (Top window <= Bottom window ->
      Top window <= Winterm.top (effectiveSr h window)
      /\ Winterm.top (effectiveSr h window) <= Winterm.bottom (effectiveSr h window)
      /\ Winterm.bottom (effectiveSr h window) <= Bottom window).
Proof.
  intros top bottom.
  assert (Heq : effectiveSr h window
            = (if top <? bottom then {| top := top; bottom := bottom |}
               else {| top := Top window; bottom := Bottom window |})).
  { unfold effectiveSr, AddInRange. fold top bottom.
    rewrite Z.geb_leb. destruct (Z.leb_spec bottom top), (Z.ltb_spec top bottom);
      reflexivity || lia. }
  split; [exact Heq|]. split.
  - unfold effectiveSrActive, effectiveSr, AddInRange. fold top bottom.
    destruct (top >=? bottom); reflexivity.
  - intros Hwin. rewrite Heq.
    pose proof (ensureInRange_bounds (wrap16 (Top window + Winterm.top (sr h)))
                  _ _ Hwin) as Ht.
    pose proof (ensureInRange_bounds (wrap16 (Top window + Winterm.bottom (sr h)))
                  _ _ Hwin) as Hb.
    fold top in Ht. fold bottom in Hb.
    destruct (Z.ltb_spec top bottom); cbn; lia.
Qed.

Lemma wrap16_small (z : Z) : -32768 <= z <= 32767 -> wrap16 z = z.
Proof.
  intros Hz. unfold wrap16, wrap_signed.
  change (2 ^ (16 - 1)) with 32768. change (2 ^ 16) with 65536.
  rewrite Z.mod_small by lia. lia.
Qed.



(** *** Cursor motion *)

Lemma after_Flush_clearWrap (rest : @H World unit)
  (s s1 : WindowsAnsiEventHandler * World) :
  keeps wrapCleared rest ->
  Flush s = (Ok tt, s1) ->
  wrapCleared (fst (snd ((Flush ;; clearWrap ;; rest) s))).
Proof.
  intros Hrest HF. rewrite bind_run, HF. cbv beta iota.
  rewrite bind_run. unfold clearWrap at 1. plumbing.
  apply Hrest. split; reflexivity.
Qed.

Lemma Ok_after_Flush {A} (rest : @H World A)
  (s s' : WindowsAnsiEventHandler * World) (a : A) :
  (Flush ;; rest) s = (Ok a, s') -> exists s1, Flush s = (Ok tt, s1).
Proof.
  rewrite bind_run. destruct (Flush s) as [[[]|e|m] s1]; try discriminate.
  intros _. now exists s1.
Qed.

Lemma keeps_CUP_wrapCleared (row col : Z) :
  keeps (World := World) wrapCleared (CUP row col).
Proof. unfold CUP. repeat keeps_step. Qed.

(** Every cursor-motion command is [Flush], [clearWrap] and a rest that
    stays out of the margin. *)
Lemma runMotion_shape (c : CursorMotion) :
  exists rest : @H World unit,
    keeps wrapCleared rest /\ runMotion c = (Flush ;; clearWrap ;; rest).
Proof.
  destruct c; cbn [runMotion];
    [ unfold CUU | unfold CUD | unfold CUF | unfold CUB | unfold CNL
    | unfold CPL | unfold CHA | unfold VPA | unfold CUP | unfold HVP ];
    eexists; (split; [|reflexivity]);
    solve [ apply keeps_CUP_wrapCleared | repeat keeps_step ].
Qed.

(** C7: when a cursor-motion command returns without error, the handler is
    out of the margin: [wrapNext] and [drewMarginByte] are both false.  The
    same holds as soon as the command's initial [Flush] succeeds, whatever
    the console calls after it return. *)
Theorem cursor_motion_clears_wrap (c : CursorMotion)
  (s : WindowsAnsiEventHandler * World) :
  (forall s', runMotion c s = (Ok tt, s') ->
     wrapNext (fst s') = false /\ drewMarginByte (fst s') = false)
  /\ (forall s1, Flush s = (Ok tt, s1) ->
        wrapNext (fst (snd (runMotion c s))) = false
        /\ drewMarginByte (fst (snd (runMotion c s))) = false).
Proof.
  destruct (runMotion_shape c) as (rest & Hrest & Hshape). rewrite Hshape.
  assert (Hflush : forall s1, Flush s = (Ok tt, s1) ->
            wrapCleared (fst (snd ((Flush ;; clearWrap ;; rest) s)))).
  { intros s1. now apply after_Flush_clearWrap. }
  split; [|exact Hflush].
  intros s' Hrun. destruct (Ok_after_Flush _ _ _ _ Hrun) as [s1 HF].
  specialize (Hflush s1 HF). rewrite Hrun in Hflush. exact Hflush.
Qed.

End HandlerFacts.

(** * The handler on the recording console *)

Section Scenarios.

Import Winterm.
Local Open Scope handler_scope.

(** C1 at the failing input: a handler in reverse video receives SGR 0.
    Attributes are reset, [inverted] stays set, and the console is handed
    the inverted attribute word. *)
Example SGR_reset_in_reverse_video (translator : AttributeTranslator) :
  SGR [0] (set_inverted true handler80x25, console80x25 0 0)
  = (Ok tt,
     (set_inverted true handler80x25,
      record (CallSetConsoleTextAttribute (invertAttributes 7))
        (set_text_attribute (invertAttributes 7) (console80x25 0 0)))).
Proof. reflexivity. Qed.

(** The deferred wrap on an 80-column console with the cursor in column
    79: X arms the wrap, Y emits X and is queued at column 1 of the next
    row. *)
Lemma Print_margin_witness :
  Print "X"%byte (handler80x25, console80x25 79 0)
  = (Ok tt,
     (set_marginByte "X"%byte
        (set_wrapNext true
           (set_curPos {| X := 79; Y := 0 |}
              (set_curInfo (Some (con_info (console80x25 79 0))) handler80x25))),
      console80x25 79 0))
  /\ buffer (fst (snd (Print "Y"%byte
                         (snd (Print "X"%byte (handler80x25, console80x25 79 0))))))
     = ["X"%byte; "Y"%byte]
  /\ curPos (fst (snd (Print "Y"%byte
                         (snd (Print "X"%byte (handler80x25, console80x25 79 0))))))
     = {| X := 1; Y := 1 |}.
Proof.
  pose proof (proj1 (Print_margin_discipline "X"%byte
                       (handler80x25, console80x25 79 0))
                eq_refl {| X := 79; Y := 0 |} (con_info (console80x25 79 0))
                (set_curPos {| X := 79; Y := 0 |}
                   (set_curInfo (Some (con_info (console80x25 79 0)))
                      handler80x25),
                 console80x25 79 0)
                eq_refl eq_refl) as (HX & _).
  rewrite HX. cbn [snd]. split; [reflexivity|].
  match goal with
  | |- context [Print "Y"%byte ?st] =>
      rewrite (proj2 (Print_margin_discipline "Y"%byte st) eq_refl)
  end.
  split; vm_compute; reflexivity.
Defined.




(** C5, as stated, fails: on the 80 by 25 console with the region rows 4
    to 9, [scrollUp 1] passes a source rectangle (rows 5 to 10) that is not
    the region and a destination row (4) that is the region's top, not
    shifted; the call the specification describes has source rows 4 to 9
    and destination row 3. *)
Lemma scrollUp_is_not_spec_scroll :
  con_calls (snd (snd (scrollUp 1
      (set_sr {| top := 4; bottom := 9 |} handler80x25, console80x25 0 9))))
  = [CallScrollConsoleScreenBuffer
       {| Left := 0; Top := 5; Right := 79; Bottom := 10 |}
       {| Left := 0; Top := 4; Right := 79; Bottom := 9 |}
       {| X := 0; Y := 4 |}
       {| UnicodeChar := 32; CharAttributes := 7 |}]
  /\ con_calls (snd (snd (spec_scrollUp 1
      (set_sr {| top := 4; bottom := 9 |} handler80x25, console80x25 0 9))))
     = [CallScrollConsoleScreenBuffer
          {| Left := 0; Top := 4; Right := 79; Bottom := 9 |}
          {| Left := 0; Top := 4; Right := 79; Bottom := 9 |}
          {| X := 0; Y := 3 |}
          {| UnicodeChar := 32; CharAttributes := 7 |}]
  /\ scrollUp 1
       (set_sr {| top := 4; bottom := 9 |} handler80x25, console80x25 0 9)
     <> spec_scrollUp 1
          (set_sr {| top := 4; bottom := 9 |} handler80x25, console80x25 0 9)
  /\ scrollUp 1
       (set_sr {| top := 4; bottom := 9 |} handler80x25, console80x25 0 9)
     <> scroll (wrap64 (- 1))
          (effectiveSr (set_sr {| top := 4; bottom := 9 |} handler80x25)
             (Window (con_info (console80x25 0 9))))
          (set_sr {| top := 4; bottom := 9 |} handler80x25, console80x25 0 9).
Proof.
  repeat split; try (vm_compute; reflexivity); vm_compute; discriminate.
Qed.

Lemma scroll_calls_witness :
  scroll 1 {| top := 4; bottom := 9 |}
    (set_sr {| top := 4; bottom := 9 |} handler80x25, console80x25 0 9)
  = (Ok tt,
     (set_sr {| top := 4; bottom := 9 |} handler80x25,
      record
        (CallScrollConsoleScreenBuffer
           {| Left := 0; Top := 5; Right := 79; Bottom := 10 |}
           {| Left := 0; Top := 4; Right := 79; Bottom := 9 |}
           {| X := 0; Y := 4 |}
           {| UnicodeChar := 32; CharAttributes := 7 |})
        (console80x25 0 9))).
Proof.
  rewrite (proj2 (proj2 (scroll_calls (backend := recordingBackend) 1
                           (set_sr {| top := 4; bottom := 9 |} handler80x25,
                            console80x25 0 9)))
             1 {| top := 4; bottom := 9 |} (con_info (console80x25 0 9))
             (console80x25 0 9) eq_refl eq_refl).
  reflexivity.
Defined.

(** C6, as stated, fails: a stored region of the single row 4 clamps to
    the non-empty range 4..4, which is not the window, yet the effective
    region is the full window. *)
Lemma single_row_region_is_full_window :
  effectiveSr (set_sr {| top := 4; bottom := 4 |} handler80x25)
    {| Left := 0; Top := 0; Right := 79; Bottom := 24 |}
  = {| top := 0; bottom := 24 |}
  /\ spec_effective_sr (set_sr {| top := 4; bottom := 4 |} handler80x25)
       {| Left := 0; Top := 0; Right := 79; Bottom := 24 |}
     = {| top := 4; bottom := 4 |}
  /\ effectiveSr (set_sr {| top := 4; bottom := 4 |} handler80x25)
       {| Left := 0; Top := 0; Right := 79; Bottom := 24 |}
     <> spec_effective_sr (set_sr {| top := 4; bottom := 4 |} handler80x25)
          {| Left := 0; Top := 0; Right := 79; Bottom := 24 |}.
Proof. repeat split; try reflexivity. vm_compute. discriminate. Qed.

Lemma effectiveSr_clamps_witness :
  effectiveSr (set_sr {| top := 4; bottom := 40 |} handler80x25)
    {| Left := 0; Top := 0; Right := 79; Bottom := 24 |}
  = {| top := 4; bottom := 24 |}
  /\ 0 <= 4 /\ 4 <= 24 /\ 24 <= 24.
Proof.
  pose proof (effectiveSr_clamps
                (set_sr {| top := 4; bottom := 40 |} handler80x25)
                {| Left := 0; Top := 0; Right := 79; Bottom := 24 |})
    as (Heq & _ & Hin).
  split; [rewrite Heq; reflexivity|].
  apply Hin. vm_compute. discriminate.
Defined.

(** CUP 5,10 issued while a wrap is pending on the last column. *)
Lemma cursor_motion_witness :
  wrapNext (fst (snd (runMotion (MotionCUP 5 10)
      (set_marginByte "X"%byte (set_wrapNext true handler80x25),
       console80x25 79 0)))) = false
  /\ drewMarginByte (fst (snd (runMotion (MotionCUP 5 10)
      (set_marginByte "X"%byte (set_wrapNext true handler80x25),
       console80x25 79 0)))) = false.
Proof.
  apply (proj1 (cursor_motion_clears_wrap (MotionCUP 5 10)
                  (set_marginByte "X"%byte (set_wrapNext true handler80x25),
                   console80x25 79 0))).
  vm_compute. reflexivity.
Defined.

(** C8, as stated, fails: with "hi" pending, BEL is appended behind it and
    nothing reaches the file, where flushing and writing BEL directly
    would leave the buffer empty and the three bytes in the file. *)
Lemma BEL_stays_in_buffer :
  Execute ANSI_BEL
    (set_buffer ["h"%byte; "i"%byte] handler80x25, console80x25 0 0)
  = (Ok tt,
     (set_buffer ["h"%byte; "i"%byte; ANSI_BEL] handler80x25, console80x25 0 0))
  /\ con_file (snd (snd (spec_Execute_BEL
       (set_buffer ["h"%byte; "i"%byte] handler80x25, console80x25 0 0))))
     = ["h"%byte; "i"%byte; ANSI_BEL]
  /\ buffer (fst (snd (spec_Execute_BEL
       (set_buffer ["h"%byte; "i"%byte] handler80x25, console80x25 0 0))))
     = []
  /\ Execute ANSI_BEL
       (set_buffer ["h"%byte; "i"%byte] handler80x25, console80x25 0 0)
     <> spec_Execute_BEL
          (set_buffer ["h"%byte; "i"%byte] handler80x25, console80x25 0 0).
Proof. repeat split; try reflexivity. vm_compute. discriminate. Qed.

(** A file that takes two more bytes: "Hello" is flushed, "He" is written,
    the write fails, and "llo" stays in the buffer. *)
Lemma Flush_write_failure_witness :
  Flush (set_buffer (list_byte_of_string "Hello") handler80x25,
         with_room 2 (console80x25 0 0))
  = (Err (EBackend 112),
     (set_buffer (list_byte_of_string "llo") handler80x25,
      {| con_info := con_info (console80x25 0 0);
         con_file := list_byte_of_string "He";
         con_calls := [];
         con_room := Some 0%nat |})).
Proof.
  rewrite (proj1 Flush_write_failure_keeps_unwritten
             (set_buffer (list_byte_of_string "Hello") handler80x25,
              with_room 2 (console80x25 0 0))
             2%nat (EBackend 112)
             {| con_info := con_info (console80x25 0 0);
                con_file := list_byte_of_string "He";
                con_calls := [];
                con_room := Some 0%nat |}).
  - reflexivity.
  - vm_compute. discriminate.
  - reflexivity.
  - vm_compute. lia.
Defined.

(** After that failure a second [Flush], the file accepting bytes again,
    writes the rest: the file holds the buffered text exactly once. *)
Example Flush_retry_resumes :
  Flush (set_buffer (list_byte_of_string "llo") handler80x25,
         {| con_info := con_info (console80x25 0 0);
            con_file := list_byte_of_string "He";
            con_calls := [];
            con_room := None |})
  = (Ok tt,
     (handler80x25,
      {| con_info := con_info (console80x25 0 0);
         con_file := list_byte_of_string "Hello";
         con_calls := [];
         con_room := None |})).
Proof. reflexivity. Qed.

(** The BEL left pending by [Execute] reaches the file with the next
    [Flush], behind the bytes that were pending before it. *)
Example BEL_written_by_next_Flush :
  (Execute ANSI_BEL ;; Flush)
    (set_buffer ["h"%byte; "i"%byte] handler80x25, console80x25 0 0)
  = (Ok tt,
     (handler80x25,
      {| con_info := con_info (console80x25 0 0);
         con_file := ["h"%byte; "i"%byte; ANSI_BEL];
         con_calls := [];
         con_room := None |})).
Proof. reflexivity. Qed.

(** A line feed with the full window as scroll region and the cursor above
    the bottom row is left to Windows: LF is queued and the cached cursor
    moves to column 0 of the next row. *)
Example LF_in_full_window :
  Execute ANSI_LINE_FEED (handler80x25, console80x25 5 0)
  = (Ok tt,
     (set_buffer [ANSI_LINE_FEED]
        (set_curPos {| X := 0; Y := 1 |}
           (set_curInfo (Some (con_info (console80x25 5 0))) handler80x25)),
      console80x25 5 0)).
Proof. reflexivity. Qed.

End Scenarios.

(** * Further properties of the parameter helpers *)

Section ParamExtras.

Import Ansiterm Params.

Lemma splitOn_nonempty (bs : list byte) : splitOn ";"%byte bs <> [].
Proof.
  destruct bs as [|b bs]; cbn; [discriminate|].
  destruct (Byte.eqb b ";"); [discriminate|].
  destruct (splitOn _ bs); discriminate.
Qed.

(** A separator closes the tokens before it: splitting distributes over
    buffers joined by [;]. *)
Lemma splitOn_app_sep (b1 b2 : list byte) :
  splitOn ";"%byte (b1 ++ ";"%byte :: b2)
  = splitOn ";"%byte b1 ++ splitOn ";"%byte b2.
Proof.
  induction b1 as [|b b1 IH]; [reflexivity|].
  cbn [app splitOn]. destruct (Byte.eqb b ";"%byte).
  - now rewrite IH.
  - rewrite IH. pose proof (splitOn_nonempty b1) as Hne.
    destruct (splitOn ";"%byte b1) as [|t ts]; [congruence|]. reflexivity.
Qed.

Lemma splitOn_no_separator (tok : list byte) :
  noSeparator tok = true -> splitOn ";"%byte tok = [tok].
Proof.
  induction tok as [|b tok IH]; [reflexivity|]. cbn.
  intros Hb. apply andb_true_iff in Hb as [Hb Htok].
  apply negb_true_iff in Hb. rewrite Hb, (IH Htok). reflexivity.
Qed.

Lemma splitOn_tokens_no_separator (bs : list byte) :
  Forall (fun tok => noSeparator tok = true) (splitOn ";"%byte bs).
Proof.
  induction bs as [|b bs IH]; cbn.
  - repeat constructor.
  - destruct (Byte.eqb b ";"%byte) eqn:Hb.
    + constructor; [reflexivity|exact IH].
    + destruct (splitOn ";"%byte bs) as [|t ts].
      * repeat constructor. unfold noSeparator. cbn. now rewrite Hb.
      * inversion IH as [|? ? Ht Hts]; subst. constructor; [|exact Hts].
        unfold noSeparator in *. cbn. now rewrite Hb, Ht.
Qed.

(** X1: every token [parseParams] returns is non-empty and contains no
    [;], whatever the buffer. *)
Theorem parseParams_tokens_wellformed (buf : list byte) (tok : string) :
  In tok (fst (parseParams buf)) ->
  wellFormedToken (list_byte_of_string tok) = true.
Proof.
  rewrite parseParams_split. intros Hin.
  apply in_map_iff in Hin as (t & <- & Ht).
  apply filter_In in Ht as [Ht Hne].
  rewrite list_byte_of_string_of_list_byte. unfold wellFormedToken.
  rewrite Hne. cbn [andb].
  pose proof (splitOn_tokens_no_separator buf) as Hall.
  rewrite Forall_forall in Hall. now apply Hall.
Qed.

Lemma parseParams_tokens_wellformed_witness :
  wellFormedToken (list_byte_of_string "10") = true.
Proof.
  apply (parseParams_tokens_wellformed (list_byte_of_string ";5;;10;") "10").
  vm_compute. right. left. reflexivity.
Defined.

(** X2: a [;] between two buffers separates their parameters: the
    parameters of [b1;b2] are those of [b1] followed by those of [b2].  In
    particular leading, trailing and doubled separators add nothing. *)
Theorem parseParams_app_separator (b1 b2 : list byte) :
  fst (parseParams (b1 ++ ";"%byte :: b2))
  = fst (parseParams b1) ++ fst (parseParams b2).
Proof.
  rewrite !parseParams_split, splitOn_app_sep, filter_app, map_app.
  reflexivity.
Qed.

Lemma parseParams_single (tok : list byte) :
  wellFormedToken tok = true ->
  fst (parseParams tok) = [string_of_list_byte tok].
Proof.
  unfold wellFormedToken. intros Hw. apply andb_true_iff in Hw as [Hne Hsep].
  rewrite parseParams_split, (splitOn_no_separator _ Hsep). cbn.
  now rewrite Hne.
Qed.

(** X3: writing well-formed tokens back with [;] between them and parsing
    the result returns the tokens: [parseParams] undoes the join. *)
Theorem parseParams_join_roundtrip (params : list string) :
  Forall (fun p => wellFormedToken (list_byte_of_string p) = true) params ->
  fst (parseParams (joinTokens (map list_byte_of_string params))) = params.
Proof.
  induction params as [|p ps IH]; intros Hall; [reflexivity|].
  inversion Hall as [|? ? Hp Hps]; subst.
  destruct ps as [|q qs].
  - cbn [map joinTokens]. rewrite (parseParams_single _ Hp).
    now rewrite string_of_list_byte_of_string.
  - change (joinTokens (map list_byte_of_string (p :: q :: qs)))
      with (list_byte_of_string p
            ++ ";"%byte :: joinTokens (map list_byte_of_string (q :: qs))).
    rewrite parseParams_app_separator, (parseParams_single _ Hp), (IH Hps).
    now rewrite string_of_list_byte_of_string.
Qed.

Lemma parseParams_join_roundtrip_witness :
  fst (parseParams (list_byte_of_string "?25;1;0"))
  = ["?25"; "1"; "0"]%string.
Proof.
  apply (parseParams_join_roundtrip ["?25"; "1"; "0"]%string).
  repeat constructor.
Defined.

(** X4: [getInts] returns max(len(params), minCount) integers; every
    parameter is kept at its position, decoded, and only the positions
    beyond the parameters hold the default: nothing is truncated. *)
Theorem getInts_shape (params : list string) (minCount dflt : Z) :
  len (getInts params minCount dflt) = Z.max (len params) minCount
  /\ (forall i, (i < List.length params)%nat ->
        nth i (getInts params minCount dflt) 0
        = fst (Atoi (nth i params EmptyString)))
  /\ (forall i,
        (List.length params <= i
         < List.length (getInts params minCount dflt))%nat ->
        nth i (getInts params minCount dflt) 0 = dflt).
Proof.
  rewrite getInts_padTo. unfold padTo.
  set (ints := map (fun v => fst (Atoi v)) params).
  assert (Hlen : List.length ints = List.length params)
    by (unfold ints; apply length_map).
  assert (Hl : len ints = len params) by (unfold len; now rewrite Hlen).
  rewrite Hl. repeat split.
  - rewrite len_app, Hl. unfold len at 2. rewrite repeat_length.
    pose proof (len_nonneg params). lia.
  - intros i Hi. rewrite app_nth1 by lia. unfold ints.
    change 0 with ((fun v => fst (Atoi v)) EmptyString). apply map_nth.
  - intros i [Hlo Hhi]. rewrite app_nth2 by lia.
    rewrite length_app, repeat_length in Hhi.
    apply nth_repeat_lt. lia.
Qed.

Lemma getInts_shape_witness :
  nth 0 (getInts ["5"%string] 2 1) 0 = 5
  /\ nth 1 (getInts ["5"%string] 2 1) 0 = 1.
Proof.
  destruct (getInts_shape ["5"%string] 2 1) as (_ & Hkeep & Hpad).
  split.
  - rewrite (Hkeep 0%nat); [reflexivity | cbn; lia].
  - apply (Hpad 1%nat). vm_compute. split; lia.
Defined.

End ParamExtras.

(** * Further properties of the console handler *)

Section HandlerExtras.

Import Winterm.
Local Open Scope handler_scope.

Context {World : Type}.
Context {backend : ConsoleBackend World}.
Context {cursor : CursorHelpers World}.
Context {translator : AttributeTranslator}.
Context {erase : EraseHelpers World}.

(** Case analysis on the innermost scrutinee of the goal. *)
Ltac break_match :=
  match goal with
  | |- context [match ?x with _ => _ end] =>
      lazymatch x with
      | context [match _ with _ => _ end] => fail
      | _ => destruct x eqn:?
      end
  end.

Ltac run :=
  unfold bind, ret, panic, gets, modify, call, getInfo in *;
  cbn [fst snd] in *.

(** Projections of updated handlers. *)
Ltac fields :=
  cbn [fst snd infoReset sr buffer wrapNext drewMarginByte inverted attributes
       marginByte curInfo curPos set_sr set_buffer set_wrapNext
       set_drewMarginByte set_inverted set_attributes set_marginByte
       set_curInfo set_curPos] in *.

Lemma len_zero_nil {A} (l : list A) : (0 <? len l) = false -> l = [].
Proof.
  intros Hl. apply Z.ltb_ge in Hl. unfold len in Hl.
  destruct l; [reflexivity|cbn in Hl; lia].
Qed.

(** *** Flush *)

Lemma Flush_outcome (s s' : WindowsAnsiEventHandler * World) :
  Flush s = (Ok tt, s') ->
  buffer (fst s') = []
  /\ curInfo (fst s') = None
  /\ (wrapNext (fst s') = true -> drewMarginByte (fst s') = true)
  /\ wrapNext (fst s') = wrapNext (fst s)
  /\ marginByte (fst s') = marginByte (fst s)
  /\ sr (fst s') = sr (fst s)
  /\ attributes (fst s') = attributes (fst s)
  /\ inverted (fst s') = inverted (fst s)
  /\ curPos (fst s') = curPos (fst s).
Proof.
  destruct s as [h w]. unfold Flush, buffer_WriteTo. run.
  repeat (break_match; cbn [fst snd] in * ); intros Heq;
    try discriminate Heq; inversion Heq; subst; fields;
    repeat split; try reflexivity; try (now apply len_zero_nil);
    intros Hw;
    match goal with
    | Hm : _ && _ = false |- _ =>
        rewrite Hw in Hm; cbn in Hm; now apply negb_false_iff in Hm
    end.
Qed.

(** X5: after a [Flush] that returns without error the buffer is empty,
    the cache is invalid, a pending margin byte has been painted, and the
    scroll region, attributes, wrap flag, margin byte and cached position
    are as before. *)
Theorem Flush_success (s s' : WindowsAnsiEventHandler * World) :
  Flush s = (Ok tt, s') ->
  buffer (fst s') = []
  /\ curInfo (fst s') = None
  /\ (wrapNext (fst s') = true -> drewMarginByte (fst s') = true)
  /\ wrapNext (fst s') = wrapNext (fst s)
  /\ marginByte (fst s') = marginByte (fst s)
  /\ sr (fst s') = sr (fst s)
  /\ attributes (fst s') = attributes (fst s)
  /\ inverted (fst s') = inverted (fst s)
  /\ curPos (fst s') = curPos (fst s).
Proof. apply Flush_outcome. Qed.

(** X6: a second [Flush] right after a successful one changes nothing: it
    returns without error, leaves the handler as it is and makes no file or
    console call. *)
Theorem Flush_twice (s s' : WindowsAnsiEventHandler * World) :
  Flush s = (Ok tt, s') -> Flush s' = (Ok tt, s').
Proof.
  intros HF. apply Flush_outcome in HF as (Hbuf & Hci & Hdrew & _).
  destruct s' as [h' w']. destruct h'. fields. subst.
  unfold Flush. run. fields. cbn [len List.length Z.of_nat Z.ltb Z.compare].
  destruct wrapNext0; [|reflexivity].
  rewrite (Hdrew eq_refl). reflexivity.
Qed.

(** *** Invariants of the handler together with its world *)

Lemma keepsState_ret {A} (I : WindowsAnsiEventHandler * World -> Prop) (a : A) :
  keepsState I (ret a).
Proof. intros s HI. exact HI. Qed.

Lemma keepsState_bind {A B} (I : WindowsAnsiEventHandler * World -> Prop)
  (c : @H World A) (k : A -> @H World B) :
  keepsState I c -> (forall a, keepsState I (k a)) -> keepsState I (bind c k).
Proof.
  intros Hc Hk s HI. unfold bind. specialize (Hc s HI).
  destruct (c s) as [[a|e|m] s1]; cbn [fst snd] in *; auto.
  now apply Hk.
Qed.

Lemma keepsState_gets {A} (I : WindowsAnsiEventHandler * World -> Prop)
  (f : WindowsAnsiEventHandler -> A) :
  keepsState I (gets f).
Proof. intros s HI. exact HI. Qed.

Lemma keepsState_panic {A} (I : WindowsAnsiEventHandler * World -> Prop)
  (msg : string) :
  keepsState I (panic (A := A) msg).
Proof. intros s HI. exact HI. Qed.

Lemma keepsState_modify (I : WindowsAnsiEventHandler * World -> Prop)
  (f : WindowsAnsiEventHandler -> WindowsAnsiEventHandler) :
  (forall h w, I (h, w) -> I (f h, w)) -> keepsState I (modify f).
Proof. intros Hf [h w] HI. cbn. now apply Hf. Qed.

Lemma keepsState_call (I : WindowsAnsiEventHandler * World -> Prop)
  (f : World -> option error * World) :
  (forall h w, I (h, w) -> I (h, snd (f w))) -> keepsState I (call f).
Proof.
  intros Hf [h w] HI. unfold call. cbn [fst snd]. specialize (Hf h w HI).
  now destruct (f w).
Qed.

Lemma keepsState_if {A} (I : WindowsAnsiEventHandler * World -> Prop)
  (b : bool) (c1 c2 : @H World A) :
  keepsState I c1 -> keepsState I c2 -> keepsState I (if b then c1 else c2).
Proof. now destruct b. Qed.

Section Steady.

Variable I : WindowsAnsiEventHandler * World -> Prop.
Hypothesis I_steady : steady I.

Lemma steady_getInfo : keepsState I getInfo.
Proof.
  destruct I_steady as (_ & _ & _ & Hinfo & _).
  intros [h w] HI. unfold getInfo. cbn [fst snd]. specialize (Hinfo h w HI).
  now destruct (GetConsoleScreenBufferInfo w).
Qed.

Lemma steady_buffer_WriteTo : keepsState I (_ <- buffer_WriteTo ;; ret tt).
Proof.
  destruct I_steady as (_ & _ & _ & _ & _ & _ & _ & Hwrite).
  intros [h w] HI. unfold bind, ret, buffer_WriteTo. cbn [fst snd].
  destruct (Hwrite h w HI) as [Hm Hnext].
  destruct (0 <? len (buffer h)) eqn:Hlen.
  - destruct (fileWrite (buffer h) w) as [[m e] w1]. cbn [fst snd] in *.
    assert (Hle : (len (buffer h) <? Z.of_nat m) = false)
      by (apply Z.ltb_ge; unfold len; lia).
    rewrite Hle. destruct e as [e|]; [exact Hnext|].
    destruct (Z.eqb_spec (Z.of_nat m) (len (buffer h))) as [Heq|Hne];
      cbn [negb fst snd]; [|exact Hnext].
    assert (Hall : skipn m (buffer h) = []).
    { apply skipn_all2. unfold len in Heq. lia. }
    rewrite Hall in Hnext. exact Hnext.
  - clear Hm Hnext. cbn [fst snd]. pose proof (len_zero_nil _ Hlen) as Hb.
    destruct h. cbn in Hb. subst. exact HI.
Qed.

(** [Flush] keeps every steady property, whatever it returns. *)
Lemma steady_Flush : keepsState I Flush.
Proof.
  pose proof I_steady as (Hci & _ & Hdrew & _ & _ & _ & Hout & _).
  unfold Flush.
  apply keepsState_bind; [apply keepsState_modify; intros; now apply Hci|].
  intros _. apply keepsState_bind; [apply keepsState_gets|]. intros n.
  apply keepsState_bind.
  { apply keepsState_if; [apply steady_buffer_WriteTo|apply keepsState_ret]. }
  intros _. apply keepsState_bind; [apply keepsState_gets|]. intros wn.
  apply keepsState_bind; [apply keepsState_gets|]. intros drew.
  apply keepsState_if; [|apply keepsState_ret].
  apply keepsState_bind; [apply steady_getInfo|]. intros info.
  apply keepsState_bind; [apply keepsState_gets|]. intros mb.
  apply keepsState_bind; [apply keepsState_call; intros; now apply Hout|].
  intros _. apply keepsState_modify. intros; now apply Hdrew.
Qed.

Lemma steady_getCurrentInfo : keepsState I getCurrentInfo.
Proof.
  pose proof I_steady as (Hci & Hpos & _).
  unfold getCurrentInfo.
  apply keepsState_bind; [apply keepsState_gets|]. intros [info|].
  - apply keepsState_bind; [apply keepsState_gets|]. intros; apply keepsState_ret.
  - apply keepsState_bind; [apply steady_getInfo|]. intros info.
    apply keepsState_bind; [apply keepsState_modify; intros; now apply Hci|].
    intros _.
    apply keepsState_bind; [apply keepsState_modify; intros; now apply Hpos|].
    intros _. apply keepsState_ret.
Qed.

Lemma steady_updatePos (pos : COORD) : keepsState I (updatePos pos).
Proof.
  pose proof I_steady as (_ & Hpos & _).
  unfold updatePos.
  apply keepsState_bind; [apply keepsState_gets|]. intros [info|].
  - apply keepsState_modify; intros; now apply Hpos.
  - apply keepsState_panic.
Qed.

Lemma steady_scrollUp (n : Z) : keepsState I (scrollUp n).
Proof.
  pose proof I_steady as (_ & _ & _ & _ & _ & Hscroll & _).
  unfold scrollUp, scroll.
  apply keepsState_bind; [apply keepsState_gets|]. intros r.
  apply keepsState_bind; [apply steady_getInfo|]. intros info.
  apply keepsState_bind; [apply keepsState_gets|]. intros a.
  apply keepsState_call. intros; now apply Hscroll.
Qed.

Lemma steady_SetConsoleCursorPosition (pos : COORD) :
  keepsState I (call (SetConsoleCursorPosition pos)).
Proof.
  pose proof I_steady as (_ & _ & _ & _ & Hcur & _).
  apply keepsState_call. intros; now apply Hcur.
Qed.

(** [simulateLF] keeps every steady property that survives [clearWrap]. *)
Lemma steady_simulateLF (includeCR : bool) :
  (forall h w, I (h, w) -> I (set_wrapNext false h, w)) ->
  keepsState I (simulateLF includeCR).
Proof.
  intros Hwrap. pose proof I_steady as (_ & _ & Hdrew & _).
  unfold simulateLF.
  apply keepsState_bind; [apply keepsState_gets|]. intros wn.
  apply keepsState_bind.
  { apply keepsState_if; [|apply keepsState_ret].
    apply keepsState_bind; [apply steady_Flush|]. intros _.
    unfold clearWrap.
    apply keepsState_bind; apply keepsState_modify || intros _;
      [intros; now apply Hwrap|].
    apply keepsState_modify. intros; now apply Hdrew. }
  intros _. apply keepsState_bind; [apply steady_getCurrentInfo|].
  intros [pos info]. apply keepsState_bind; [apply keepsState_gets|]. intros h.
  cbv zeta.
  repeat first
    [ apply keepsState_ret
    | apply steady_Flush
    | apply steady_scrollUp
    | apply steady_updatePos
    | apply steady_SetConsoleCursorPosition
    | apply keepsState_if
    | apply keepsState_bind; [|intros ?] ].
Qed.

End Steady.

(** *** What never panics *)

Lemma np_ret {A} (a : A) : neverPanics (World := World) (ret a).
Proof. intros s. reflexivity. Qed.

Lemma np_bind {A B} (c : @H World A) (k : A -> @H World B) :
  neverPanics c -> (forall a, neverPanics (k a)) -> neverPanics (bind c k).
Proof.
  intros Hc Hk s. unfold bind. specialize (Hc s).
  destruct (c s) as [[a|e|m] s1]; cbn [fst snd panicked] in *;
    [apply Hk | reflexivity | discriminate].
Qed.

Lemma np_gets {A} (f : WindowsAnsiEventHandler -> A) :
  neverPanics (World := World) (gets f).
Proof. intros s. reflexivity. Qed.

Lemma np_modify (f : WindowsAnsiEventHandler -> WindowsAnsiEventHandler) :
  neverPanics (World := World) (modify f).
Proof. intros s. reflexivity. Qed.

Lemma np_call (f : World -> option error * World) : neverPanics (call f).
Proof. intros [h w]. unfold call. cbn [fst snd]. now destruct (f w) as [[e|] w1]. Qed.

Lemma np_getInfo : neverPanics getInfo.
Proof.
  intros [h w]. unfold getInfo. cbn [fst snd].
  now destruct (GetConsoleScreenBufferInfo w) as [[e|i] w1].
Qed.

Lemma np_if {A} (b : bool) (c1 c2 : @H World A) :
  neverPanics c1 -> neverPanics c2 -> neverPanics (if b then c1 else c2).
Proof. now destruct b. Qed.

Lemma np_clearWrap : neverPanics (World := World) clearWrap.
Proof. intros s. reflexivity. Qed.

Lemma np_buffer_WriteByte (c : byte) :
  neverPanics (World := World) (buffer_WriteByte c).
Proof. intros s. reflexivity. Qed.

Lemma np_getCurrentInfo : neverPanics getCurrentInfo.
Proof.
  unfold getCurrentInfo. apply np_bind; [apply np_gets|]. intros [info|].
  - apply np_bind; [apply np_gets|]. intros; apply np_ret.
  - apply np_bind; [apply np_getInfo|]. intros info.
    apply np_bind; [apply np_modify|]. intros _.
    apply np_bind; [apply np_modify|]. intros _. apply np_ret.
Qed.

Lemma npc_of_np {A} (c : @H World A) : neverPanics c -> neverPanicsCached c.
Proof. intros Hc s _. apply Hc. Qed.

Lemma npc_if {A} (b : bool) (c1 c2 : @H World A) :
  neverPanicsCached c1 -> neverPanicsCached c2 ->
  neverPanicsCached (if b then c1 else c2).
Proof. now destruct b. Qed.

Lemma npc_gets_bind {A B} (f : WindowsAnsiEventHandler -> A)
  (k : A -> @H World B) :
  (forall a, neverPanicsCached (k a)) -> neverPanicsCached (bind (gets f) k).
Proof. intros Hk s Hs. unfold bind, gets. now apply Hk. Qed.

(** With the console information cached, [updatePos] goes through. *)
Lemma npc_updatePos_bind {B} (pos : COORD) (k : @H World B) :
  neverPanics k -> neverPanicsCached (bind (updatePos pos) (fun _ => k)).
Proof.
  intros Hk [h w] Hs. unfold updatePos, bind, gets, modify, panic.
  cbn [fst snd] in *. destruct (curInfo h); [apply Hk|congruence].
Qed.

(** After [getCurrentInfo] the console information is cached. *)
Lemma np_getCurrentInfo_bind {B}
  (k : COORD * CONSOLE_SCREEN_BUFFER_INFO -> @H World B) :
  (forall a, neverPanicsCached (k a)) -> neverPanics (bind getCurrentInfo k).
Proof.
  intros Hk s. rewrite bind_run. pose proof (np_getCurrentInfo s) as Hnp.
  destruct (getCurrentInfo s) as [[[pos info]|e|m] s1] eqn:Hget;
    cbn [fst panicked] in *; [|reflexivity|discriminate].
  apply Hk. apply getCurrentInfo_result in Hget as (_ & Hci & _).
  rewrite Hci. discriminate.
Qed.

Section Honest.

Hypothesis honest : writerHonest.

Lemma np_buffer_WriteTo : neverPanics buffer_WriteTo.
Proof.
  intros [h w]. unfold buffer_WriteTo. cbn [fst snd].
  destruct (0 <? len (buffer h)); [|reflexivity].
  pose proof (honest (buffer h) w) as Hm.
  destruct (fileWrite (buffer h) w) as [[m e] w1]. cbn [fst snd] in Hm.
  assert (Hle : (len (buffer h) <? Z.of_nat m) = false)
    by (apply Z.ltb_ge; unfold len; lia).
  rewrite Hle. destruct e; [reflexivity|]. now destruct (negb _).
Qed.

Lemma np_Flush : neverPanics Flush.
Proof.
  unfold Flush. apply np_bind; [apply np_modify|]. intros _.
  apply np_bind; [apply np_gets|]. intros n. apply np_bind.
  { apply np_if; [|apply np_ret].
    apply np_bind; [apply np_buffer_WriteTo|]. intros; apply np_ret. }
  intros _. apply np_bind; [apply np_gets|]. intros wn.
  apply np_bind; [apply np_gets|]. intros drew.
  apply np_if; [|apply np_ret].
  apply np_bind; [apply np_getInfo|]. intros info.
  apply np_bind; [apply np_gets|]. intros mb.
  apply np_bind; [apply np_call|]. intros _. apply np_modify.
Qed.

Lemma np_scroll (n : Z) (r : scrollRegion) : neverPanics (scroll n r).
Proof.
  unfold scroll. apply np_bind; [apply np_getInfo|]. intros info.
  apply np_bind; [apply np_gets|]. intros a. apply np_call.
Qed.

Lemma np_scrollUp (n : Z) : neverPanics (scrollUp n).
Proof. unfold scrollUp. apply np_bind; [apply np_gets|]. intros; apply np_scroll. Qed.

Lemma np_scrollDown (n : Z) : neverPanics (scrollDown n).
Proof. unfold scrollDown. apply np_bind; [apply np_gets|]. intros; apply np_scroll. Qed.

(** Steps of a no-panic proof. *)
Ltac np_step :=
  cbv beta zeta;
  lazymatch goal with
  | |- neverPanics (bind getCurrentInfo _) =>
      apply np_getCurrentInfo_bind; intros [? ?]
  | |- neverPanics (bind _ _) => apply np_bind; [|intros ?]
  | |- neverPanics (ret _) => apply np_ret
  | |- neverPanics (gets _) => apply np_gets
  | |- neverPanics (modify _) => apply np_modify
  | |- neverPanics (call _) => apply np_call
  | |- neverPanics getInfo => apply np_getInfo
  | |- neverPanics Flush => apply np_Flush
  | |- neverPanics clearWrap => apply np_clearWrap
  | |- neverPanics (buffer_WriteByte _) => apply np_buffer_WriteByte
  | |- neverPanics (scrollUp _) => apply np_scrollUp
  | |- neverPanics (scrollDown _) => apply np_scrollDown
  | |- neverPanics (scroll _ _) => apply np_scroll
  | |- neverPanics (if _ then _ else _) => apply np_if
  | |- neverPanicsCached (bind (gets _) _) => apply npc_gets_bind; intros ?
  | |- neverPanicsCached (bind (updatePos _) _) => apply npc_updatePos_bind
  | |- neverPanicsCached (if _ then _ else _) => apply npc_if
  | |- neverPanicsCached (bind (if ?b then _ else _) _) => destruct b
  | |- neverPanicsCached _ => apply npc_of_np
  end.

Lemma np_simulateLF (includeCR : bool) : neverPanics (simulateLF includeCR).
Proof. unfold simulateLF. repeat np_step. Qed.

Lemma np_Print (b : byte) : neverPanics (Print b).
Proof.
  unfold Print. apply np_bind; [apply np_gets|]. intros wn. apply np_bind.
  { apply np_if; [|apply np_ret].
    apply np_bind; [apply np_gets|]. intros mb.
    apply np_bind; [apply np_buffer_WriteByte|]. intros _.
    apply np_bind; [apply np_clearWrap|]. intros _.
    apply np_bind; [apply np_simulateLF|]. intros; apply np_ret. }
  intros _. repeat np_step.
Qed.

Lemma np_IND : neverPanics IND.
Proof.
  unfold IND. apply np_bind; [apply np_simulateLF|]. intros handled.
  repeat np_step.
Qed.

Lemma np_Execute (b : byte) : neverPanics (Execute b).
Proof.
  unfold Execute.
  repeat first
    [ apply np_IND | apply np_simulateLF
    | lazymatch goal with
      | |- neverPanics (if _ then _ else _) => apply np_if
      end
    | np_step ].
Qed.

End Honest.

Lemma np_runMotion (c : CursorMotion) : writerHonest -> neverPanics (runMotion c).
Proof.
  intros honest.
  assert (HF : neverPanics Flush) by now apply np_Flush.
  assert (HCUP : forall r c', neverPanics (CUP r c')).
  { intros r c'. unfold CUP.
    repeat first
      [ exact HF | apply np_clearWrap | apply np_getInfo | apply np_call
      | apply np_bind; [|intros ?] ]. }
  destruct c; cbn [runMotion];
    [ unfold CUU | unfold CUD | unfold CUF | unfold CUB | unfold CNL
    | unfold CPL | unfold CHA | unfold VPA | apply HCUP | unfold HVP ];
    repeat first
      [ exact HF | apply HCUP | apply np_clearWrap | apply np_getInfo
      | apply np_call | cbv zeta; apply np_bind; [|intros ?] ].
Qed.

(** X7: as long as the file's [Write] never reports more bytes than it
    was given, no entry point of the handler panics: [updatePos] is only
    reached with the console information cached, and [WriteTo] never sees
    an invalid count. *)
Theorem handler_never_panics :
  writerHonest ->
  forall (s : WindowsAnsiEventHandler * World),
    (forall b, panicked (fst (Print b s)) = false)
    /\ (forall b, panicked (fst (Execute b s)) = false)
    /\ panicked (fst (Flush s)) = false
    /\ panicked (fst (IND s)) = false
    /\ (forall includeCR, panicked (fst (simulateLF includeCR s)) = false)
    /\ (forall c, panicked (fst (runMotion c s)) = false).
Proof.
  intros honest s. repeat split; intros.
  - now apply np_Print.
  - now apply np_Execute.
  - now apply np_Flush.
  - now apply np_IND.
  - now apply np_simulateLF.
  - now apply np_runMotion.
Qed.

(** *** The byte stream *)

Lemma contract_honest (fileOf : World -> list byte) :
  writerContract fileOf -> writerHonest.
Proof. intros (Hwrite & _) bs w. apply Hwrite. Qed.

Lemma steady_stream (fileOf : World -> list byte) (v : list byte) :
  writerContract fileOf -> steady (fun s => stream fileOf s = v).
Proof.
  intros (Hwrite & Hinfo & Hcur & Hscroll & Hout).
  unfold steady, stream, pending. repeat split; fields; intros;
    try assumption; try congruence.
  - apply Hwrite.
  - destruct (Hwrite (buffer h) w) as [_ Hfile]. rewrite Hfile.
    rewrite <- H0, <- !app_assoc. f_equal.
    rewrite (app_assoc (firstn _ _)), firstn_skipn. reflexivity.
Qed.

Lemma steady_flat (fileOf : World -> list byte) (v : list byte) :
  writerContract fileOf -> steady (flat fileOf v).
Proof.
  intros (Hwrite & Hinfo & Hcur & Hscroll & Hout).
  unfold steady, flat. repeat split; fields; intros;
    repeat match goal with H : _ /\ _ |- _ => destruct H end;
    try assumption; try congruence.
  - apply Hwrite.
  - destruct (Hwrite (buffer h) w) as [_ Hfile]. rewrite Hfile.
    rewrite <- app_assoc, firstn_skipn. assumption.
Qed.

(** X8: provided the file appends what [Write] reports, [Flush] neither
    loses nor duplicates a byte, whether it succeeds or fails: the file
    followed by what is still pending is the same before and after. *)
Theorem Flush_keeps_stream (fileOf : World -> list byte) :
  writerContract fileOf ->
  forall s : WindowsAnsiEventHandler * World,
    stream fileOf (snd (Flush s)) = stream fileOf s.
Proof.
  intros Hc s.
  apply (steady_Flush _ (steady_stream fileOf (stream fileOf s) Hc)).
  reflexivity.
Qed.

Lemma flat_stream (fileOf : World -> list byte) (v : list byte)
  (s : WindowsAnsiEventHandler * World) :
  flat fileOf v s -> stream fileOf s = v.
Proof.
  intros [Hwn Hv]. unfold stream, pending. rewrite Hwn, app_nil_r. exact Hv.
Qed.

(** In the margin, [Print] moves the margin byte to the buffer, leaves the
    margin, simulates CR+LF and starts over. *)
Lemma Print_in_margin (b : byte) (h : WindowsAnsiEventHandler) (w : World) :
  wrapNext h = true ->
  Print b (h, w)
  = (_ <- simulateLF true ;; Print b)
      (set_drewMarginByte false
         (set_wrapNext false (set_buffer (buffer h ++ [marginByte h]) h)), w).
Proof.
  intros Hwn.
  set (h0 := set_drewMarginByte false
               (set_wrapNext false (set_buffer (buffer h ++ [marginByte h]) h))).
  pose proof (keeps_simulateLF_wrapCleared true (h0, w)) as Hkeep.
  unfold Print at 1. unfold bind at 1 2. unfold gets at 1. cbn [fst snd].
  rewrite Hwn. unfold bind at 1 2 3 4. unfold gets at 1. cbn [fst snd].
  unfold buffer_WriteByte, clearWrap. run. fold h0.
  destruct (simulateLF true (h0, w)) as [[v|e|m] s1]; try reflexivity.
  rewrite Print_out_of_margin; [reflexivity|].
  apply Hkeep. split; reflexivity.
Qed.

Lemma Print_flat (fileOf : World -> list byte) (v : list byte) (b : byte)
  (s : WindowsAnsiEventHandler * World) :
  writerContract fileOf -> flat fileOf v s ->
  match Print b s with
  | (Ok _, s') => stream fileOf s' = v ++ [b]
  | (Err _, s') => stream fileOf s' = v
  | (Panic _, _) => False
  end.
Proof.
  intros Hc Hflat. pose proof Hflat as [Hwn _].
  rewrite Print_out_of_margin by exact Hwn. rewrite bind_run.
  pose proof (steady_getCurrentInfo _ (steady_flat fileOf v Hc) s Hflat) as Hs2.
  pose proof (np_getCurrentInfo s) as Hnp.
  destruct (getCurrentInfo s) as [[[pos info]|e|m] [h2 w2]] eqn:Hget;
    cbn [fst snd panicked] in *; [|now apply flat_stream|discriminate].
  apply getCurrentInfo_result in Hget as (_ & Hci & _).
  destruct Hs2 as [Hwn2 Hv2]. cbn [fst snd] in *.
  destruct (X pos =? wrap16 (X (Size info) - 1)).
  - run. unfold stream, pending. fields. now rewrite app_assoc, Hv2.
  - unfold updatePos, buffer_WriteByte. run. rewrite Hci.
    unfold stream, pending. fields. rewrite Hwn2, app_nil_r, app_assoc.
    now rewrite Hv2.
Qed.

(** X9: provided the file appends what [Write] reports, a [Print] that
    returns without error adds exactly its byte at the end of the stream
    (file, then buffer, then pending margin byte); a [Print] that returns
    an error leaves the stream as it was; and [Print] does not panic. *)
Theorem Print_extends_stream (fileOf : World -> list byte) :
  writerContract fileOf ->
  forall (b : byte) (s : WindowsAnsiEventHandler * World),
    match Print b s with
    | (Ok _, s') => stream fileOf s' = stream fileOf s ++ [b]
    | (Err _, s') => stream fileOf s' = stream fileOf s
    | (Panic _, _) => False
    end.
Proof.
  intros Hc b [h w]. destruct (wrapNext h) eqn:Hwn.
  - rewrite Print_in_margin by exact Hwn. rewrite bind_run.
    set (h0 := set_drewMarginByte false
                 (set_wrapNext false
                    (set_buffer (buffer h ++ [marginByte h]) h))).
    assert (Hflat : flat fileOf (stream fileOf (h, w)) (h0, w)).
    { split; [reflexivity|]. unfold stream, pending. cbn [fst snd].
      now rewrite Hwn. }
    assert (Hwrap : forall h1 w1, flat fileOf (stream fileOf (h, w)) (h1, w1) ->
              flat fileOf (stream fileOf (h, w)) (set_wrapNext false h1, w1)).
    { intros h1 w1 [_ Hv]. split; [reflexivity|exact Hv]. }
    pose proof (steady_simulateLF _ (steady_flat fileOf _ Hc) true Hwrap
                  (h0, w) Hflat) as Hs1.
    pose proof (np_simulateLF (contract_honest _ Hc) true (h0, w)) as Hnp.
    destruct (simulateLF true (h0, w)) as [[v|e|m] s1];
      cbn [fst snd panicked] in *; [|now apply flat_stream|discriminate].
    now apply Print_flat.
  - apply Print_flat; [exact Hc|].
    split; [exact Hwn|]. unfold stream, pending. cbn [fst snd].
    now rewrite Hwn, app_nil_r.
Qed.

(** *** Execute *)

(** X10: [Execute] ignores every byte other than TAB, BEL, BS, VT, FF, LF
    and CR: it returns without error and changes neither the handler nor
    the console. *)
Theorem Execute_ignores_other_bytes (b : byte)
  (s : WindowsAnsiEventHandler * World) :
  ~ In b [ANSI_TAB; ANSI_BEL; ANSI_BACKSPACE; ANSI_VERTICAL_TAB;
          ANSI_FORM_FEED; ANSI_LINE_FEED; ANSI_CARRIAGE_RETURN] ->
  Execute b s = (Ok tt, s).
Proof.
  intros Hn.
  assert (Hne : forall c, In c [ANSI_TAB; ANSI_BEL; ANSI_BACKSPACE;
                                ANSI_VERTICAL_TAB; ANSI_FORM_FEED;
                                ANSI_LINE_FEED; ANSI_CARRIAGE_RETURN] ->
                Byte.eqb b c = false).
  { intros c Hc. destruct (Byte.eqb b c) eqn:Heq; [|reflexivity].
    apply Byte.byte_dec_bl in Heq. subst. contradiction. }
  unfold Execute.
  rewrite !Hne by (cbn; tauto). reflexivity.
Qed.

(** X11: out of the margin, with the cached column inside a buffer of at
    most 32760 columns (so that the column plus 8 stays within [int16]),
    TAB flushes and moves the console cursor to the next multiple of 8 on
    the same row, or to the last column when that multiple is past it;
    with a wrap pending TAB does nothing. *)
Theorem Execute_TAB_next_stop (s : WindowsAnsiEventHandler * World) :
  (forall pos info s1,
      wrapNext (fst s) = false ->
      getCurrentInfo s = (Ok (pos, info), s1) ->
      0 <= X pos < X (Size info) -> X (Size info) <= 32760 ->
      Execute ANSI_TAB s
      = (Flush ;;
         call (SetConsoleCursorPosition
                 {| X := Z.min (8 * (X pos / 8) + 8) (X (Size info) - 1);
                    Y := Y pos |})) s1)
  /\ (wrapNext (fst s) = true -> Execute ANSI_TAB s = (Ok tt, s)).
Proof.
  split.
  - intros pos info s1 Hwn Hget Hx Hsize.
    unfold Execute. change (Byte.eqb ANSI_TAB ANSI_TAB) with true. cbv iota.
    rewrite bind_run. unfold gets at 1. cbn [fst snd]. rewrite Hwn.
    cbn [negb]. rewrite bind_run, Hget. cbv beta iota zeta.
    assert (Hrem : Z.rem (X pos) 8 = X pos mod 8)
      by (apply Z.rem_mod_nonneg; lia).
    pose proof (Z.div_mod (X pos) 8 ltac:(lia)) as Hdm.
    pose proof (Z.mod_pos_bound (X pos) 8 ltac:(lia)) as Hmod.
    assert (Hnew : wrap16 (wrap16 (X pos + 8) - Z.rem (X pos) 8)
                   = 8 * (X pos / 8) + 8).
    { rewrite Hrem, (wrap16_small (X pos + 8)) by lia.
      rewrite wrap16_small by lia. lia. }
    unfold set_X. cbn [X Y]. rewrite Hnew.
    destruct (8 * (X pos / 8) + 8 >=? X (Size info)) eqn:Hge;
      rewrite Z.geb_leb in Hge.
    + apply Z.leb_le in Hge. rewrite wrap16_small by lia.
      rewrite Z.min_r by lia. reflexivity.
    + apply Z.leb_gt in Hge. rewrite Z.min_l by lia. reflexivity.
  - intros Hwn. unfold Execute.
    change (Byte.eqb ANSI_TAB ANSI_TAB) with true. cbv iota.
    rewrite bind_run. unfold gets at 1. cbn [fst snd]. rewrite Hwn.
    reflexivity.
Qed.

(** *** The scroll region set by DECSTBM *)

Lemma DECSTBM_stores (t b : Z) (s s' : WindowsAnsiEventHandler * World) :
  DECSTBM t b s = (Ok tt, s') ->
  sr (fst s') = {| top := wrap16 (t - 1); bottom := wrap16 (b - 1) |}.
Proof.
  unfold DECSTBM. rewrite bind_run.
  destruct (Flush s) as [[[]|e|m] [h1 w1]]; try discriminate.
  unfold clearWrap. run.
  destruct (SetConsoleCursorPosition {| X := 0; Y := 0 |} w1) as [[e|] w2];
    [discriminate|].
  intros Heq. inversion Heq; subst. reflexivity.
Qed.

(** X12: after a successful DECSTBM with one-based rows [t >= 1] and
    [b >= 1], and for a window with [0 <= Top <= Bottom <= 32767] in which
    neither row overflows [int16] ([Top + t <= 32768] and
    [Top + b <= 32768]), the effective region is rows [t] to [b] counted
    from the window top, each cut off at the window bottom, when that
    leaves at least two rows, and the full window otherwise; in particular
    DECSTBM with [t >= b] selects the full window. *)
Theorem DECSTBM_effective_region (t b : Z)
  (s s' : WindowsAnsiEventHandler * World) (window : SMALL_RECT) :
  DECSTBM t b s = (Ok tt, s') ->
  0 <= Top window <= Bottom window -> Bottom window <= 32767 ->
  1 <= t -> 1 <= b ->
  Top window + t <= 32768 -> Top window + b <= 32768 ->
  effectiveSr (fst s') window
  = (if Z.min (Top window + t - 1) (Bottom window)
        <? Z.min (Top window + b - 1) (Bottom window)
     then {| top := Z.min (Top window + t - 1) (Bottom window);
             bottom := Z.min (Top window + b - 1) (Bottom window) |}
     else {| top := Top window; bottom := Bottom window |}).
Proof.
  intros Hrun Hwin Hbot Ht Hb Htt Hbb.
  unfold effectiveSr, AddInRange. rewrite (DECSTBM_stores _ _ _ _ Hrun).
  cbn [top bottom].
  rewrite (wrap16_small (t - 1)), (wrap16_small (b - 1)) by lia.
  rewrite (wrap16_small (Top window + (t - 1))) by lia.
  rewrite (wrap16_small (Top window + (b - 1))) by lia.
  assert (Hclamp : forall n, Top window <= n ->
            ensureInRange n (Top window) (Bottom window)
            = Z.min n (Bottom window)).
  { intros n Hn. unfold ensureInRange.
    destruct (Z.ltb_spec n (Top window)); [lia|].
    destruct (Z.ltb_spec (Bottom window) n); lia. }
  rewrite !Hclamp by lia.
  replace (Top window + (t - 1)) with (Top window + t - 1) by lia.
  replace (Top window + (b - 1)) with (Top window + b - 1) by lia.
  rewrite Z.geb_leb.
  destruct (Z.leb_spec (Z.min (Top window + b - 1) (Bottom window))
              (Z.min (Top window + t - 1) (Bottom window)));
    destruct (Z.ltb_spec (Z.min (Top window + t - 1) (Bottom window))
                (Z.min (Top window + b - 1) (Bottom window)));
    reflexivity || lia.
Qed.

(** X13: a handler just created has no custom scroll region: its
    effective region is the full window, for every window, and it is out
    of the margin with an empty buffer. *)
Theorem fresh_handler_full_window (infoReset : CONSOLE_SCREEN_BUFFER_INFO)
  (window : SMALL_RECT) :
  effectiveSr (CreateWinEventHandler infoReset) window
  = {| top := Top window; bottom := Bottom window |}
  /\ pending (CreateWinEventHandler infoReset) = []
  /\ attributes (CreateWinEventHandler infoReset) = Attributes infoReset.
Proof.
  split; [|split; reflexivity].
  unfold effectiveSr. cbn [sr CreateWinEventHandler top bottom].
  rewrite Z.geb_leb, Z.leb_refl. reflexivity.
Qed.

(** *** Commands that leave the margin *)

Ltac keeps_more :=
  cbv beta zeta;
  lazymatch goal with
  | |- keeps _ (bind _ _) => apply keeps_bind; [|intros ?]
  | |- keeps _ (ret _) => apply keeps_ret
  | |- keeps _ (gets _) => apply keeps_gets
  | |- keeps _ (call _) => apply keeps_call
  | |- keeps _ getInfo => apply keeps_getInfo
  | |- keeps _ (scrollUp _) => apply keeps_scrollUp
  | |- keeps _ (scroll _ _) => apply keeps_scroll
  | |- keeps _ (if _ then _ else _) => apply keeps_if
  | |- keeps _ (match ?x with pair _ _ => _ end) => destruct x
  | |- keeps wrapCleared Flush => apply keeps_Flush_wrapCleared
  | |- keeps wrapCleared clearWrap => apply keeps_clearWrap_wrapCleared
  end.

Lemma keeps_EL_wrapCleared (param : Z) :
  keeps (World := World) wrapCleared (EL param).
Proof. unfold EL. repeat keeps_more. Qed.

(** Every command of [WrapClearing] but DECSTBM is [Flush], [clearWrap]
    and a rest that stays out of the margin. *)
Lemma runClearing_shape (c : WrapClearing) :
  (exists t b, c = ClearDECSTBM t b)
  \/ exists rest : @H World unit,
       keeps wrapCleared rest /\ runClearing c = (Flush ;; clearWrap ;; rest).
Proof.
  destruct c; cbn [runClearing];
    [ unfold DECTCEM | unfold ED | unfold EL | unfold IL | unfold DL
    | unfold SU, scrollPageUp, scrollPage
    | unfold SD, scrollPageDown, scrollPage
    | left; now eauto
    | unfold RI ];
    right; eexists; (split; [|reflexivity]);
    unfold scrollDown;
    solve [ repeat first [apply keeps_EL_wrapCleared | keeps_more] ].
Qed.

(** X14: when DECTCEM, ED, EL, IL, DL, SU, SD, DECSTBM or RI returns
    without error the handler is out of the margin: [wrapNext] and
    [drewMarginByte] are both false. *)
Theorem commands_clear_wrap (c : WrapClearing)
  (s s' : WindowsAnsiEventHandler * World) :
  runClearing c s = (Ok tt, s') ->
  wrapNext (fst s') = false /\ drewMarginByte (fst s') = false.
Proof.
  destruct (runClearing_shape c) as [(t & b & ->)|(rest & Hrest & Hshape)].
  - cbn [runClearing]. unfold DECSTBM. rewrite bind_run.
    destruct (Flush s) as [[[]|e|m] [h1 w1]]; try discriminate.
    unfold clearWrap. run.
    destruct (SetConsoleCursorPosition {| X := 0; Y := 0 |} w1) as [[e|] w2];
      [discriminate|].
    intros Heq. inversion Heq; subst. split; reflexivity.
  - rewrite Hshape. intros Hrun.
    destruct (Ok_after_Flush _ _ _ _ Hrun) as [s1 HF].
    pose proof (after_Flush_clearWrap rest s s1 Hrest HF) as Hc.
    rewrite Hrun in Hc. exact Hc.
Qed.

(** *** SGR *)

Lemma SGR_attr_wrap_state (h : WindowsAnsiEventHandler) (attr : Z) :
  wrapNext (SGR_attr h attr) = wrapNext h
  /\ marginByte (SGR_attr h attr) = marginByte h
  /\ buffer (SGR_attr h attr) = buffer h.
Proof.
  unfold SGR_attr. destruct (attr =? ANSI_SGR_RESET); [now repeat split|].
  destruct (collectAnsiIntoWindowsAttributes _ _ _ _). now repeat split.
Qed.

Lemma SGR_fold_wrap_state (params : list Z) (h : WindowsAnsiEventHandler) :
  wrapNext (fold_left SGR_attr params h) = wrapNext h
  /\ marginByte (fold_left SGR_attr params h) = marginByte h
  /\ buffer (fold_left SGR_attr params h) = buffer h.
Proof.
  revert h. induction params as [|a params IH]; intros h; [now repeat split|].
  cbn [fold_left]. destruct (IH (SGR_attr h a)) as (H1 & H2 & H3).
  destruct (SGR_attr_wrap_state h a) as (H4 & H5 & H6).
  repeat split; congruence.
Qed.

(** X15: SGR never cancels a deferred wrap: whatever its parameters and
    whatever it returns, [wrapNext] and [marginByte] are as before. *)
Theorem SGR_keeps_wrap_state (params : list Z)
  (s : WindowsAnsiEventHandler * World) :
  wrapNext (fst (snd (SGR params s))) = wrapNext (fst s)
  /\ marginByte (fst (snd (SGR params s))) = marginByte (fst s).
Proof.
  assert (Hk : keeps (World := World)
                 (fun h => wrapNext h = wrapNext (fst s)
                           /\ marginByte h = marginByte (fst s))
                 (SGR params)).
  { unfold SGR. apply keeps_bind.
    { apply keeps_Flush_frame; intros; assumption. }
    intros _. apply keeps_bind.
    { apply keeps_if.
      - apply keeps_bind; [|intros _]; apply keeps_modify; intros; assumption.
      - apply keeps_modify. intros h [H1 H2].
        destruct (SGR_fold_wrap_state params h) as (H3 & H4 & _).
        split; congruence. }
    intros _. repeat keeps_more. }
  apply Hk. split; reflexivity.
Qed.

(** *** Erase in line *)

Lemma EL_other_mode (param : Z) (s : WindowsAnsiEventHandler * World) :
  param <> 0 -> param <> 1 -> param <> 2 ->
  EL param s
  = (Flush ;;
     clearWrap ;;
     _ <- getInfo ;;
     attrs <- gets attributes ;;
     call (clearRange attrs {| X := 0; Y := 0 |} {| X := 0; Y := 0 |})) s.
Proof.
  intros H0 H1 H2. unfold EL.
  apply Z.eqb_neq in H0, H1, H2. rewrite H0, H1, H2. reflexivity.
Qed.

(** X16: of the erase modes [getEraseParam] lets through, only 3 is
    unknown to EL.  For the parameters that decode to it, EL does not erase
    in the cursor's line: after flushing and leaving the margin it clears
    the single cell at the origin of the buffer, whatever the cursor
    position; ED treats the same mode like mode 2. *)
Theorem EL_unknown_mode_clears_origin (params : list string)
  (s : WindowsAnsiEventHandler * World) :
  Ansiterm.getEraseParam params <> 0 ->
  Ansiterm.getEraseParam params <> 1 ->
  Ansiterm.getEraseParam params <> 2 ->
  Ansiterm.getEraseParam params = 3
  /\ EL (Ansiterm.getEraseParam params) s
     = (Flush ;;
        clearWrap ;;
        _ <- getInfo ;;
        attrs <- gets attributes ;;
        call (clearRange attrs {| X := 0; Y := 0 |} {| X := 0; Y := 0 |})) s
  /\ ED (Ansiterm.getEraseParam params) s = ED 2 s.
Proof.
  intros H0 H1 H2.
  assert (H3 : Ansiterm.getEraseParam params = 3).
  { revert H0 H1 H2. unfold Ansiterm.getEraseParam.
    set (v := Ansiterm.getInt params 0).
    destruct (Z.ltb_spec v 0); destruct (Z.ltb_spec 3 v); cbn; lia. }
  split; [exact H3|]. split; [now apply EL_other_mode|].
  rewrite H3. reflexivity.
Qed.

(** *** simulateLF leaving the line feed to Windows *)

(** X17: when the cursor is on the bottom row of a region that is the
    full window, or is neither on the region's bottom row nor on or below
    the window's bottom row, [simulateLF] returns false and makes no
    console call after its query: it only moves the cached position, to
    column 0 when a carriage return is included, and in the second case
    one row down. *)
Theorem simulateLF_leaves_LF_to_windows (includeCR : bool)
  (s s1 : WindowsAnsiEventHandler * World)
  (pos : COORD) (info : CONSOLE_SCREEN_BUFFER_INFO) :
  (wn <- gets wrapNext ;;
   (if wn then Flush ;; clearWrap else ret tt) ;;
   getCurrentInfo) s = (Ok (pos, info), s1) ->
  (Y pos = bottom (effectiveSr (fst s1) (Window info)) ->
   top (effectiveSr (fst s1) (Window info)) = Top (Window info) ->
   bottom (effectiveSr (fst s1) (Window info)) = Bottom (Window info) ->
   simulateLF includeCR s
   = (Ok false,
      (if includeCR then set_curPos {| X := 0; Y := Y pos |} (fst s1)
       else fst s1,
       snd s1)))
  /\ (Y pos <> bottom (effectiveSr (fst s1) (Window info)) ->
      Y pos < Bottom (Window info) ->
      simulateLF includeCR s
      = (Ok false,
         (set_curPos {| X := if includeCR then 0 else X pos;
                        Y := wrap16 (Y pos + 1) |} (fst s1),
          snd s1))).
Proof.
  intros Hpre.
  assert (Hrun : simulateLF includeCR s
            = (h <- gets (fun h => h) ;;
               let sr := effectiveSr h (Window info) in
               if Y pos =? bottom sr then
                 if (top sr =? Top (Window info))
                    && (bottom sr =? Bottom (Window info)) then
                   (if includeCR then updatePos (set_X 0 pos) else ret tt) ;;
                   ret false
                 else
                   Flush ;;
                   scrollUp 1 ;;
                   (if includeCR
                    then call (SetConsoleCursorPosition (set_X 0 pos))
                    else ret tt) ;;
                   ret true
               else if Y pos <? Bottom (Window info) then
                 updatePos
                   (if includeCR
                    then set_X 0 (set_Y (wrap16 (Y pos + 1)) pos)
                    else set_Y (wrap16 (Y pos + 1)) pos) ;;
                 ret false
               else
                 (if includeCR then
                    Flush ;;
                    call (SetConsoleCursorPosition (set_X 0 pos))
                  else ret tt) ;;
                 ret true) s1
               /\ curInfo (fst s1) = Some info).
  { unfold simulateLF. rewrite bind_run in Hpre. rewrite bind_run.
    destruct (gets wrapNext s) as [[wn|e|m] s0]; try discriminate Hpre.
    cbv beta iota in Hpre |- *. rewrite bind_run in Hpre. rewrite bind_run.
    destruct ((if wn then Flush ;; clearWrap else ret tt) s0) as [[[]|e|m] s0'];
      try discriminate Hpre.
    cbv beta iota in Hpre |- *.
    rewrite bind_run, Hpre. cbv beta iota. split; [reflexivity|].
    now apply getCurrentInfo_result in Hpre as (_ & Hci & _). }
  destruct Hrun as [Hrun Hci]. rewrite Hrun. clear Hrun.
  destruct s1 as [h1 w1]. cbn [fst snd] in *.
  split.
  - intros Hrow Htop Hbot. apply Z.eqb_eq in Hrow, Htop, Hbot.
    rewrite bind_run. unfold gets at 1. cbv beta iota zeta. cbn [fst snd].
    rewrite Hrow, Htop, Hbot. cbn [andb].
    destruct includeCR; [|reflexivity].
    unfold updatePos. run. rewrite Hci. reflexivity.
  - intros Hrow Hlow. apply Z.eqb_neq in Hrow. apply Z.ltb_lt in Hlow.
    rewrite bind_run. unfold gets at 1. cbv beta iota zeta. cbn [fst snd].
    rewrite Hrow, Hlow. unfold updatePos. run. rewrite Hci.
    destruct includeCR; reflexivity.
Qed.

(** *** The dispatch of DECTCEM *)

(** X18: [hDispatch] and [lDispatch] reach the handler only for the single
    parameter [?25]; for any other parameter list they return without
    error and touch nothing.  On this handler showing and hiding the
    cursor are the same operation: a flush that leaves the margin. *)
Theorem dispatch_DECTCEM (params : list string)
  (s : WindowsAnsiEventHandler * World) :
  (params = ["?25"%string] ->
   hDispatch params s = DECTCEM true s /\ lDispatch params s = DECTCEM false s)
  /\ (params <> ["?25"%string] ->
      hDispatch params s = (Ok tt, s) /\ lDispatch params s = (Ok tt, s))
  /\ hDispatch params s = lDispatch params s.
Proof.
  split; [intros ->; split; reflexivity|].
  assert (Hcond : params <> ["?25"%string] ->
            (len params =? 1)
            && String.eqb (nth 0 params EmptyString) "?25" = false).
  { intros Hne. destruct params as [|p [|q r]].
    - reflexivity.
    - cbn. destruct (String.eqb_spec p "?25"); [congruence|reflexivity].
    - apply andb_false_iff. left. apply Z.eqb_neq. unfold len.
      cbn [List.length]. lia. }
  split.
  - intros Hne. unfold hDispatch, lDispatch. rewrite (Hcond Hne).
    split; reflexivity.
  - unfold hDispatch, lDispatch.
    destruct ((len params =? 1)
              && String.eqb (nth 0 params EmptyString) "?25"); reflexivity.
Qed.

(** *** Nothing pending after a command *)











(** *** The byte stream under Execute *)

Lemma reaches_keep {A} (I J : WindowsAnsiEventHandler * World -> Prop)
  (c : @H World A) :
  keepsState I c -> keepsOrReaches I J c.
Proof. intros Hc s HI. left. now apply Hc. Qed.

Lemma reaches_bind {A B} (I J : WindowsAnsiEventHandler * World -> Prop)
  (c : @H World A) (k : A -> @H World B) :
  keepsState I c -> (forall a, keepsOrReaches I J (k a)) ->
  keepsOrReaches I J (bind c k).
Proof.
  intros Hc Hk s HI. unfold bind. specialize (Hc s HI).
  destruct (c s) as [[a|e|m] s1]; cbn [fst snd] in *; auto.
  now apply Hk.
Qed.

Lemma reaches_if {A} (I J : WindowsAnsiEventHandler * World -> Prop)
  (b : bool) (c1 c2 : @H World A) :
  keepsOrReaches I J c1 -> keepsOrReaches I J c2 ->
  keepsOrReaches I J (if b then c1 else c2).
Proof. now destruct b. Qed.

Lemma flat_WriteByte (fileOf : World -> list byte) (v : list byte) (b : byte)
  (s : WindowsAnsiEventHandler * World) :
  flat fileOf v s -> flat fileOf (v ++ [b]) (snd (buffer_WriteByte b s)).
Proof.
  destruct s as [h w]. intros [Hwn Hv]. split; [exact Hwn|].
  cbn [fst snd] in *. unfold buffer_WriteByte. run. fields.
  now rewrite app_assoc, Hv.
Qed.

Lemma reaches_WriteByte (fileOf : World -> list byte) (v : list byte) (b : byte) :
  keepsOrReaches (flat fileOf v) (flat fileOf (v ++ [b])) (buffer_WriteByte b).
Proof. intros s Hs. right. now apply flat_WriteByte. Qed.

Lemma reaches_WriteByte_then (fileOf : World -> list byte) (v : list byte)
  (b : byte) (rest : @H World unit) :
  keepsState (flat fileOf (v ++ [b])) rest ->
  keepsOrReaches (flat fileOf v) (flat fileOf (v ++ [b]))
    (buffer_WriteByte b ;; rest).
Proof.
  intros Hrest s Hs. right. rewrite bind_run.
  pose proof (flat_WriteByte fileOf v b s Hs) as Hw.
  destruct (buffer_WriteByte b s) as [[[]|e|m] s1] eqn:Hb;
    cbn [fst snd] in *; try exact Hw.
  now apply Hrest.
Qed.

Lemma flat_leave_margin (fileOf : World -> list byte) (v : list byte)
  (wn : bool) :
  writerContract fileOf ->
  keepsState (flat fileOf v) (if wn then Flush ;; clearWrap else ret tt).
Proof.
  intros Hc. apply keepsState_if; [|apply keepsState_ret].
  apply keepsState_bind; [apply steady_Flush, steady_flat, Hc|]. intros _.
  intros [h w] [Hwn Hv]. split; [reflexivity|exact Hv].
Qed.

Lemma flat_simulateLF (fileOf : World -> list byte) (v : list byte)
  (includeCR : bool) :
  writerContract fileOf ->
  keepsState (flat fileOf v) (simulateLF includeCR).
Proof.
  intros Hc. apply steady_simulateLF; [now apply steady_flat|].
  intros h w [_ Hv]. split; [reflexivity|exact Hv].
Qed.

(** X20: out of the margin, [Execute] never loses or reorders a byte of
    the stream (file, then buffer) and adds at most one byte, at the end:
    the byte itself, or LF for VT and FF; and it stays out of the margin.
    This holds whatever [Execute] returns. *)
Theorem Execute_extends_stream (fileOf : World -> list byte) :
  writerContract fileOf ->
  forall (b : byte) (s : WindowsAnsiEventHandler * World),
    wrapNext (fst s) = false ->
    wrapNext (fst (snd (Execute b s))) = false
    /\ (stream fileOf (snd (Execute b s)) = stream fileOf s
        \/ stream fileOf (snd (Execute b s))
           = stream fileOf s
             ++ [if Byte.eqb b ANSI_VERTICAL_TAB || Byte.eqb b ANSI_FORM_FEED
                 then ANSI_LINE_FEED else b]).
Proof.
  intros Hc b s Hwn.
  remember (stream fileOf s) as v eqn:Hv.
  remember (if Byte.eqb b ANSI_VERTICAL_TAB || Byte.eqb b ANSI_FORM_FEED
            then ANSI_LINE_FEED else b) as c eqn:Hcdef.
  assert (Hflat : flat fileOf v s).
  { split; [exact Hwn|]. subst v. unfold stream, pending.
    now rewrite Hwn, app_nil_r. }
  pose proof (fun v' => steady_flat fileOf v' Hc) as Hst.
  assert (Hgo : keepsOrReaches (flat fileOf v) (flat fileOf (v ++ [c]))
                  (Execute b)).
  { unfold Execute.
    destruct (Byte.eqb b ANSI_TAB) eqn:E1.
    { apply reaches_keep.
      apply keepsState_bind; [apply keepsState_gets|]. intros wn.
      apply keepsState_if; [|apply keepsState_ret].
      apply keepsState_bind; [now apply steady_getCurrentInfo|].
      intros [pos info]. cbv zeta.
      apply keepsState_bind; [now apply steady_Flush|]. intros _.
      now apply steady_SetConsoleCursorPosition. }
    destruct (Byte.eqb b ANSI_BEL) eqn:E2.
    { apply Byte.byte_dec_bl in E2. subst b. vm_compute in Hcdef. subst c.
      apply reaches_WriteByte. }
    destruct (Byte.eqb b ANSI_BACKSPACE) eqn:E3.
    { apply Byte.byte_dec_bl in E3. subst b. vm_compute in Hcdef. subst c.
      apply reaches_bind; [apply keepsState_gets|]. intros wn.
      apply reaches_bind; [now apply flat_leave_margin|]. intros _.
      apply reaches_bind; [now apply steady_getCurrentInfo|].
      intros [pos info].
      apply reaches_if; [|apply reaches_keep, keepsState_ret].
      apply reaches_bind; [now apply steady_updatePos|]. intros _.
      apply reaches_WriteByte. }
    destruct (Byte.eqb b ANSI_VERTICAL_TAB || Byte.eqb b ANSI_FORM_FEED) eqn:E4.
    { subst c. unfold IND.
      apply reaches_bind; [now apply flat_simulateLF|]. intros handled.
      apply reaches_if; [|apply reaches_keep, keepsState_ret].
      apply reaches_bind; [now apply steady_getCurrentInfo|].
      intros [pos info].
      apply reaches_WriteByte_then.
      apply keepsState_if; [|apply keepsState_ret].
      apply keepsState_bind; [now apply steady_Flush|]. intros _.
      now apply steady_SetConsoleCursorPosition. }
    subst c.
    destruct (Byte.eqb b ANSI_LINE_FEED) eqn:E5.
    { apply Byte.byte_dec_bl in E5. subst b.
      apply reaches_bind; [now apply flat_simulateLF|]. intros handled.
      apply reaches_if; [apply reaches_keep, keepsState_ret|].
      apply reaches_WriteByte. }
    destruct (Byte.eqb b ANSI_CARRIAGE_RETURN) eqn:E6.
    { apply Byte.byte_dec_bl in E6. subst b.
      apply reaches_bind; [apply keepsState_gets|]. intros wn.
      apply reaches_bind; [now apply flat_leave_margin|]. intros _.
      apply reaches_bind; [now apply steady_getCurrentInfo|].
      intros [pos info].
      apply reaches_if; [|apply reaches_keep, keepsState_ret].
      apply reaches_bind; [now apply steady_updatePos|]. intros _.
      apply reaches_WriteByte. }
    apply reaches_keep, keepsState_ret. }
  destruct (Hgo s Hflat) as [[H1 H2]|[H1 H2]]; (split; [exact H1|]);
    [left|right]; apply flat_stream; split; assumption.
Qed.

(** *** Absolute positioning *)

(** X27: CUP and VPA never leave the window, whatever their arguments.
    Once the console has been queried, CUP hands [setCursorPosition] a
    position whose row lies in the window and whose column lies in the
    buffer, and VPA moves the cursor within its column to a row of the
    window.  CUP counts its row from the window top, VPA from the top of
    the buffer. *)
Theorem CUP_VPA_stay_in_window (s s1 : WindowsAnsiEventHandler * World)
  (info : CONSOLE_SCREEN_BUFFER_INFO) :
  (Flush ;; clearWrap ;; getInfo) s = (Ok info, s1) ->
  Top (Window info) <= Bottom (Window info) ->
  1 <= X (Size info) <= 32767 ->
  (forall row col,
      exists position,
        CUP row col s = call (setCursorPosition position (Size info)) s1
        /\ Top (Window info) <= Y position <= Bottom (Window info)
        /\ 0 <= X position <= X (Size info) - 1
        /\ Y position
           = ensureInRange (wrap16 (wrap16 (row - 1) + Top (Window info)))
               (Top (Window info)) (Bottom (Window info)))
  /\ (forall param,
        exists y,
          VPA param s
          = call (SetConsoleCursorPosition
                    {| X := X (CursorPosition info); Y := y |}) s1
          /\ Top (Window info) <= y <= Bottom (Window info)
          /\ y = ensureInRange (wrap16 (param - 1))
                   (Top (Window info)) (Bottom (Window info))).
Proof.
  intros Hpre Hwin Hsize.
  rewrite bind_run in Hpre.
  destruct (Flush s) as [[[]|e|m] s0] eqn:HF; try discriminate Hpre.
  cbv beta iota in Hpre. rewrite bind_run in Hpre.
  destruct (clearWrap s0) as [[[]|e|m] s0'] eqn:HC; try discriminate Hpre.
  cbv beta iota in Hpre.
  split.
  - intros row col. eexists. split; [|split; [|split]].
    + unfold CUP. rewrite bind_run, HF. cbv beta iota.
      rewrite bind_run, HC. cbv beta iota.
      rewrite bind_run, Hpre. cbv beta iota zeta. reflexivity.
    + cbn [Y]. unfold AddInRange. now apply ensureInRange_bounds.
    + cbn [X]. rewrite (wrap16_small (X (Size info) - 1)) by lia.
      apply ensureInRange_bounds. lia.
    + reflexivity.
  - intros param. eexists. split; [|split].
    + unfold VPA. rewrite bind_run, HF. cbv beta iota.
      rewrite bind_run, HC. cbv beta iota.
      rewrite bind_run, Hpre. cbv beta iota zeta. unfold set_Y. reflexivity.
    + now apply ensureInRange_bounds.
    + reflexivity.
Qed.

End HandlerExtras.

(** * Further runs on the recording console *)

Section ExtraScenarios.

Import Winterm.
Local Open Scope handler_scope.

Lemma Flush_success_witness :
  buffer (fst (snd (Flush (set_buffer ["h"%byte; "i"%byte] handler80x25,
                           console80x25 0 0)))) = [].
Proof.
  apply (Flush_success
           (set_buffer ["h"%byte; "i"%byte] handler80x25, console80x25 0 0)).
  reflexivity.
Defined.

Lemma Flush_twice_witness :
  Flush (snd (Flush (set_marginByte "X"%byte
                       (set_wrapNext true
                          (set_buffer ["h"%byte; "i"%byte] handler80x25)),
                     console80x25 79 0)))
  = (Ok tt,
     snd (Flush (set_marginByte "X"%byte
                   (set_wrapNext true
                      (set_buffer ["h"%byte; "i"%byte] handler80x25)),
                 console80x25 79 0))).
Proof.
  apply (Flush_twice
           (set_marginByte "X"%byte
              (set_wrapNext true (set_buffer ["h"%byte; "i"%byte] handler80x25)),
            console80x25 79 0)).
  reflexivity.
Defined.

(** The recording console keeps the contract of a file: [console_write]
    appends to [con_file] exactly the bytes it reports, and the console
    calls leave [con_file] alone. *)
Lemma recording_contract : writerContract (backend := recordingBackend) con_file.
Proof.
  split; [|repeat split].
  intros bs w. unfold fileWrite, recordingBackend, console_write.
  destruct (con_room w) as [room|]; cbn [fst snd con_file].
  - split; [apply Nat.le_min_r|reflexivity].
  - split; [apply Nat.le_refl|]. now rewrite firstn_all.
Qed.

(** A byte printed in the margin while the file takes two more bytes. *)
Lemma handler_never_panics_witness :
  panicked (fst (Print "Y"%byte
                   (set_marginByte "X"%byte
                      (set_wrapNext true
                         (set_buffer ["h"%byte; "i"%byte; "!"%byte]
                            handler80x25)),
                    with_room 2 (console80x25 79 0)))) = false.
Proof.
  apply (handler_never_panics (World := Console)
           (contract_honest con_file recording_contract)).
Defined.

(** "Hello" flushed to a file that takes two more bytes: "He" in the file
    and "llo" pending make up "Hello". *)
Lemma Flush_keeps_stream_witness :
  stream con_file
    (snd (Flush (set_buffer (list_byte_of_string "Hello") handler80x25,
                 with_room 2 (console80x25 0 0))))
  = stream con_file
      (set_buffer (list_byte_of_string "Hello") handler80x25,
       with_room 2 (console80x25 0 0)).
Proof.
  apply (Flush_keeps_stream con_file recording_contract).
Defined.

Lemma Print_extends_stream_witness :
  match Print "Y"%byte
          (set_marginByte "X"%byte
             (set_wrapNext true (set_buffer ["h"%byte; "i"%byte] handler80x25)),
           console80x25 79 0)
  with
  | (Ok _, s') =>
      stream con_file s'
      = stream con_file
          (set_marginByte "X"%byte
             (set_wrapNext true (set_buffer ["h"%byte; "i"%byte] handler80x25)),
           console80x25 79 0) ++ ["Y"%byte]
  | (Err _, s') =>
      stream con_file s'
      = stream con_file
          (set_marginByte "X"%byte
             (set_wrapNext true (set_buffer ["h"%byte; "i"%byte] handler80x25)),
           console80x25 79 0)
  | (Panic _, _) => False
  end.
Proof.
  exact (Print_extends_stream con_file recording_contract "Y"%byte
           (set_marginByte "X"%byte
              (set_wrapNext true (set_buffer ["h"%byte; "i"%byte] handler80x25)),
            console80x25 79 0)).
Defined.

Lemma Execute_ignores_other_bytes_witness :
  Execute "A"%byte (set_buffer ["h"%byte] handler80x25, console80x25 3 0)
  = (Ok tt, (set_buffer ["h"%byte] handler80x25, console80x25 3 0)).
Proof.
  apply (Execute_ignores_other_bytes "A"%byte).
  vm_compute. intros Hin.
  repeat (destruct Hin as [Hin|Hin]; [discriminate Hin|]). exact Hin.
Defined.

(** TAB in column 5 of the 80-column console moves to column 8. *)
Lemma Execute_TAB_next_stop_witness :
  Execute ANSI_TAB (handler80x25, console80x25 5 0)
  = (Flush ;;
     call (SetConsoleCursorPosition
             {| X := Z.min (8 * (5 / 8) + 8) (80 - 1); Y := 0 |}))
      (set_curPos {| X := 5; Y := 0 |}
         (set_curInfo (Some (con_info (console80x25 5 0))) handler80x25),
       console80x25 5 0).
Proof.
  apply (proj1 (Execute_TAB_next_stop (handler80x25, console80x25 5 0))
           {| X := 5; Y := 0 |} (con_info (console80x25 5 0))).
  - reflexivity.
  - reflexivity.
  - cbn. lia.
  - cbn. lia.
Defined.

(** DECSTBM 5,10 on the 80 by 25 console selects rows 4 to 9. *)
Lemma DECSTBM_effective_region_witness :
  effectiveSr (fst (snd (DECSTBM 5 10 (handler80x25, console80x25 0 0))))
    {| Left := 0; Top := 0; Right := 79; Bottom := 24 |}
  = {| top := 4; bottom := 9 |}.
Proof.
  rewrite (DECSTBM_effective_region 5 10 (handler80x25, console80x25 0 0)
             (snd (DECSTBM 5 10 (handler80x25, console80x25 0 0)))
             {| Left := 0; Top := 0; Right := 79; Bottom := 24 |}).
  - reflexivity.
  - reflexivity.
  - cbn. lia.
  - cbn. lia.
  - lia.
  - lia.
  - cbn. lia.
  - cbn. lia.
Defined.

(** ED 2 issued while a wrap is pending on the last column. *)
Lemma commands_clear_wrap_witness :
  wrapNext (fst (snd (runClearing (ClearED 2)
      (set_marginByte "X"%byte (set_wrapNext true handler80x25),
       eraseConsole80x25 79 0)))) = false
  /\ drewMarginByte (fst (snd (runClearing (ClearED 2)
      (set_marginByte "X"%byte (set_wrapNext true handler80x25),
       eraseConsole80x25 79 0)))) = false.
Proof.
  apply (commands_clear_wrap (ClearED 2)
           (set_marginByte "X"%byte (set_wrapNext true handler80x25),
            eraseConsole80x25 79 0)).
  vm_compute. reflexivity.
Defined.

(** [CSI 3 K] and [CSI 3 J] with the cursor at (5,7). *)
Lemma EL_unknown_mode_witness :
  Ansiterm.getEraseParam ["3"%string] = 3
  /\ EL (Ansiterm.getEraseParam ["3"%string])
       (handler80x25, eraseConsole80x25 5 7)
     = (Flush ;;
        clearWrap ;;
        _ <- getInfo ;;
        attrs <- gets attributes ;;
        call (clearRange attrs {| X := 0; Y := 0 |} {| X := 0; Y := 0 |}))
         (handler80x25, eraseConsole80x25 5 7)
  /\ ED (Ansiterm.getEraseParam ["3"%string])
       (handler80x25, eraseConsole80x25 5 7)
     = ED 2 (handler80x25, eraseConsole80x25 5 7).
Proof.
  apply (EL_unknown_mode_clears_origin ["3"%string]);
    vm_compute; discriminate.
Defined.

Example EL_3_clears_the_origin_cell :
  er_cleared (snd (snd (EL (Ansiterm.getEraseParam ["3"%string])
                          (handler80x25, eraseConsole80x25 5 7))))
  = [(7, {| X := 0; Y := 0 |}, {| X := 0; Y := 0 |})]
  /\ er_cleared (snd (snd (EL (Ansiterm.getEraseParam ["2"%string])
                             (handler80x25, eraseConsole80x25 5 7))))
     = [(7, {| X := 0; Y := 7 |}, {| X := 80; Y := 7 |})].
Proof. split; reflexivity. Qed.

(** A line feed with carriage return in row 0 of the full window. *)
Lemma simulateLF_leaves_LF_witness :
  simulateLF true (handler80x25, console80x25 5 0)
  = (Ok false,
     (set_curPos {| X := 0; Y := wrap16 (0 + 1) |}
        (set_curPos {| X := 5; Y := 0 |}
           (set_curInfo (Some (con_info (console80x25 5 0))) handler80x25)),
      console80x25 5 0)).
Proof.
  destruct (simulateLF_leaves_LF_to_windows (backend := recordingBackend) true
              (handler80x25, console80x25 5 0)
              (set_curPos {| X := 5; Y := 0 |}
                 (set_curInfo (Some (con_info (console80x25 5 0)))
                    handler80x25),
               console80x25 5 0)
              {| X := 5; Y := 0 |} (con_info (console80x25 5 0)))
    as [_ Hdown]; [reflexivity|].
  apply Hdown.
  - cbn. lia.
  - cbn. lia.
Defined.

Lemma dispatch_DECTCEM_witness :
  hDispatch ["?25"%string] (set_wrapNext true handler80x25, console80x25 79 0)
  = DECTCEM true (set_wrapNext true handler80x25, console80x25 79 0)
  /\ lDispatch ["?25"%string]
       (set_wrapNext true handler80x25, console80x25 79 0)
     = DECTCEM false (set_wrapNext true handler80x25, console80x25 79 0).
Proof.
  apply (proj1 (dispatch_DECTCEM ["?25"%string]
                  (set_wrapNext true handler80x25, console80x25 79 0))).
  reflexivity.
Defined.


(** A form feed in column 5 with "hi" buffered. *)
Lemma Execute_extends_stream_witness :
  wrapNext (fst (snd (Execute ANSI_FORM_FEED
      (set_buffer ["h"%byte; "i"%byte] handler80x25, console80x25 5 0))))
  = false
  /\ (stream con_file (snd (Execute ANSI_FORM_FEED
        (set_buffer ["h"%byte; "i"%byte] handler80x25, console80x25 5 0)))
      = stream con_file
          (set_buffer ["h"%byte; "i"%byte] handler80x25, console80x25 5 0)
      \/ stream con_file (snd (Execute ANSI_FORM_FEED
           (set_buffer ["h"%byte; "i"%byte] handler80x25, console80x25 5 0)))
         = stream con_file
             (set_buffer ["h"%byte; "i"%byte] handler80x25, console80x25 5 0)
           ++ [ANSI_LINE_FEED]).
Proof.
  apply (Execute_extends_stream con_file recording_contract ANSI_FORM_FEED
           (set_buffer ["h"%byte; "i"%byte] handler80x25, console80x25 5 0)).
  reflexivity.
Defined.

(** CUP 0,-3 and VPA 70000 on the 80 by 25 console. *)
Lemma CUP_VPA_stay_in_window_witness :
  (exists position,
      CUP 0 (-3) (handler80x25, console80x25 5 7)
      = call (setCursorPosition position {| X := 80; Y := 25 |})
          (handler80x25, console80x25 5 7)
      /\ 0 <= Y position <= 24
      /\ 0 <= X position <= 80 - 1
      /\ Y position = ensureInRange (wrap16 (wrap16 (0 - 1) + 0)) 0 24)
  /\ (exists y,
        VPA 70000 (handler80x25, console80x25 5 7)
        = call (SetConsoleCursorPosition {| X := 5; Y := y |})
            (handler80x25, console80x25 5 7)
        /\ 0 <= y <= 24
        /\ y = ensureInRange (wrap16 (70000 - 1)) 0 24).
Proof.
  destruct (CUP_VPA_stay_in_window (backend := recordingBackend)
              (handler80x25, console80x25 5 7)
              (handler80x25, console80x25 5 7)
              (con_info (console80x25 5 7)))
    as [HCUP HVPA]; [reflexivity|cbn; lia|cbn; lia|].
  split; [apply (HCUP 0 (-3))|apply (HVPA 70000)].
Defined.

(** Beyond the bounds of X11: in a buffer 32767 columns wide, TAB in
    column 32760 overflows [int16] and asks for column -32768. *)
Example TAB_overflows_in_a_wide_buffer :
  con_calls
    (snd (snd (Execute ANSI_TAB
       (handler80x25,
        {| con_info :=
             {| Size := {| X := 32767; Y := 25 |};
                CursorPosition := {| X := 32760; Y := 0 |};
                Attributes := 7;
                Window := {| Left := 0; Top := 0; Right := 79; Bottom := 24 |};
                MaximumWindowSize := {| X := 80; Y := 25 |} |};
           con_file := []; con_calls := []; con_room := None |}))))
  = [CallSetConsoleCursorPosition {| X := -32768; Y := 0 |}].
Proof. vm_compute. reflexivity. Qed.

(** Beyond the bounds of X12: the bottom row of DECSTBM 5,40000 overflows
    [int16], and the effective region is the full window. *)
Example DECSTBM_overflows_to_full_window :
  effectiveSr (fst (snd (DECSTBM 5 40000 (handler80x25, console80x25 0 0))))
    {| Left := 0; Top := 0; Right := 79; Bottom := 24 |}
  = {| top := 0; bottom := 24 |}.
Proof. vm_compute. reflexivity. Qed.

End ExtraScenarios.

(** * Properties of the handler of win_event_handler.go *)

Section MarginFacts.

Import Winterm.
Import MarginHandler.
Local Open Scope handler_scope.

Context {World : Type}.
Context {backend : ConsoleBackend World}.

Ltac unfold_all :=
  unfold bind, ret, panic, gets, modify, call, getInfo, attempt in *;
  cbn [fst snd] in *.

Ltac split_match :=
  match goal with
  | |- context [match ?x with _ => _ end] =>
      lazymatch x with
      | context [match _ with _ => _ end] => fail
      | _ => destruct x eqn:?
      end
  | H : context [match ?x with _ => _ end] |- _ =>
      lazymatch x with
      | context [match _ with _ => _ end] => fail
      | _ => destruct x eqn:?
      end
  end.

Ltac reduce := repeat progress (cbv beta iota zeta; cbn [fst snd]).

Ltac projections :=
  cbn [fst snd attributes inverted infoReset sr buffer wasInMargin curInfo
       curPos set_buffer set_wasInMargin set_curInfo set_curPos] in *.

(** *** Flush *)

Lemma Flush_nil_cases (s s' : WindowsAnsiEventHandler * World) :
  Flush s = (Ok tt, s') ->
  (bufferEmpty (fst s') = true /\ curInfo (fst s') = None)
  \/ (bufferEmpty (fst s) = false
      /\ curInfo (fst s) = None
      /\ (exists e, fst (GetConsoleScreenBufferInfo (snd s)) = inl e)
      /\ fst s' = fst s).
Proof.
  destruct s as [h w].
  unfold Flush, cacheInfo, deref_curInfo, slice_to, index, file_Write.
  unfold_all.
  repeat (split_match; projections; try discriminate).
  all: intros Heq; inversion Heq; subst; projections.
  all: first [ left; split; [reflexivity|reflexivity]
             | left; split; [assumption|reflexivity]
             | right; repeat split; eauto ].
Qed.

(** X21: [Flush] returns nil in two ways.  Either the buffer is empty in
    the sense of [bufferEmpty] (nothing in it, or only the wrap byte that
    has been painted) and the cache is dropped; or the buffer was not
    empty, the cache was invalid and the console query failed, and then
    nothing was written and the handler is unchanged.  The second way is
    taken whenever its conditions hold: the failure of the query is not
    reported. *)
Theorem Flush_returns_nil (s : WindowsAnsiEventHandler * World) :
  (forall s', Flush s = (Ok tt, s') ->
     (bufferEmpty (fst s') = true /\ curInfo (fst s') = None)
     \/ (bufferEmpty (fst s) = false
         /\ curInfo (fst s) = None
         /\ (exists e, fst (GetConsoleScreenBufferInfo (snd s)) = inl e)
         /\ fst s' = fst s))
  /\ (forall e w',
        bufferEmpty (fst s) = false -> curInfo (fst s) = None ->
        GetConsoleScreenBufferInfo (snd s) = (inl e, w') ->
        Flush s = (Ok tt, (fst s, w'))).
Proof.
  split; [intros s'; apply Flush_nil_cases|].
  destruct s as [h w]. cbn [fst snd]. intros e w' Hne Hci Hq.
  unfold Flush, cacheInfo. unfold_all. reduce. rewrite Hne. reduce.
  rewrite Hci. reduce. rewrite Hq. reflexivity.
Qed.

Lemma firstn_last (l : list byte) (b : byte) :
  0 < len l ->
  nth_error l (Z.to_nat (len l - 1)) = Some b ->
  firstn (Z.to_nat (len l - 1)) l ++ [b] = l.
Proof.
  unfold len. intros Hpos Hnth.
  apply nth_error_split in Hnth as (l1 & l2 & -> & Hlen).
  rewrite length_app in Hlen. cbn [List.length] in Hlen.
  assert (Hl2 : l2 = []) by (destruct l2; [reflexivity|cbn in Hlen; lia]).
  subst l2. rewrite length_app. cbn [List.length].
  replace (Z.to_nat (Z.of_nat (List.length l1 + 1) - 1)) with (List.length l1)
    by lia.
  rewrite firstn_app, firstn_all, Nat.sub_diag. cbn. now rewrite app_nil_r.
Qed.

Ltac bools :=
  repeat match goal with
  | H : (_ <? _) = true |- _ => apply Z.ltb_lt in H
  | H : (_ <? _) = false |- _ => apply Z.ltb_ge in H
  | H : (_ =? _) = true |- _ => apply Z.eqb_eq in H
  | H : (_ =? _) = false |- _ => apply Z.eqb_neq in H
  | H : _ || _ = false |- _ => apply orb_false_iff in H; destruct H
  | H : _ || _ = true |- _ => apply orb_true_iff in H
  | H : _ && _ = true |- _ => apply andb_true_iff in H; destruct H
  end.

Section FileFacts.

Variable fileOf : World -> list byte.
Hypothesis contract : fileContract fileOf.

(** What the contract says about the calls recorded in the context. *)
Ltac file_facts :=
  let Hwrite := fresh "Hwrite" in
  let Hinfo := fresh "Hinfo" in
  let Hout := fresh "Hout" in
  pose proof contract as (Hwrite & Hinfo & _ & _ & Hout);
  repeat match goal with
  | E : GetConsoleScreenBufferInfo ?w = (_, _) |- _ =>
      let F := fresh "F" in
      pose proof (Hinfo w) as F; rewrite E in F; cbn [snd] in F; clear E
  | E : WriteConsoleOutput ?a ?b ?c ?d ?w = (_, _) |- _ =>
      let F := fresh "F" in
      pose proof (Hout a b c d w) as F; rewrite E in F; cbn [snd] in F; clear E
  | E : fileWrite ?bs ?w = (_, _, _) |- _ =>
      let F := fresh "F" in
      pose proof (Hwrite bs w) as F; rewrite E in F; cbv beta iota in F; clear E
  end;
  clear Hwrite Hinfo Hout;
  repeat match goal with
  | F : fileOf _ = _ |- _ => rewrite F; clear F
  end.

Lemma Flush_stream_nil (s s' : WindowsAnsiEventHandler * World) :
  Flush s = (Ok tt, s') ->
  fileOf (snd s') ++ buffer (fst s') = fileOf (snd s) ++ buffer (fst s).
Proof.
  destruct s as [h w].
  unfold Flush, cacheInfo, deref_curInfo, slice_to, index, file_Write.
  unfold_all.
  repeat (split_match; projections; try discriminate).
  all: intros Heq; inversion Heq; subst; projections; clear Heq.
  all: file_facts; rewrite <- ?app_assoc; try reflexivity; f_equal; bools.
  all: try (apply firstn_last; [lia|assumption]).
  all: try (unfold len; rewrite Nat2Z.id, firstn_all; now rewrite app_nil_r).
  all: destruct (buffer h) as [|x [|y l]]; unfold len in *;
    cbn [List.length] in *; try lia; try reflexivity.
  all: match goal with
       | H : nth_error _ _ = Some _ |- _ => cbn in H; now inversion H
       end.
Qed.

(** X22: for a file that keeps the contract of [os.File.Write], a [Flush]
    that returns nil neither loses nor duplicates a byte: the file followed
    by the buffer is the same before and after.  In the margin the last
    byte is painted and stays in the buffer, to be written when the next
    byte is printed. *)
Theorem Flush_nil_keeps_stream (s s' : WindowsAnsiEventHandler * World) :
  Flush s = (Ok tt, s') ->
  fileOf (snd s') ++ buffer (fst s') = fileOf (snd s) ++ buffer (fst s).
Proof. apply Flush_stream_nil. Qed.

(** X23: a [Flush] that returns an error keeps the whole buffer, although
    a prefix of it may have reached the file: what the file received is
    still in the buffer, and a later [Flush] writes it again. *)
Theorem Flush_error_keeps_buffer (s s' : WindowsAnsiEventHandler * World)
  (e : error) :
  Flush s = (Err e, s') ->
  buffer (fst s') = buffer (fst s)
  /\ wasInMargin (fst s') = wasInMargin (fst s)
  /\ exists written rest,
       fileOf (snd s') = fileOf (snd s) ++ written
       /\ buffer (fst s) = written ++ rest.
Proof.
  destruct s as [h w].
  unfold Flush, cacheInfo, deref_curInfo, slice_to, index, file_Write.
  unfold_all.
  repeat (split_match; projections; try discriminate).
  all: intros Heq; inversion Heq; subst; projections; clear Heq.
  all: split; [reflexivity|split; [reflexivity|]].
  all: file_facts; rewrite ?firstn_firstn.
  all: first
    [ exists [], (buffer h); split; [now rewrite app_nil_r|reflexivity]
    | eexists (firstn _ (buffer h)), (skipn _ (buffer h));
      split; [reflexivity|symmetry; apply firstn_skipn] ].
Qed.

(** X26: BEL goes straight to the file.  When [Execute] of BEL returns
    nil, BEL is the last byte of the file and is not in the buffer, and
    nothing else has changed in the stream: the file without that BEL,
    followed by the buffer, is the file followed by the buffer as they
    were. *)
Theorem Execute_BEL_writes_directly (s s' : WindowsAnsiEventHandler * World) :
  Execute ANSI_BEL s = (Ok tt, s') ->
  exists written,
    fileOf (snd s') = written ++ [ANSI_BEL]
    /\ written ++ buffer (fst s') = fileOf (snd s) ++ buffer (fst s).
Proof.
  unfold Execute. change (Byte.eqb ANSI_BEL ANSI_TAB) with false.
  change (Byte.eqb ANSI_BEL ANSI_BEL) with true. cbv iota.
  rewrite bind_run.
  destruct (Flush s) as [[[]|e|m] [h1 w1]] eqn:HF; try discriminate.
  apply Flush_stream_nil in HF. cbn [fst snd] in HF.
  unfold file_Write. unfold_all.
  destruct (fileWrite [ANSI_BEL] w1) as [[n [e|]] w2] eqn:Hw; [discriminate|].
  intros Heq. inversion Heq; subst. cbn [fst snd].
  exists (fileOf w1). split; [|exact HF].
  pose proof contract as (Hwrite & _). specialize (Hwrite [ANSI_BEL] w1).
  rewrite Hw in Hwrite. exact Hwrite.
Qed.

End FileFacts.

(** *** What never panics *)

Lemma safe_ret {A} (a : A) : neverPanics (World := World) (ret a).
Proof. intros s. reflexivity. Qed.

Lemma safe_bind {A B} (c : @H World A) (k : A -> @H World B) :
  neverPanics c -> (forall a, neverPanics (k a)) -> neverPanics (bind c k).
Proof.
  intros Hc Hk s. unfold bind. specialize (Hc s).
  destruct (c s) as [[a|e|m] s1]; cbn [fst panicked] in *;
    [apply Hk|reflexivity|discriminate].
Qed.

Lemma safe_gets {A} (f : WindowsAnsiEventHandler -> A) :
  neverPanics (World := World) (gets f).
Proof. intros s. reflexivity. Qed.

Lemma safe_modify (f : WindowsAnsiEventHandler -> WindowsAnsiEventHandler) :
  neverPanics (World := World) (modify f).
Proof. intros s. reflexivity. Qed.

Lemma safe_call (f : World -> option error * World) : neverPanics (call f).
Proof. intros [h w]. unfold call. cbn [snd]. now destruct (f w) as [[e|] w1]. Qed.

Lemma safe_getInfo : neverPanics getInfo.
Proof.
  intros [h w]. unfold getInfo. cbn [snd].
  now destruct (GetConsoleScreenBufferInfo w) as [[e|info] w1].
Qed.

Lemma safe_if {A} (b : bool) (c1 c2 : @H World A) :
  neverPanics c1 -> neverPanics c2 -> neverPanics (if b then c1 else c2).
Proof. now destruct b. Qed.

Lemma safe_attempt {A} (c : @H World A) :
  neverPanics c -> neverPanics (attempt c).
Proof.
  intros Hc s. unfold attempt. specialize (Hc s).
  now destruct (c s) as [[a|e|m] s1].
Qed.

Ltac safe_step :=
  cbv beta zeta;
  lazymatch goal with
  | |- neverPanics (bind _ _) => apply safe_bind; [|intros ?]
  | |- neverPanics (ret _) => apply safe_ret
  | |- neverPanics (gets _) => apply safe_gets
  | |- neverPanics (modify _) => apply safe_modify
  | |- neverPanics (call _) => apply safe_call
  | |- neverPanics getInfo => apply safe_getInfo
  | |- neverPanics (attempt _) => apply safe_attempt
  | |- neverPanics (buffer_WriteByte _) => apply safe_modify
  | |- neverPanics (file_Write _) => apply safe_call
  | |- neverPanics (match ?x with pair _ _ => _ end) => destruct x
  | |- neverPanics (match ?x with Some _ => _ | None => _ end) => destruct x
  | |- neverPanics (if _ then _ else _) => apply safe_if
  end.

Lemma safe_cacheInfo : neverPanics cacheInfo.
Proof. unfold cacheInfo. repeat safe_step. Qed.

Lemma safe_clearWrap : neverPanics (World := World) clearWrap.
Proof. unfold clearWrap. repeat safe_step. Qed.

Lemma safe_scrollUp (n : Z) : neverPanics (scrollUp n).
Proof. unfold scrollUp, scroll. repeat safe_step. Qed.

(** Once [cacheInfo] has returned nil the console information is cached. *)
Lemma cacheInfo_caches (s s' : WindowsAnsiEventHandler * World) :
  cacheInfo s = (Ok tt, s') -> exists info, curInfo (fst s') = Some info.
Proof.
  destruct s as [h w]. unfold cacheInfo. unfold_all.
  repeat (split_match; projections; try discriminate).
  all: intros Heq; inversion Heq; subst; projections; eauto.
Qed.

Lemma deref_cached (s : WindowsAnsiEventHandler * World)
  (info : CONSOLE_SCREEN_BUFFER_INFO) :
  curInfo (fst s) = Some info -> deref_curInfo s = (Ok info, s).
Proof. intros Hci. unfold deref_curInfo. unfold_all. now rewrite Hci. Qed.

(** After [cacheInfo], a step that leaves the cache alone and a
    dereference, nothing panics if the rest does not. *)
Lemma safe_cached {A B} (c : @H World A)
  (k : A -> CONSOLE_SCREEN_BUFFER_INFO -> @H World B) :
  neverPanics c ->
  (forall s, curInfo (fst (snd (c s))) = curInfo (fst s)) ->
  (forall a info, neverPanics (k a info)) ->
  neverPanics (cacheInfo ;; a <- c ;; info <- deref_curInfo ;; k a info).
Proof.
  intros Hc Hkeep Hk s. rewrite bind_run.
  pose proof (safe_cacheInfo s) as Hsafe.
  destruct (cacheInfo s) as [[[]|e|m] s1] eqn:Hci;
    cbn [fst panicked] in *; [|reflexivity|discriminate].
  apply cacheInfo_caches in Hci as [info Hinfo].
  rewrite bind_run. specialize (Hc s1). specialize (Hkeep s1).
  destruct (c s1) as [[a|e|m] s2]; cbn [fst snd panicked] in *;
    [|reflexivity|discriminate].
  rewrite bind_run, (deref_cached s2 info) by congruence.
  apply Hk.
Qed.

Lemma safe_Flush : neverPanics Flush.
Proof.
  intros [h w].
  unfold Flush, cacheInfo, deref_curInfo, slice_to, index, file_Write.
  unfold_all.
  repeat (split_match; projections; try discriminate); try reflexivity.
  all: exfalso; unfold bufferEmpty in *; bools.
  all: repeat match goal with H : _ \/ _ |- _ => destruct H end; bools.
  all: unfold len in *;
    try match goal with
        | H : nth_error _ _ = None |- _ => apply nth_error_None in H
        end;
    lia.
Qed.

Lemma safe_simulateLF (includeCR : bool) : neverPanics (simulateLF includeCR).
Proof.
  unfold simulateLF.
  apply (safe_cached
           (if includeCR
            then modify (fun h => set_curPos (set_X 0 (curPos h)) h)
            else ret tt)
           (fun _ info =>
              h <- gets (fun h => h) ;;
              let '(sr, srActive) := effectiveSr h (Window info) in
              _)).
  - destruct includeCR; [apply safe_modify|apply safe_ret].
  - intros s. now destruct includeCR.
  - intros _ info.
    repeat first
      [ apply safe_Flush | apply safe_clearWrap | apply safe_scrollUp
      | safe_step ].
Qed.

Lemma safe_Print (b : byte) : neverPanics (Print b).
Proof.
  unfold Print.
  apply (safe_cached (gets curPos)
           (fun pos info =>
              (if X pos =? X (Size info)
               then _ <- simulateLF true ;; cacheInfo
               else ret tt) ;;
              modify (fun h =>
                        set_curPos (set_X (wrap16 (X (curPos h) + 1)) (curPos h))
                          h) ;;
              buffer_WriteByte b)).
  - apply safe_gets.
  - reflexivity.
  - intros pos info.
    repeat first
      [ apply safe_simulateLF | apply safe_cacheInfo | safe_step ].
Qed.

Lemma safe_IND : neverPanics IND.
Proof.
  unfold IND.
  repeat first
    [ apply safe_Flush | apply safe_clearWrap | apply safe_simulateLF
    | apply safe_cacheInfo | safe_step ].
Qed.

Lemma safe_Execute (b : byte) : neverPanics (Execute b).
Proof.
  unfold Execute.
  destruct (Byte.eqb b ANSI_TAB).
  { apply (safe_cached (gets curPos)
             (fun pos info =>
                if negb (X pos =? X (Size info)) then _ else ret tt)).
    - apply safe_gets.
    - reflexivity.
    - intros pos info. repeat first [apply safe_Flush | safe_step]. }
  repeat first
    [ apply safe_Flush | apply safe_clearWrap | apply safe_simulateLF
    | apply safe_cacheInfo | apply safe_IND | safe_step ].
Qed.

(** X24: no nil dereference and no index out of range: [Print],
    [Execute], [IND], [Flush], [simulateLF], [clearWrap] and [cacheInfo]
    never panic, from any handler state and whatever the console and the
    file return. *)
Theorem margin_handler_never_panics (s : WindowsAnsiEventHandler * World) :
  (forall b, panicked (fst (Print b s)) = false)
  /\ (forall b, panicked (fst (Execute b s)) = false)
  /\ panicked (fst (IND s)) = false
  /\ panicked (fst (Flush s)) = false
  /\ (forall includeCR, panicked (fst (simulateLF includeCR s)) = false)
  /\ panicked (fst (clearWrap s)) = false
  /\ panicked (fst (cacheInfo s)) = false.
Proof.
  repeat split; intros.
  - apply safe_Print.
  - apply safe_Execute.
  - apply safe_IND.
  - apply safe_Flush.
  - apply safe_simulateLF.
  - apply safe_clearWrap.
  - apply safe_cacheInfo.
Qed.

(** *** DA *)

Lemma parseParams_head (buf : list byte) (p : string) (ps : list string) :
  fst (Ansiterm.parseParams buf) = p :: ps ->
  exists c rest, p = String c rest.
Proof.
  rewrite parseParams_split. intros Heq.
  assert (Hin : In p (map string_of_list_byte
                        (filter Ansiterm.nonEmpty
                           (Ansiterm.splitOn ";"%byte buf))))
    by (rewrite Heq; now left).
  apply in_map_iff in Hin as (t & <- & Ht).
  apply filter_In in Ht as [_ Hne].
  destruct t as [|b t]; [discriminate Hne|].
  cbn. eauto.
Qed.

(** X25: on the parameters [parseParams] returns, [DA] panics exactly
    when there are none: a token is never empty, so [params[0][0]] is only
    out of range for an empty list.  Otherwise [DA] appends its response to
    the output buffer, the secondary one when the first token starts with
    [>], and touches nothing else. *)
Theorem DA_on_parsed_params (buf : list byte)
  (s : WindowsAnsiEventHandler * World) :
  (fst (Ansiterm.parseParams buf) = [] ->
   panicked (fst (DA (fst (Ansiterm.parseParams buf)) s)) = true)
  /\ (fst (Ansiterm.parseParams buf) <> [] ->
      exists c rest ps,
        fst (Ansiterm.parseParams buf) = String c rest :: ps
        /\ DA (fst (Ansiterm.parseParams buf)) s
           = (Ok tt,
              (set_buffer
                 (buffer (fst s)
                  ++ (if Byte.eqb (Ascii.byte_of_ascii c) ">"%byte
                      then secondaryAttributes else primaryAttributes))
                 (fst s),
               snd s))).
Proof.
  split.
  - intros ->. reflexivity.
  - intros Hne.
    destruct (fst (Ansiterm.parseParams buf)) as [|p ps] eqn:Hp;
      [congruence|].
    destruct (parseParams_head buf p ps Hp) as (c & rest & ->).
    exists c, rest, ps. split; [reflexivity|].
    cbn [DA]. now destruct (Byte.eqb (Ascii.byte_of_ascii c) ">"%byte).
Qed.

End MarginFacts.

(** * Runs of the handler of win_event_handler.go *)

Section MarginScenarios.

Import Winterm.
Import MarginHandler.
Local Open Scope handler_scope.

(** The recording console keeps the contract of [os.File.Write]. *)
Lemma recording_fileContract :
  fileContract (backend := recordingBackend) con_file.
Proof.
  split; [|repeat split].
  intros bs w. unfold fileWrite, recordingBackend, console_write.
  destruct (con_room w) as [room|]; cbn [con_file]; [|reflexivity].
  destruct (Nat.ltb_spec room (List.length bs)); [reflexivity|].
  now rewrite Nat.min_r, firstn_all by lia.
Qed.

(** On a console whose handle is invalid, [Flush] returns nil and "hi"
    stays in the buffer. *)
Lemma Flush_returns_nil_witness :
  Flush (backend := invalidHandle)
    (set_buffer ["h"%byte; "i"%byte] handler80x25, tt)
  = (Ok tt, (set_buffer ["h"%byte; "i"%byte] handler80x25, tt)).
Proof.
  apply (proj2 (Flush_returns_nil (backend := invalidHandle)
                  (set_buffer ["h"%byte; "i"%byte] handler80x25, tt))
           (EBackend 6) tt); reflexivity.
Defined.

(** "hi" flushed with the cursor in the margin of the 80-column console:
    "h" goes to the file, "i" is painted in column 79 and stays in the
    buffer. *)
Example Flush_in_margin :
  Flush (set_curPos {| X := 80; Y := 0 |}
           (set_curInfo (Some (con_info (console80x25 79 0)))
              (set_buffer ["h"%byte; "i"%byte] handler80x25)),
         console80x25 79 0)
  = (Ok tt,
     (set_curPos {| X := 80; Y := 0 |}
        (set_wasInMargin true (set_buffer ["i"%byte] handler80x25)),
      record
        (CallWriteConsoleOutput
           [{| UnicodeChar := 105; CharAttributes := 7 |}]
           {| X := 1; Y := 1 |} {| X := 0; Y := 0 |}
           {| Left := 79; Top := 0; Right := 79; Bottom := 0 |})
        {| con_info := con_info (console80x25 79 0);
           con_file := ["h"%byte];
           con_calls := [];
           con_room := None |})).
Proof. reflexivity. Qed.

Lemma Flush_nil_keeps_stream_witness :
  con_file (snd (snd (Flush
      (set_curPos {| X := 80; Y := 0 |}
         (set_curInfo (Some (con_info (console80x25 79 0)))
            (set_buffer ["h"%byte; "i"%byte] handler80x25)),
       console80x25 79 0))))
  ++ buffer (fst (snd (Flush
      (set_curPos {| X := 80; Y := 0 |}
         (set_curInfo (Some (con_info (console80x25 79 0)))
            (set_buffer ["h"%byte; "i"%byte] handler80x25)),
       console80x25 79 0))))
  = [] ++ ["h"%byte; "i"%byte].
Proof.
  apply (Flush_nil_keeps_stream con_file recording_fileContract
           (set_curPos {| X := 80; Y := 0 |}
              (set_curInfo (Some (con_info (console80x25 79 0)))
                 (set_buffer ["h"%byte; "i"%byte] handler80x25)),
            console80x25 79 0)).
  reflexivity.
Defined.

(** A file that takes two more bytes: "He" is written, the write fails,
    and "Hello" stays in the buffer. *)
Lemma Flush_error_keeps_buffer_witness :
  buffer (fst (snd (Flush
      (set_buffer (list_byte_of_string "Hello") handler80x25,
       with_room 2 (console80x25 0 0)))))
  = list_byte_of_string "Hello"
  /\ wasInMargin (fst (snd (Flush
       (set_buffer (list_byte_of_string "Hello") handler80x25,
        with_room 2 (console80x25 0 0)))))
     = false
  /\ exists written rest,
       con_file (snd (snd (Flush
         (set_buffer (list_byte_of_string "Hello") handler80x25,
          with_room 2 (console80x25 0 0)))))
       = [] ++ written
       /\ list_byte_of_string "Hello" = written ++ rest.
Proof.
  apply (Flush_error_keeps_buffer con_file recording_fileContract
           (set_buffer (list_byte_of_string "Hello") handler80x25,
            with_room 2 (console80x25 0 0))
           _ (EBackend 112)).
  reflexivity.
Defined.

(** After that failure a second [Flush], the file accepting bytes again,
    writes the whole buffer: "He" is in the file twice. *)
Example Flush_retry_rewrites :
  con_file (snd (snd (Flush
    (fst (snd (Flush
       (set_buffer (list_byte_of_string "Hello") handler80x25,
        with_room 2 (console80x25 0 0)))),
     {| con_info := con_info (console80x25 0 0);
        con_file := list_byte_of_string "He";
        con_calls := [];
        con_room := None |}))))
  = list_byte_of_string "HeHello".
Proof. reflexivity. Qed.

(** [CSI > c]: the secondary response is queued for the console. *)
Lemma DA_on_parsed_params_witness :
  exists c rest ps,
    fst (Ansiterm.parseParams [">"%byte]) = String c rest :: ps
    /\ DA (fst (Ansiterm.parseParams [">"%byte]))
         (handler80x25, console80x25 0 0)
       = (Ok tt,
          (set_buffer
             ([] ++ (if Byte.eqb (Ascii.byte_of_ascii c) ">"%byte
                     then secondaryAttributes else primaryAttributes))
             handler80x25,
           console80x25 0 0)).
Proof.
  apply (proj2 (DA_on_parsed_params [">"%byte]
                  (handler80x25, console80x25 0 0))).
  vm_compute. discriminate.
Defined.

(** BEL with "hi" buffered: "hi" is flushed and BEL follows it in the
    file. *)
Lemma Execute_BEL_writes_directly_witness :
  exists written,
    con_file (snd (snd (Execute ANSI_BEL
      (set_buffer ["h"%byte; "i"%byte] handler80x25, console80x25 0 0))))
    = written ++ [ANSI_BEL]
    /\ written
       ++ buffer (fst (snd (Execute ANSI_BEL
            (set_buffer ["h"%byte; "i"%byte] handler80x25,
             console80x25 0 0))))
       = [] ++ ["h"%byte; "i"%byte].
Proof.
  apply (Execute_BEL_writes_directly con_file recording_fileContract
           (set_buffer ["h"%byte; "i"%byte] handler80x25, console80x25 0 0)).
  reflexivity.
Defined.

Example Execute_BEL_run :
  Execute ANSI_BEL
    (set_buffer ["h"%byte; "i"%byte] handler80x25, console80x25 0 0)
  = (Ok tt,
     (set_curPos {| X := 0; Y := 0 |} handler80x25,
      {| con_info := con_info (console80x25 0 0);
         con_file := ["h"%byte; "i"%byte; ANSI_BEL];
         con_calls := [];
         con_room := None |})).
Proof. reflexivity. Qed.

(** [CSI c] without parameters panics in [DA]. *)
Example DA_without_parameters :
  DA (fst (Ansiterm.parseParams [])) (handler80x25, console80x25 0 0)
  = (Panic "index out of range", (handler80x25, console80x25 0 0)).
Proof. reflexivity. Qed.

End MarginScenarios.
